(** * routes/biens.js: the property-listing routes, embedded and verified

    The Express router of [src/routes/biens.js] is embedded as pure
    functions: a request handler becomes a function from the connection
    (the database state and the statements sent so far) and the request
    to a response and the connection after it.  The six routes are
    embedded, GET /mes-biens, GET /, GET /:id, POST /, PUT /:id and
    DELETE /:id; the authentication and ownership middlewares are taken
    to have let the request through.

    The collaborators that the handlers call are modelled next to them:

    - the JavaScript built-ins [parseInt], [parseFloat], [Math.ceil],
      truthiness and the arithmetic of numbers ([Module JS]);
    - the SQL statements that the handlers send, run over tables held as
      lists of rows, with SQLite's reading of LIKE, of LIMIT and OFFSET
      and of text bound to a numeric column ([Module Sql]);
    - the validators and sanitizers of express-validator that
      [bienValidation] uses ([Module Validator]).

    Numbers are exact rationals extended with NaN and the two
    infinities: IEEE rounding and the sign of zero are not modelled, so
    the arithmetic is that of JavaScript on the safe integers (those
    below 2^53 in absolute value) and the statements about numbers that
    the handlers compute are stated for them.  Strings are sequences of
    8-bit characters; case folding and white space are the ASCII ones.
    A field of a query or of a body is absent or one text: repeated
    query parameters and JSON arrays or objects are not modelled.  The
    columns of a row are typed, and none is NULL. *)

From Stdlib Require Import Bool List ZArith QArith Qround Lia.
From Stdlib Require Import Ascii String Permutation Sorted.
Import ListNotations.

Local Open Scope string_scope.
Local Open Scope Z_scope.

(* ================================================================== *)
(** ** JavaScript values and built-ins *)

Module JS.

(** A JavaScript Number. *)
Inductive number : Type :=
| NaN
| Infinity (negative : bool)
| Num (q : Q).

Definition of_Z (z : Z) : number := Num (inject_Z z).

(** [if (s)] on a value that is either [undefined] or a string: only
    [undefined] and the empty string are falsy. *)
Definition truthy (v : option string) : bool :=
  match v with
  | None => false
  | Some EmptyString => false
  | Some (String _ _) => true
  end.

(** Destructuring default [x = d]: the default is taken only for
    [undefined]. *)
Definition or_default (d : string) (v : option string) : string :=
  match v with
  | None => d
  | Some s => s
  end.

(** [String(v)], the conversion that a template literal, [parseInt]
    and [parseFloat] apply to their argument. *)
Definition to_string (v : option string) : string :=
  match v with
  | Some s => s
  | None => "undefined"
  end.

(** *** Characters *)

(** The ASCII white space.  The white space of JavaScript outside
    ASCII (U+00A0 and the like) is not recognised, so a text is
    trimmed and parsed as in JavaScript when it has none at its
    ends. *)
Definition is_space (c : ascii) : bool :=
  let n := nat_of_ascii c in
  ((9 <=? n) && (n <=? 13) || (n =? 32))%nat.

Definition is_digit (c : ascii) : bool :=
  let n := nat_of_ascii c in
  ((48 <=? n) && (n <=? 57))%nat.

Definition digit_val (c : ascii) : Z := Z.of_nat (nat_of_ascii c) - 48.

(** Value of a hexadecimal digit, if [c] is one. *)
Definition hex_val (c : ascii) : option Z :=
  let n := nat_of_ascii c in
  if is_digit c then Some (Z.of_nat n - 48)
  else if ((65 <=? n) && (n <=? 70))%nat then Some (Z.of_nat n - 55)
  else if ((97 <=? n) && (n <=? 102))%nat then Some (Z.of_nat n - 87)
  else None.

Fixpoint trim_start (s : string) : string :=
  match s with
  | String c s' => if is_space c then trim_start s' else s
  | EmptyString => EmptyString
  end.

(** White space removed at the end: a character is dropped when it is a
    space and everything after it was dropped as well. *)
Fixpoint trim_end (s : string) : string :=
  match s with
  | EmptyString => EmptyString
  | String c s' =>
      match trim_end s' with
      | EmptyString => if is_space c then EmptyString else String c EmptyString
      | t => String c t
      end
  end.

Definition trim (s : string) : string := trim_end (trim_start s).

(** *** Numeric literals *)

(** Longest prefix of decimal digits, and what follows it. *)
Fixpoint span_digits (s : string) : string * string :=
  match s with
  | String c s' =>
      if is_digit c
      then let (d, r) := span_digits s' in (String c d, r)
      else (EmptyString, s)
  | EmptyString => (EmptyString, EmptyString)
  end.

Fixpoint digits_value_from (acc : Z) (s : string) : Z :=
  match s with
  | String c s' => digits_value_from (10 * acc + digit_val c) s'
  | EmptyString => acc
  end.

Definition digits_value (s : string) : Z := digits_value_from 0 s.

(** Longest prefix of hexadecimal digits read as a number; [None] when
    the prefix is empty. *)
Fixpoint hex_value_from (acc : option Z) (s : string) : option Z :=
  match s with
  | String c s' =>
      match hex_val c with
      | Some d =>
          hex_value_from
            (Some (16 * match acc with Some a => a | None => 0 end + d)) s'
      | None => acc
      end
  | EmptyString => acc
  end.

(** An optional sign: whether it is a minus, and the rest. *)
Definition split_sign (s : string) : bool * string :=
  match s with
  | String "-" s' => (true, s')
  | String "+" s' => (false, s')
  | _ => (false, s)
  end.

Definition signed (neg : bool) (z : Z) : Z := if neg then - z else z.

(** [parseInt(s)] with no radix: leading white space is skipped, a sign
    is read, a [0x]/[0X] prefix selects radix 16, and the longest prefix
    of digits is the value; trailing characters are ignored.  NaN when
    there is no digit.  The value is exact: it is the Number that
    JavaScript returns when it is a safe integer, and is not rounded
    beyond. *)
Definition parseInt (s : string) : number :=
  let (neg, body) := split_sign (trim_start s) in
  match body with
  | String "0" (String "x" h) | String "0" (String "X" h) =>
      match hex_value_from None h with
      | Some v => of_Z (signed neg v)
      | None => NaN
      end
  | _ =>
      match span_digits body with
      | (EmptyString, _) => NaN
      | (d, _) => of_Z (signed neg (digits_value d))
      end
  end.

(** [m * 10^e] as a rational. *)
Definition scale10 (m e : Z) : Q :=
  if 0 <=? e then inject_Z (m * 10 ^ e)
  else Qmake m (Z.to_pos (10 ^ (- e))).

(** The exponent part [e[+-]digits] of a decimal literal: its value, or 0
    when [s] does not start with a well-formed one. *)
Definition exponent_part (s : string) : Z :=
  match s with
  | String "e" r | String "E" r =>
      let (eneg, r') := split_sign r in
      match span_digits r' with
      | (EmptyString, _) => 0
      | (d, _) => signed eneg (digits_value d)
      end
  | _ => 0
  end.

(** [parseFloat(s)]: leading white space is skipped and the longest
    prefix that is a decimal literal (or a signed [Infinity]) is the
    value; NaN when there is none.  The value is the exact rational
    that the literal writes, not the nearest Number. *)
Definition parseFloat (s : string) : number :=
  let (neg, body) := split_sign (trim_start s) in
  if prefix "Infinity" body then Infinity neg
  else
    let (ip, r1) := span_digits body in
    let (fp, r2) :=
      match r1 with
      | String "." r => span_digits r
      | _ => (EmptyString, r1)
      end in
    match ip, fp with
    | EmptyString, EmptyString => NaN
    | _, _ =>
        Num (scale10 (signed neg (digits_value (ip ++ fp)))
                     (exponent_part r2 - Z.of_nat (String.length fp)))
    end.

(** *** Arithmetic and comparison *)

Definition is_zero (q : Q) : bool := Qeq_bool q 0.
Definition is_neg (q : Q) : bool := negb (Qle_bool 0 q).

Definition sub (a b : number) : number :=
  match a, b with
  | NaN, _ | _, NaN => NaN
  | Infinity s, Infinity t => if Bool.eqb s t then NaN else Infinity s
  | Infinity s, Num _ => Infinity s
  | Num _, Infinity t => Infinity (negb t)
  | Num x, Num y => Num (x - y)
  end.

Definition mul (a b : number) : number :=
  match a, b with
  | NaN, _ | _, NaN => NaN
  | Infinity s, Infinity t => Infinity (xorb s t)
  | Infinity s, Num y | Num y, Infinity s =>
      if is_zero y then NaN else Infinity (xorb s (is_neg y))
  | Num x, Num y => Num (x * y)
  end.

Definition div (a b : number) : number :=
  match a, b with
  | NaN, _ | _, NaN => NaN
  | Infinity _, Infinity _ => NaN
  | Infinity s, Num y => Infinity (xorb s (is_neg y))
  | Num _, Infinity _ => Num 0
  | Num x, Num y =>
      if is_zero y
      then (if is_zero x then NaN else Infinity (is_neg x))
      else Num (x / y)
  end.

(** [Math.ceil]. *)
Definition ceil (a : number) : number :=
  match a with
  | Num x => of_Z (Qceiling x)
  | _ => a
  end.

(** [a >= b] and [a <= b]: false as soon as one side is NaN. *)
Definition ge (a b : number) : bool :=
  match a, b with
  | NaN, _ | _, NaN => false
  | Infinity s, Infinity t => implb s t
  | Infinity s, Num _ => negb s
  | Num _, Infinity t => t
  | Num x, Num y => Qle_bool y x
  end.

Definition le (a b : number) : bool := ge b a.

Definition isNaN (a : number) : bool :=
  match a with NaN => true | _ => false end.

(** [Number.isInteger]. *)
Definition isInteger (a : number) : bool :=
  match a with
  | Num x => Qeq_bool x (inject_Z (Qfloor x))
  | _ => false
  end.

(** [total || 0] on a number: 0 and NaN are falsy. *)
Definition or_zero (a : number) : number :=
  match a with
  | NaN => of_Z 0
  | Num x => if is_zero x then of_Z 0 else a
  | _ => a
  end.

End JS.

(* ================================================================== *)
(** ** The tables *)

Module Db.

(** A row of [biens]. *)
Record bien : Type := {
  id : Z;
  proprietaire_id : Z;
  titre : string;
  description : string;
  type_bien : string;
  statut : string;
  prix : Q;
  modalite_paiement : string;
  surface : Q;
  nombre_pieces : Z;
  adresse_complete : string;
  ville : string;
  code_postal : string;
  latitude : Q;
  longitude : Q;
  statut_publication : string;
  date_publication : string
}.

(** A row of [utilisateurs] (the columns the router reads). *)
Record utilisateur : Type := {
  u_id : Z;
  nom : string;
  prenom : string;
  telephone : string;
  email : string
}.

(** A row of [photos_biens]. *)
Record photo : Type := {
  p_id : Z;
  bien_id : Z;
  url_image : string;
  est_principale : Z
}.

(** The database state.  The schema is not part of the router: what an
    INSERT gives the two columns it does not list is carried here
    ([default_statut_publication] is the column default, [horloge] the
    time stamp the engine would give a row inserted now). *)
Record database : Type := {
  biens : list bien;
  utilisateurs : list utilisateur;
  photos_biens : list photo;
  default_statut_publication : string;
  horloge : string
}.

End Db.

(* ================================================================== *)
(** ** The SQL statements of the router and their execution *)

Module Sql.

(** A bound parameter. *)
Inductive param : Type :=
| PNull
| PText (s : string)
| PNum (n : JS.number).

(** *** LIKE

    [%] matches any sequence of characters, [_] any single character
    (here an 8-bit character: one byte of a text outside ASCII), every
    other character matches itself, ignoring ASCII case.  There is no
    escape character. *)

Definition lower (c : ascii) : ascii :=
  let n := nat_of_ascii c in
  if ((65 <=? n) && (n <=? 90))%nat then ascii_of_nat (n + 32) else c.

Fixpoint like (p s : string) : bool :=
  match p with
  | EmptyString =>
      match s with EmptyString => true | String _ _ => false end
  | String "%" p' =>
      (fix star (t : string) : bool :=
         like p' t
         || match t with
            | EmptyString => false
            | String _ t' => star t'
            end) s
  | String "_" p' =>
      match s with
      | EmptyString => false
      | String _ s' => like p' s'
      end
  | String c p' =>
      match s with
      | EmptyString => false
      | String d s' => Ascii.eqb (lower c) (lower d) && like p' s'
      end
  end.

(** *** Comparisons of a column with a bound parameter

    A comparison with NULL is unknown and rejects the row; NaN is bound
    as NULL. *)

Definition num_ge (col : Q) (p : JS.number) : bool := JS.ge (JS.Num col) p.
Definition num_le (col : Q) (p : JS.number) : bool := JS.le (JS.Num col) p.

Definition num_eq (col : Q) (p : JS.number) : bool :=
  match p with
  | JS.Num q => Qeq_bool col q
  | _ => false
  end.

(** A text that has the form of a number, as a column of numeric
    affinity reads it: white space around it is dropped and the whole
    of what is left must be a decimal literal. *)
Definition text_to_number (s : string) : option Q :=
  let (neg, body) := JS.split_sign (JS.trim s) in
  let (ip, r1) := JS.span_digits body in
  let (fp, r2) :=
    match r1 with
    | String "." r => JS.span_digits r
    | _ => (EmptyString, r1)
    end in
  match ip, fp with
  | EmptyString, EmptyString => None
  | _, _ =>
      let m := JS.signed neg (JS.digits_value (ip ++ fp)) in
      let frac := Z.of_nat (String.length fp) in
      match r2 with
      | EmptyString => Some (JS.scale10 m (- frac))
      | String "e" r | String "E" r =>
          let (eneg, r') := JS.split_sign r in
          match JS.span_digits r' with
          | (String c d, EmptyString) =>
              Some (JS.scale10 m
                      (JS.signed eneg (JS.digits_value (String c d)) - frac))
          | _ => None
          end
      | _ => None
      end
  end.

Definition text_to_integer (s : string) : option Z :=
  match text_to_number s with
  | Some q => if Qeq_bool q (inject_Z (Qfloor q)) then Some (Qfloor q) else None
  | None => None
  end.

(** [id = ?] on the integer primary key. *)
Definition id_eq (col : Z) (p : param) : bool :=
  match p with
  | PNull => false
  | PNum n => num_eq (inject_Z col) n
  | PText s =>
      match text_to_number s with
      | Some q => Qeq_bool (inject_Z col) q
      | None => false
      end
  end.

(** *** WHERE clauses built from conjuncts

    One conjunct of the list route's WHERE clause, with the parameter
    bound to its placeholder.  [None]: the engine cannot run it. *)
Definition eval_conjunct (c : string) (p : param) (b : Db.bien)
  : option bool :=
  match p with
  | PNull =>
      if existsb (String.eqb c)
           ["b.statut_publication = ?"; "b.ville LIKE ?"; "b.type_bien = ?";
            "b.statut = ?"; "b.prix >= ?"; "b.prix <= ?"; "b.surface >= ?";
            "b.nombre_pieces >= ?"]
      then Some false else None
  | PText s =>
      if String.eqb c "b.statut_publication = ?" then Some (Db.statut_publication b =? s)%string
      else if String.eqb c "b.ville LIKE ?" then Some (like s (Db.ville b))
      else if String.eqb c "b.type_bien = ?" then Some (Db.type_bien b =? s)%string
      else if String.eqb c "b.statut = ?" then Some (Db.statut b =? s)%string
      else None
  | PNum n =>
      if String.eqb c "b.prix >= ?" then Some (num_ge (Db.prix b) n)
      else if String.eqb c "b.prix <= ?" then Some (num_le (Db.prix b) n)
      else if String.eqb c "b.surface >= ?" then Some (num_ge (Db.surface b) n)
      else if String.eqb c "b.nombre_pieces >= ?"
      then Some (num_ge (inject_Z (Db.nombre_pieces b)) n)
      else None
  end.

(** The conjunction of the conjuncts, each with the next parameter
    bound to its placeholder. *)
Fixpoint eval_where (cs : list string) (ps : list param) (b : Db.bien)
  : option bool :=
  match cs, ps with
  | [], _ => Some true
  | c :: cs', p :: ps' =>
      match eval_conjunct c p b, eval_where cs' ps' b with
      | Some x, Some y => Some (x && y)
      | _, _ => None
      end
  | _ :: _, [] => None
  end.

(** The rows of [l] that satisfy the clause; [None] if it cannot be
    run on one of them. *)
Fixpoint select_where (cs : list string) (ps : list param)
                      (l : list Db.bien) : option (list Db.bien) :=
  match l with
  | [] => Some []
  | b :: l' =>
      match eval_where cs ps b, select_where cs ps l' with
      | Some keep, Some r => Some (if keep then b :: r else r)
      | _, _ => None
      end
  end.

(** *** Text of a WHERE clause *)

Fixpoint strip_prefix (p s : string) : option string :=
  match p, s with
  | EmptyString, _ => Some s
  | String a p', String b s' =>
      if Ascii.eqb a b then strip_prefix p' s' else None
  | String _ _, EmptyString => None
  end.

(** The text up to the first line break, and the rest from it. *)
Fixpoint until_newline (s : string) : string * string :=
  match s with
  | EmptyString => (EmptyString, EmptyString)
  | String c s' =>
      if Ascii.eqb c "010" then (EmptyString, s)
      else let (l, r) := until_newline s' in (String c l, r)
  end.

(** [s] cut at each occurrence of [sep]; [skip] characters of a
    separator are still to be passed over. *)
Fixpoint split_go (sep : string) (skip : nat) (s : string) : list string :=
  match s with
  | EmptyString => [EmptyString]
  | String c s' =>
      match skip with
      | S k => split_go sep k s'
      | O =>
          if prefix sep s
          then EmptyString :: split_go sep (String.length sep - 1) s'
          else match split_go sep 0 s' with
               | seg :: rest => String c seg :: rest
               | [] => [String c EmptyString]
               end
      end
  end.

Definition conjuncts (clause : string) : list string :=
  split_go " AND " 0 clause.

(** *** ORDER BY and LIMIT *)

(** Insertion of [x] in a list sorted by [before], after the rows that
    come strictly before it. *)
Fixpoint insert_by {A : Type} (before : A -> A -> bool) (x : A) (l : list A)
  : list A :=
  match l with
  | [] => [x]
  | y :: l' => if before y x then y :: insert_by before x l' else x :: l
  end.

Definition order_by {A : Type} (before : A -> A -> bool) (l : list A)
  : list A :=
  fold_right (insert_by before) [] l.

(** The integer that a parameter stands for; [None] when it cannot be
    converted to an integer without loss. *)
Definition integer_value (p : param) : option Z :=
  match p with
  | PNum (JS.Num q) =>
      if Qeq_bool q (inject_Z (Qfloor q)) then Some (Qfloor q) else None
  | PNum _ => None
  | PText s => text_to_integer s
  | PNull => None
  end.

(** The integers that a LIMIT or OFFSET accepts: a number is converted
    when it lies strictly between the least and the greatest 64-bit
    integers. *)
Definition in_int64 (z : Z) : bool :=
  (- 2 ^ 63 <? z) && (z <? 2 ^ 63 - 1).

(** The integer a LIMIT or OFFSET parameter stands for; [None], a
    datatype mismatch, when it cannot be converted to an integer without
    loss or is out of range. *)
Definition integer_param (p : param) : option Z :=
  match integer_value p with
  | Some z => if in_int64 z then Some z else None
  | None => None
  end.

(** [LIMIT n OFFSET m]: a negative [m] counts as 0, a negative [n] as no
    limit. *)
Definition limit_offset {A : Type} (n m : Z) (l : list A) : list A :=
  let rest := skipn (Z.to_nat m) l in
  if n <? 0 then rest else firstn (Z.to_nat n) rest.

(** *** Result sets *)

(** A row of the list route's main query. *)
Record listing_row : Type := {
  l_bien : Db.bien;
  proprietaire_nom : string;
  proprietaire_prenom : string;
  proprietaire_telephone : string;
  photo_principale : option string
}.

(** A row of the detail route's query. *)
Record detail_row : Type := {
  d_bien : Db.bien;
  d_proprietaire_nom : string;
  d_proprietaire_prenom : string;
  d_proprietaire_telephone : string;
  d_proprietaire_email : string
}.

Record photo_row : Type := {
  r_id : Z;
  r_url_image : string;
  r_est_principale : Z
}.

(** What [query] resolves to: the rows of a SELECT, or the outcome of a
    write ([insertId] is the key of the row an INSERT created). *)
Inductive result : Type :=
| Totals (rows : list JS.number)
| Listings (rows : list listing_row)
| Details (rows : list detail_row)
| Photos (rows : list photo_row)
| Biens (rows : list Db.bien)
| Done (insertId : Z).

(** *** The statements *)

Definition count_head : string := "
      SELECT COUNT(*) as total
      FROM biens b
      WHERE ".

Definition count_tail : string := "
    ".

Definition main_head : string := "
      SELECT
        b.*,
        u.nom as proprietaire_nom,
        u.prenom as proprietaire_prenom,
        u.telephone as proprietaire_telephone,
        (SELECT url_image FROM photos_biens WHERE bien_id = b.id AND est_principale = 1 LIMIT 1) as photo_principale
      FROM biens b
      JOIN utilisateurs u ON b.proprietaire_id = u.id
      WHERE ".

Definition main_tail : string := "
      ORDER BY b.date_publication DESC
      LIMIT ? OFFSET ?
    ".

Definition detail_sql : string := "
      SELECT
        b.*,
        u.nom as proprietaire_nom,
        u.prenom as proprietaire_prenom,
        u.telephone as proprietaire_telephone,
        u.email as proprietaire_email
      FROM biens b
      JOIN utilisateurs u ON b.proprietaire_id = u.id
      WHERE b.id = ? AND b.statut_publication = ?
    ".

Definition photos_sql : string :=
  "SELECT id, url_image, est_principale FROM photos_biens WHERE bien_id = ? ORDER BY est_principale DESC, id ASC".

Definition insert_sql : string := "
      INSERT INTO biens (
        proprietaire_id, titre, description, type_bien, statut, prix,
        modalite_paiement, surface, nombre_pieces, adresse_complete,
        ville, code_postal, latitude, longitude
      ) VALUES (?, ?, ?, ?, ?, ?, ?, ?, ?, ?, ?, ?, ?, ?)
    ".

Definition select_by_id_sql : string := "SELECT * FROM biens WHERE id = ?".

Definition update_sql : string := "
        UPDATE biens SET
          titre = ?, description = ?, type_bien = ?, statut = ?, prix = ?,
          modalite_paiement = ?, surface = ?, nombre_pieces = ?, adresse_complete = ?,
          ville = ?, code_postal = ?, latitude = ?, longitude = ?
        WHERE id = ?
      ".

(** *** Values stored in typed columns *)

Definition to_text (p : param) : option string :=
  match p with
  | PText s => Some s
  | PNum _ | PNull => None
  end.

Definition to_real (p : param) : option Q :=
  match p with
  | PText s => text_to_number s
  | PNum (JS.Num q) => Some q
  | PNum _ | PNull => None
  end.

(** An integer is stored exactly, whatever its size. *)
Definition to_integer (p : param) : option Z := integer_value p.

(** The thirteen columns that INSERT and UPDATE both list, in the order
    of their placeholders. *)
Record champs : Type := {
  c_titre : string;
  c_description : string;
  c_type_bien : string;
  c_statut : string;
  c_prix : Q;
  c_modalite_paiement : string;
  c_surface : Q;
  c_nombre_pieces : Z;
  c_adresse_complete : string;
  c_ville : string;
  c_code_postal : string;
  c_latitude : Q;
  c_longitude : Q
}.

Definition bind_champs (ps : list param) : option champs :=
  match ps with
  | [p1; p2; p3; p4; p5; p6; p7; p8; p9; p10; p11; p12; p13] =>
      match to_text p1, to_text p2, to_text p3, to_text p4, to_real p5,
            to_text p6, to_real p7, to_integer p8, to_text p9, to_text p10,
            to_text p11, to_real p12, to_real p13 with
      | Some v1, Some v2, Some v3, Some v4, Some v5, Some v6, Some v7,
        Some v8, Some v9, Some v10, Some v11, Some v12, Some v13 =>
          Some {| c_titre := v1; c_description := v2; c_type_bien := v3;
                  c_statut := v4; c_prix := v5; c_modalite_paiement := v6;
                  c_surface := v7; c_nombre_pieces := v8;
                  c_adresse_complete := v9; c_ville := v10;
                  c_code_postal := v11; c_latitude := v12;
                  c_longitude := v13 |}
      | _, _, _, _, _, _, _, _, _, _, _, _, _ => None
      end
  | _ => None
  end.

(** [UPDATE biens SET titre = ?, ..., longitude = ?] on one row. *)
Definition set_champs (c : champs) (b : Db.bien) : Db.bien :=
  {| Db.id := Db.id b;
     Db.proprietaire_id := Db.proprietaire_id b;
     Db.titre := c_titre c;
     Db.description := c_description c;
     Db.type_bien := c_type_bien c;
     Db.statut := c_statut c;
     Db.prix := c_prix c;
     Db.modalite_paiement := c_modalite_paiement c;
     Db.surface := c_surface c;
     Db.nombre_pieces := c_nombre_pieces c;
     Db.adresse_complete := c_adresse_complete c;
     Db.ville := c_ville c;
     Db.code_postal := c_code_postal c;
     Db.latitude := c_latitude c;
     Db.longitude := c_longitude c;
     Db.statut_publication := Db.statut_publication b;
     Db.date_publication := Db.date_publication b |}.

(** The key an INSERT gives the new row: one more than the largest. *)
Definition next_id (l : list Db.bien) : Z :=
  1 + fold_right (fun b m => Z.max (Db.id b) m) 0 l.

Definition new_bien (db : Db.database) (owner : Z) (c : champs) : Db.bien :=
  set_champs c
    {| Db.id := next_id (Db.biens db);
       Db.proprietaire_id := owner;
       Db.titre := EmptyString; Db.description := EmptyString;
       Db.type_bien := EmptyString; Db.statut := EmptyString;
       Db.prix := 0%Q; Db.modalite_paiement := EmptyString;
       Db.surface := 0%Q; Db.nombre_pieces := 0;
       Db.adresse_complete := EmptyString; Db.ville := EmptyString;
       Db.code_postal := EmptyString;
       Db.latitude := 0%Q; Db.longitude := 0%Q;
       Db.statut_publication := Db.default_statut_publication db;
       Db.date_publication := Db.horloge db |}.

Definition with_biens (db : Db.database) (l : list Db.bien) : Db.database :=
  {| Db.biens := l;
     Db.utilisateurs := Db.utilisateurs db;
     Db.photos_biens := Db.photos_biens db;
     Db.default_statut_publication := Db.default_statut_publication db;
     Db.horloge := Db.horloge db |}.

(** *** Joins and sub-selects *)

(** [(SELECT url_image FROM photos_biens WHERE bien_id = b.id AND
    est_principale = 1 LIMIT 1)]. *)
Definition main_photo (db : Db.database) (b : Db.bien) : option string :=
  match find (fun p => (Db.bien_id p =? Db.id b) && (Db.est_principale p =? 1))
             (Db.photos_biens db) with
  | Some p => Some (Db.url_image p)
  | None => None
  end.

(** [JOIN utilisateurs u ON b.proprietaire_id = u.id] for one row [b]. *)
Definition owners (db : Db.database) (b : Db.bien) : list Db.utilisateur :=
  filter (fun u => Db.proprietaire_id b =? Db.u_id u) (Db.utilisateurs db).

Definition listing_of (db : Db.database) (b : Db.bien) (u : Db.utilisateur)
  : listing_row :=
  {| l_bien := b;
     proprietaire_nom := Db.nom u;
     proprietaire_prenom := Db.prenom u;
     proprietaire_telephone := Db.telephone u;
     photo_principale := main_photo db b |}.

Definition detail_of (b : Db.bien) (u : Db.utilisateur) : detail_row :=
  {| d_bien := b;
     d_proprietaire_nom := Db.nom u;
     d_proprietaire_prenom := Db.prenom u;
     d_proprietaire_telephone := Db.telephone u;
     d_proprietaire_email := Db.email u |}.

Definition join_owners {R : Type} (db : Db.database)
           (row : Db.bien -> Db.utilisateur -> R) (l : list Db.bien) : list R :=
  flat_map (fun b => map (row b) (owners db b)) l.

(** [ORDER BY b.date_publication DESC]. *)
Definition newer (x y : listing_row) : bool :=
  String.ltb (Db.date_publication (l_bien y)) (Db.date_publication (l_bien x)).

(** [ORDER BY est_principale DESC, id ASC]. *)
Definition photo_before (x y : Db.photo) : bool :=
  (Db.est_principale y <? Db.est_principale x)
  || ((Db.est_principale x =? Db.est_principale y) && (Db.p_id x <? Db.p_id y)).

Definition photo_row_of (p : Db.photo) : photo_row :=
  {| r_id := Db.p_id p;
     r_url_image := Db.url_image p;
     r_est_principale := Db.est_principale p |}.

(** *** Execution

    [exec db sql params] runs one statement of the router: the result
    and the database after it, or [None] when the engine raises an
    error.  The WHERE clause of the two statements of the list route is
    read from the text of the statement. *)
Definition exec (db : Db.database) (sql : string) (ps : list param)
  : option (result * Db.database) :=
  if String.eqb sql detail_sql then
    match ps with
    | [pid; PText pub] =>
        Some (Details
                (join_owners db detail_of
                   (filter (fun b => id_eq (Db.id b) pid
                                     && (Db.statut_publication b =? pub)%string)
                           (Db.biens db))),
              db)
    | _ => None
    end
  else if String.eqb sql photos_sql then
    match ps with
    | [pid] =>
        Some (Photos
                (map photo_row_of
                   (order_by photo_before
                      (filter (fun p => id_eq (Db.bien_id p) pid)
                              (Db.photos_biens db)))),
              db)
    | _ => None
    end
  else if String.eqb sql insert_sql then
    match ps with
    | powner :: rest =>
        match to_integer powner, bind_champs rest with
        | Some owner, Some c =>
            let b := new_bien db owner c in
            Some (Done (Db.id b), with_biens db (Db.biens db ++ [b])%list)
        | _, _ => None
        end
    | [] => None
    end
  else if String.eqb sql select_by_id_sql then
    match ps with
    | [pid] =>
        Some (Biens (filter (fun b => id_eq (Db.id b) pid) (Db.biens db)), db)
    | _ => None
    end
  else if String.eqb sql update_sql then
    match bind_champs (firstn 13 ps), skipn 13 ps with
    | Some c, [pid] =>
        Some (Done 0,
              with_biens db
                (map (fun b => if id_eq (Db.id b) pid then set_champs c b else b)
                     (Db.biens db)))
    | _, _ => None
    end
  else
    match strip_prefix count_head sql with
    | Some rest =>
        let (clause, tail) := until_newline rest in
        let cs := conjuncts clause in
        if String.eqb tail count_tail && (List.length ps =? List.length cs)%nat then
          match select_where cs ps (Db.biens db) with
          | Some rows => Some (Totals [JS.of_Z (Z.of_nat (List.length rows))], db)
          | None => None
          end
        else None
    | None =>
        match strip_prefix main_head sql with
        | Some rest =>
            let (clause, tail) := until_newline rest in
            let cs := conjuncts clause in
            if String.eqb tail main_tail then
              match skipn (List.length cs) ps with
              | [plimit; poffset] =>
                  match integer_param plimit, integer_param poffset,
                        select_where cs (firstn (List.length cs) ps) (Db.biens db) with
                  | Some n, Some m, Some rows =>
                      Some (Listings
                              (limit_offset n m
                                 (order_by newer
                                    (join_owners db (listing_of db) rows))),
                            db)
                  | _, _, _ => None
                  end
              | _ => None
              end
            else None
        | None => None
        end
    end.

End Sql.

(* ================================================================== *)
(** ** express-validator: the chains of [bienValidation] *)

Module Validator.

(** The fields of a request body that the router reads. *)
Inductive champ : Type :=
| Titre | Description | TypeBien | Statut | Prix | ModalitePaiement
| Surface | NombrePieces | AdresseComplete | Ville | CodePostal
| Latitude | Longitude.

Definition champ_eqb (a b : champ) : bool :=
  match a, b with
  | Titre, Titre | Description, Description | TypeBien, TypeBien
  | Statut, Statut | Prix, Prix | ModalitePaiement, ModalitePaiement
  | Surface, Surface | NombrePieces, NombrePieces
  | AdresseComplete, AdresseComplete | Ville, Ville
  | CodePostal, CodePostal | Latitude, Latitude
  | Longitude, Longitude => true
  | _, _ => false
  end.

(** The name of a field in the body. *)
Definition name (f : champ) : string :=
  match f with
  | Titre => "titre"
  | Description => "description"
  | TypeBien => "type_bien"
  | Statut => "statut"
  | Prix => "prix"
  | ModalitePaiement => "modalite_paiement"
  | Surface => "surface"
  | NombrePieces => "nombre_pieces"
  | AdresseComplete => "adresse_complete"
  | Ville => "ville"
  | CodePostal => "code_postal"
  | Latitude => "latitude"
  | Longitude => "longitude"
  end.

(** [req.body]: each field is absent or has a value, held in the string
    form that the validators read.  A field is one text: a body with an
    array or an object in a field is not modelled. *)
Definition body : Type := champ -> option string.

Definition set (f : champ) (v : string) (b : body) : body :=
  fun g => if champ_eqb f g then Some v else b g.

Definition toString (v : option string) : string :=
  match v with
  | Some s => s
  | None => EmptyString
  end.

(** *** validator.js *)

Definition isLength (min max : nat) (s : string) : bool :=
  ((min <=? String.length s) && (String.length s <=? max))%nat.

Definition isIn (values : list string) (s : string) : bool :=
  existsb (String.eqb s) values.

(** The pattern of [isFloat]: an optional sign, optional digits, an
    optional point followed by digits, an optional exponent. *)
Definition float_format (s : string) : bool :=
  let body :=
    match s with
    | String "-" r | String "+" r => r
    | _ => s
    end in
  let (_, r1) := JS.span_digits body in
  let r2 :=
    match r1 with
    | String "." r => snd (JS.span_digits r)
    | _ => r1
    end in
  match r2 with
  | EmptyString => true
  | String "e" r | String "E" r =>
      let r' :=
        match r with
        | String "-" x | String "+" x => x
        | _ => r
        end in
      match JS.span_digits r' with
      | (String _ _, EmptyString) => true
      | _ => false
      end
  | _ => false
  end.

(** [str.replace(',', '.')]: the first comma only. *)
Fixpoint replace_comma (s : string) : string :=
  match s with
  | EmptyString => EmptyString
  | String "," r => String "." r
  | String c r => String c (replace_comma r)
  end.

Definition bound_ok (cmp : JS.number -> JS.number -> bool)
           (v : JS.number) (b : option Q) : bool :=
  match b with
  | Some q => cmp v (JS.Num q)
  | None => true
  end.

Definition isFloat (min max : option Q) (s : string) : bool :=
  if existsb (String.eqb s) [EmptyString; "."; ","; "-"; "+"] then false
  else
    let value := JS.parseFloat (replace_comma s) in
    float_format s && bound_ok JS.ge value min && bound_ok JS.le value max.

(** The pattern of [isInt] when leading zeroes are allowed (the
    default): an optional sign and at least one digit. *)
Definition int_format (s : string) : bool :=
  match JS.span_digits (snd (JS.split_sign s)) with
  | (String _ _, EmptyString) => true
  | _ => false
  end.

(** The number that a string of the form [int_format] converts to. *)
Definition int_value (s : string) : Z :=
  let (neg, d) := JS.split_sign s in JS.signed neg (JS.digits_value d).

Definition isInt (min : Z) (s : string) : bool :=
  int_format s && (min <=? int_value s).

(** *** Chains *)

Inductive check : Type :=
| IsLength (min max : nat)
| IsIn (values : list string)
| IsFloat (min max : option Q)
| IsInt (min : Z).

Definition passes (k : check) (s : string) : bool :=
  match k with
  | IsLength min max => isLength min max s
  | IsIn values => isIn values s
  | IsFloat min max => isFloat min max s
  | IsInt min => isInt min s
  end.

(** [body(field)[.trim()].<check>.withMessage(message)]. *)
Record chain : Type := {
  field : champ;
  trimmed : bool;
  validator : check;
  message : string
}.

Record validation_error : Type := {
  param : string;
  msg : string;
  value : string
}.

(** One chain run on the body: the sanitised value is written back to
    the body, and a failed check yields its message. *)
Definition run_chain (c : chain) (b : body)
  : body * list validation_error :=
  let v := toString (b (field c)) in
  let v' := if trimmed c then JS.trim v else v in
  let b' := if trimmed c then set (field c) v' b else b in
  (b',
   if passes (validator c) v' then []
   else [{| param := name (field c); msg := message c; value := v' |}]).

(** The chains run in order; [validationResult(req).array()] is the
    list of their errors. *)
Fixpoint run (cs : list chain) (b : body) : body * list validation_error :=
  match cs with
  | [] => (b, [])
  | c :: cs' =>
      let (b1, e1) := run_chain c b in
      let (b2, e2) := run cs' b1 in
      (b2, (e1 ++ e2)%list)
  end.

End Validator.

(* ================================================================== *)
(** ** The router *)

Module Biens.

Import Validator.

(** [bienValidation]. *)
Definition bienValidation : list chain :=
  [ {| field := Titre; trimmed := true; validator := IsLength 5 150;
       message := "Le titre doit contenir entre 5 et 150 caractères" |};
    {| field := Description; trimmed := true; validator := IsLength 20 2000;
       message := "La description doit contenir entre 20 et 2000 caractères" |};
    {| field := TypeBien; trimmed := false;
       validator := IsIn ["maison"; "immeuble"; "villa"; "appartement"; "terrain"];
       message := "Type de bien invalide" |};
    {| field := Statut; trimmed := false;
       validator := IsIn ["location"; "vente"];
       message := "Statut invalide (location ou vente)" |};
    {| field := Prix; trimmed := false;
       validator := IsFloat (Some (1 # 100)%Q) None;
       message := "Le prix doit être un nombre positif supérieur à 0" |};
    {| field := ModalitePaiement; trimmed := false;
       validator := IsIn ["mensuel"; "trimestriel"; "annuel"; "unique"];
       message := "Modalité de paiement invalide" |};
    {| field := Surface; trimmed := false;
       validator := IsFloat (Some (1 # 100)%Q) None;
       message := "La surface doit être un nombre positif supérieur à 0" |};
    {| field := NombrePieces; trimmed := false; validator := IsInt 0;
       message := "Le nombre de pièces doit être un entier positif ou nul" |};
    {| field := AdresseComplete; trimmed := true; validator := IsLength 10 255;
       message := "L'adresse doit contenir entre 10 et 255 caractères" |};
    {| field := Ville; trimmed := true; validator := IsLength 2 100;
       message := "La ville doit contenir entre 2 et 100 caractères" |};
    {| field := CodePostal; trimmed := true; validator := IsLength 4 20;
       message := "Le code postal doit contenir entre 4 et 20 caractères" |};
    {| field := Latitude; trimmed := false;
       validator := IsFloat (Some (- (90))%Q) (Some 90%Q);
       message := "Latitude invalide" |};
    {| field := Longitude; trimmed := false;
       validator := IsFloat (Some (- (180))%Q) (Some 180%Q);
       message := "Longitude invalide" |} ].

(** *** The connection

    [query] of [config/database-sqlite]: the statement is recorded as
    sent and run by the engine; [None] stands for a raised error. *)
Record conn : Type := {
  tables : Db.database;
  sent : list (string * list Sql.param)
}.

Definition query (c : conn) (sql : string) (ps : list Sql.param)
  : option Sql.result * conn :=
  match Sql.exec (tables c) sql ps with
  | Some (r, db') =>
      (Some r, {| tables := db'; sent := (sent c ++ [(sql, ps)])%list |})
  | None =>
      (None, {| tables := tables c; sent := (sent c ++ [(sql, ps)])%list |})
  end.

(** *** Requests and responses *)

(** [req.query] of the list route: each parameter is absent or a
    string. *)
Record Query : Type := {
  ville : option string;
  type_bien : option string;
  statut : option string;
  prix_min : option string;
  prix_max : option string;
  surface_min : option string;
  nombre_pieces_min : option string;
  page : option string;
  limit : option string
}.

Record Pagination : Type := {
  p_page : JS.number;
  p_limit : JS.number;
  p_total : JS.number;
  p_pages : JS.number
}.

(** The object given to [res.json]. *)
Inductive payload : Type :=
| Liste (biens : Sql.result) (total : JS.number)
        (pagination : Pagination) (filters : Query)
| Fiche (bien : Sql.detail_row) (photos : Sql.result)
| Erreur (error message : string)
| Invalide (error : string) (details : list validation_error)
| Enregistre (message : string) (bien : option Db.bien).

Record response : Type := {
  status : Z;
  json : payload
}.

Definition respond (code : Z) (p : payload) : response :=
  {| status := code; json := p |}.

(** *** GET / : the list of published properties, with filters *)

Definition whereConditions (q : Query) : list string :=
  let w := ["b.statut_publication = ?"] in
  let w := if JS.truthy (ville q) then (w ++ ["b.ville LIKE ?"])%list else w in
  let w := if JS.truthy (type_bien q) then (w ++ ["b.type_bien = ?"])%list else w in
  let w := if JS.truthy (statut q) then (w ++ ["b.statut = ?"])%list else w in
  let w := if JS.truthy (prix_min q) then (w ++ ["b.prix >= ?"])%list else w in
  let w := if JS.truthy (prix_max q) then (w ++ ["b.prix <= ?"])%list else w in
  let w := if JS.truthy (surface_min q) then (w ++ ["b.surface >= ?"])%list else w in
  let w := if JS.truthy (nombre_pieces_min q)
           then (w ++ ["b.nombre_pieces >= ?"])%list else w in
  w.

(** A value of the request as a bound parameter ([undefined] is bound
    as NULL). *)
Definition bound (v : option string) : Sql.param :=
  match v with
  | Some s => Sql.PText s
  | None => Sql.PNull
  end.

Definition queryParams (q : Query) : list Sql.param :=
  let p := [Sql.PText "publie"] in
  let p := if JS.truthy (ville q)
           then (p ++ [Sql.PText ("%" ++ JS.to_string (ville q) ++ "%")])%list
           else p in
  let p := if JS.truthy (type_bien q)
           then (p ++ [bound (type_bien q)])%list else p in
  let p := if JS.truthy (statut q)
           then (p ++ [bound (statut q)])%list else p in
  let p := if JS.truthy (prix_min q)
           then (p ++ [Sql.PNum (JS.parseFloat (JS.to_string (prix_min q)))])%list
           else p in
  let p := if JS.truthy (prix_max q)
           then (p ++ [Sql.PNum (JS.parseFloat (JS.to_string (prix_max q)))])%list
           else p in
  let p := if JS.truthy (surface_min q)
           then (p ++ [Sql.PNum (JS.parseFloat (JS.to_string (surface_min q)))])%list
           else p in
  let p := if JS.truthy (nombre_pieces_min q)
           then (p ++ [Sql.PNum (JS.parseInt (JS.to_string (nombre_pieces_min q)))])%list
           else p in
  p.

Definition whereClause (q : Query) : string :=
  String.concat " AND " (whereConditions q).

(** [page = 1] and [limit = 20] when absent; [parseInt] reads its
    argument as a string, so the defaults are given in that form. *)
Definition parsed_page (q : Query) : JS.number :=
  JS.parseInt (JS.or_default "1" (page q)).

Definition parsed_limit (q : Query) : JS.number :=
  JS.parseInt (JS.or_default "20" (limit q)).

Definition offset (q : Query) : JS.number :=
  JS.mul (JS.sub (parsed_page q) (JS.of_Z 1)) (parsed_limit q).

Definition countQuery (q : Query) : string :=
  "
      SELECT COUNT(*) as total
      FROM biens b
      WHERE " ++ whereClause q ++ "
    ".

Definition mainQuery (q : Query) : string :=
  "
      SELECT
        b.*,
        u.nom as proprietaire_nom,
        u.prenom as proprietaire_prenom,
        u.telephone as proprietaire_telephone,
        (SELECT url_image FROM photos_biens WHERE bien_id = b.id AND est_principale = 1 LIMIT 1) as photo_principale
      FROM biens b
      JOIN utilisateurs u ON b.proprietaire_id = u.id
      WHERE " ++ whereClause q ++ "
      ORDER BY b.date_publication DESC
      LIMIT ? OFFSET ?
    ".

Definition mainParams (q : Query) : list Sql.param :=
  (queryParams q ++ [Sql.PNum (parsed_limit q); Sql.PNum (offset q)])%list.

(** [totalResult[0].total || 0] when the result has a first row. *)
Definition total_of (totalResult : Sql.result) : JS.number :=
  match totalResult with
  | Sql.Totals (t :: _) => JS.or_zero t
  | _ => JS.of_Z 0
  end.

Definition server_error (message : string) : response :=
  respond 500 (Erreur "Erreur serveur" message).

Definition get_biens (c : conn) (q : Query) : response * conn :=
  match query c (countQuery q) (queryParams q) with
  | (None, c1) =>
      (server_error "Erreur lors de la récupération des biens", c1)
  | (Some totalResult, c1) =>
      let total := total_of totalResult in
      match query c1 (mainQuery q) (mainParams q) with
      | (None, c2) =>
          (server_error "Erreur lors de la récupération des biens", c2)
      | (Some biens, c2) =>
          (respond 200
             (Liste biens total
                {| p_page := parsed_page q;
                   p_limit := parsed_limit q;
                   p_total := total;
                   p_pages := JS.ceil (JS.div total (parsed_limit q)) |}
                q),
           c2)
      end
  end.

(** *** GET /:id : one published property and its photos *)

Definition get_bien (c : conn) (bienId : string) : response * conn :=
  let parsedId := JS.parseInt bienId in
  if JS.isNaN parsedId || negb (JS.isInteger parsedId)
     || JS.le parsedId (JS.of_Z 0)
  then
    (respond 400
       (Erreur "ID invalide" "L'ID du bien doit être un nombre entier positif"),
     c)
  else
    match query c Sql.detail_sql [Sql.PNum parsedId; Sql.PText "publie"] with
    | (Some (Sql.Details []), c1) =>
        (respond 404
           (Erreur "Bien non trouvé"
                   "Le bien demandé n'existe pas ou n'est pas publié"),
         c1)
    | (Some (Sql.Details (bien :: _)), c1) =>
        match query c1 Sql.photos_sql [Sql.PNum parsedId] with
        | (Some photos, c2) => (respond 200 (Fiche bien photos), c2)
        | (None, c2) =>
            (server_error "Erreur lors de la récupération du bien", c2)
        end
    | (_, c1) =>
        (server_error "Erreur lors de la récupération du bien", c1)
    end.

(** *** POST / and PUT /:id *)

(** The thirteen body values in the order both statements bind them. *)
Definition body_params (b : body) : list Sql.param :=
  map (fun f => bound (b f))
      [Titre; Description; TypeBien; Statut; Prix; ModalitePaiement;
       Surface; NombrePieces; AdresseComplete; Ville; CodePostal;
       Latitude; Longitude].

Definition first_bien (r : Sql.result) : option Db.bien :=
  match r with
  | Sql.Biens (b :: _) => Some b
  | _ => None
  end.

Definition insert_id (r : Sql.result) : Sql.param :=
  match r with
  | Sql.Done k => Sql.PNum (JS.of_Z k)
  | _ => Sql.PNull
  end.

(** The handler of POST /, given the caller that [authenticateToken] put
    on the request and the errors that [bienValidation] collected. *)
Definition post_handler (c : conn) (user_id : Z)
           (errors : list validation_error) (b : body) : response * conn :=
  match errors with
  | _ :: _ => (respond 400 (Invalide "Données invalides" errors), c)
  | [] =>
      match query c Sql.insert_sql (Sql.PNum (JS.of_Z user_id) :: body_params b) with
      | (None, c1) => (server_error "Erreur lors de la création du bien", c1)
      | (Some result, c1) =>
          match query c1 Sql.select_by_id_sql [insert_id result] with
          | (None, c2) =>
              (server_error "Erreur lors de la création du bien", c2)
          | (Some nouveauBien, c2) =>
              (respond 201
                 (Enregistre "Bien créé avec succès" (first_bien nouveauBien)),
               c2)
          end
      end
  end.

(** POST / with its validation middleware. *)
Definition post_biens (c : conn) (user_id : Z) (b : body) : response * conn :=
  let (b', errors) := Validator.run bienValidation b in
  post_handler c user_id errors b'.

(** The handler of PUT /:id, once [requireOwnership] has let the
    request through. *)
Definition put_handler (c : conn) (bienId : string)
           (errors : list validation_error) (b : body) : response * conn :=
  match errors with
  | _ :: _ => (respond 400 (Invalide "Données invalides" errors), c)
  | [] =>
      match query c Sql.update_sql (body_params b ++ [Sql.PText bienId])%list with
      | (None, c1) =>
          (server_error "Erreur lors de la modification du bien", c1)
      | (Some _, c1) =>
          match query c1 Sql.select_by_id_sql [Sql.PText bienId] with
          | (None, c2) =>
              (server_error "Erreur lors de la modification du bien", c2)
          | (Some bienMisAJour, c2) =>
              (respond 200
                 (Enregistre "Bien mis à jour avec succès"
                             (first_bien bienMisAJour)),
               c2)
          end
      end
  end.

(** PUT /:id with its validation middleware. *)
Definition put_bien (c : conn) (bienId : string) (b : body) : response * conn :=
  let (b', errors) := Validator.run bienValidation b in
  put_handler c bienId errors b'.

End Biens.

(* ================================================================== *)
(** ** The vocabulary of the claims *)

Module Spec.

Import Biens.

Inductive filtre : Type :=
| FVille | FTypeBien | FStatut | FPrixMin | FPrixMax | FSurfaceMin
| FNombrePiecesMin.

(** The filters in the order in which the handler tests them. *)
Definition tous : list filtre :=
  [FVille; FTypeBien; FStatut; FPrixMin; FPrixMax; FSurfaceMin;
     FNombrePiecesMin].

(** The value the caller supplied for a filter. *)
Definition valeur (q : Query) (k : filtre) : option string :=
  match k with
  | FVille => ville q
  | FTypeBien => type_bien q
  | FStatut => statut q
  | FPrixMin => prix_min q
  | FPrixMax => prix_max q
  | FSurfaceMin => surface_min q
  | FNombrePiecesMin => nombre_pieces_min q
  end.

(** A filter is present when the handler's test [if (value)] passes. *)
Definition present (q : Query) (k : filtre) : bool := JS.truthy (valeur q k).

(** The conjunct a filter adds to the WHERE clause. *)
Definition conjunct (k : filtre) : string :=
  match k with
  | FVille => "b.ville LIKE ?"
  | FTypeBien => "b.type_bien = ?"
  | FStatut => "b.statut = ?"
  | FPrixMin => "b.prix >= ?"
  | FPrixMax => "b.prix <= ?"
  | FSurfaceMin => "b.surface >= ?"
  | FNombrePiecesMin => "b.nombre_pieces >= ?"
  end.

(** The parameter bound for a filter of value [v]. *)
Definition parameter (k : filtre) (v : string) : Sql.param :=
  match k with
  | FVille => Sql.PText ("%" ++ v ++ "%")
  | FTypeBien | FStatut => Sql.PText v
  | FPrixMin | FPrixMax | FSurfaceMin => Sql.PNum (JS.parseFloat v)
  | FNombrePiecesMin => Sql.PNum (JS.parseInt v)
  end.

(** What the engine decides for a row and a filter of value [v]. *)
Definition holds (k : filtre) (v : string) (b : Db.bien) : bool :=
  match k with
  | FVille => Sql.like ("%" ++ v ++ "%") (Db.ville b)
  | FTypeBien => (Db.type_bien b =? v)%string
  | FStatut => (Db.statut b =? v)%string
  | FPrixMin => JS.ge (JS.Num (Db.prix b)) (JS.parseFloat v)
  | FPrixMax => JS.le (JS.Num (Db.prix b)) (JS.parseFloat v)
  | FSurfaceMin => JS.ge (JS.Num (Db.surface b)) (JS.parseFloat v)
  | FNombrePiecesMin =>
      JS.ge (JS.Num (inject_Z (Db.nombre_pieces b))) (JS.parseInt v)
  end.

Definition published (b : Db.bien) : bool :=
  (Db.statut_publication b =? "publie")%string.

(** The filters of [ks] that are present in [q]. *)
Definition presents (q : Query) (ks : list filtre) : list filtre :=
  filter (present q) ks.

(** A row passes the WHERE clause of [q]. *)
Definition row_matches (q : Query) (b : Db.bien) : bool :=
  published b
  && forallb (fun k => holds k (JS.to_string (valeur q k)) b)
             (presents q tous).

(** *** Case-insensitive containment *)

(** [v], ignoring ASCII case, starts [s]. *)
Fixpoint prefix_ci (v s : string) : bool :=
  match v with
  | EmptyString => true
  | String c v' =>
      match s with
      | EmptyString => false
      | String d s' => Ascii.eqb (Sql.lower c) (Sql.lower d) && prefix_ci v' s'
      end
  end.

(** [v], ignoring ASCII case, occurs in [s]. *)
Fixpoint contains_ci (v s : string) : bool :=
  prefix_ci v s
  || match s with
     | EmptyString => false
     | String _ s' => contains_ci v s'
     end.

Fixpoint fold_case (s : string) : string :=
  match s with
  | EmptyString => EmptyString
  | String c s' => String (Sql.lower c) (fold_case s')
  end.





(** The least integer that is at least [t / l]. *)
Definition ceil_div (t l : Z) : Z := - ((- t) / l).

(** [Number.isSafeInteger]: the integers that a Number holds exactly,
    its neighbours included. *)
Definition safe_integer (z : Z) : Prop :=
  - (2 ^ 53 - 1) <= z <= 2 ^ 53 - 1.

(** [s] is the decimal writing of a positive integer. *)
Definition positive_integer_text (s : string) : bool :=
  match JS.span_digits s with
  | (String c d, EmptyString) => 0 <? JS.digits_value (String c d)
  | _ => false
  end.

(** The value that a chain checks: the field as a string, trimmed when
    the chain says so. *)
Definition sanitized (ch : Validator.chain) (b : Validator.body) : string :=
  let v := Validator.toString (b (Validator.field ch)) in
  if Validator.trimmed ch then JS.trim v else v.

(** The error of a chain on a body, if its check fails. *)
Definition chain_errors (ch : Validator.chain) (b : Validator.body)
  : list Validator.validation_error :=
  if Validator.passes (Validator.validator ch) (sanitized ch b) then []
  else [{| Validator.param := Validator.name (Validator.field ch);
           Validator.msg := Validator.message ch;
           Validator.value := sanitized ch b |}].

(** The columns of a row that UPDATE does not list are those of [old]. *)
Definition same_fixed_columns (old new : Db.bien) : Prop :=
  Db.id new = Db.id old
  /\ Db.proprietaire_id new = Db.proprietaire_id old
  /\ Db.statut_publication new = Db.statut_publication old
  /\ Db.date_publication new = Db.date_publication old.

(** The thirteen columns that UPDATE lists have the values [ch]. *)
Definition has_champs (ch : Sql.champs) (new : Db.bien) : Prop :=
  Db.titre new = Sql.c_titre ch
  /\ Db.description new = Sql.c_description ch
  /\ Db.type_bien new = Sql.c_type_bien ch
  /\ Db.statut new = Sql.c_statut ch
  /\ Db.prix new = Sql.c_prix ch
  /\ Db.modalite_paiement new = Sql.c_modalite_paiement ch
  /\ Db.surface new = Sql.c_surface ch
  /\ Db.nombre_pieces new = Sql.c_nombre_pieces ch
  /\ Db.adresse_complete new = Sql.c_adresse_complete ch
  /\ Db.ville new = Sql.c_ville ch
  /\ Db.code_postal new = Sql.c_code_postal ch
  /\ Db.latitude new = Sql.c_latitude ch
  /\ Db.longitude new = Sql.c_longitude ch.

(** The values [ch] are those of the body [b]: the texts as they are,
    the numbers as the engine reads them into a numeric column. *)
Definition champs_of_body (b : Validator.body) (ch : Sql.champs) : Prop :=
  b Validator.Titre = Some (Sql.c_titre ch)
  /\ b Validator.Description = Some (Sql.c_description ch)
  /\ b Validator.TypeBien = Some (Sql.c_type_bien ch)
  /\ b Validator.Statut = Some (Sql.c_statut ch)
  /\ Sql.to_real (bound (b Validator.Prix)) = Some (Sql.c_prix ch)
  /\ b Validator.ModalitePaiement = Some (Sql.c_modalite_paiement ch)
  /\ Sql.to_real (bound (b Validator.Surface)) = Some (Sql.c_surface ch)
  /\ Sql.to_integer (bound (b Validator.NombrePieces)) = Some (Sql.c_nombre_pieces ch)
  /\ b Validator.AdresseComplete = Some (Sql.c_adresse_complete ch)
  /\ b Validator.Ville = Some (Sql.c_ville ch)
  /\ b Validator.CodePostal = Some (Sql.c_code_postal ch)
  /\ Sql.to_real (bound (b Validator.Latitude)) = Some (Sql.c_latitude ch)
  /\ Sql.to_real (bound (b Validator.Longitude)) = Some (Sql.c_longitude ch).

(** The rows that the WHERE clause of [q] keeps. *)
Definition selected (db : Db.database) (q : Query) : list Db.bien :=
  filter (row_matches q) (Db.biens db).

(** The filtered rows joined with their owners and ordered: what the
    main query returns before LIMIT and OFFSET. *)
Definition ordered (db : Db.database) (q : Query) : list Sql.listing_row :=
  Sql.order_by Sql.newer
    (Sql.join_owners db (Sql.listing_of db) (selected db q)).

(** Every row of [biens] has exactly one owner in [utilisateurs]. *)
Definition referential_integrity (db : Db.database) : bool :=
  forallb (fun b => (List.length (Sql.owners db b) =? 1)%nat) (Db.biens db).

(** The request [q] with the filter [k] left out. *)
Definition without (k : filtre) (q : Query) : Query :=
  {| ville := match k with FVille => None | _ => ville q end;
     type_bien := match k with FTypeBien => None | _ => type_bien q end;
     statut := match k with FStatut => None | _ => statut q end;
     prix_min := match k with FPrixMin => None | _ => prix_min q end;
     prix_max := match k with FPrixMax => None | _ => prix_max q end;
     surface_min := match k with FSurfaceMin => None | _ => surface_min q end;
     nombre_pieces_min :=
       match k with FNombrePiecesMin => None | _ => nombre_pieces_min q end;
     page := page q;
     limit := limit q |}.

(** A response without the echo of the filters. *)
Definition forget_filters (p : payload) : payload :=
  match p with
  | Liste biens total pagination _ =>
      Liste biens total pagination
        {| ville := None; type_bien := None; statut := None; prix_min := None;
           prix_max := None; surface_min := None; nombre_pieces_min := None;
           page := None; limit := None |}
  | _ => p
  end.

(** The property records that a response carries. *)
Definition records (r : response) : list Db.bien :=
  match json r with
  | Liste (Sql.Listings rows) _ _ _ => map Sql.l_bien rows
  | Fiche bien _ => [Sql.d_bien bien]
  | _ => []
  end.

(** LIMIT and OFFSET parameters that keep every row. *)
Definition no_limit : list Sql.param :=
  [Sql.PNum (JS.of_Z (-1)); Sql.PNum (JS.of_Z 0)].

End Spec.

(* ================================================================== *)
(** ** Sample data *)

Module Sample.

Import Biens Validator.

Definition ana : Db.utilisateur :=
  {| Db.u_id := 1; Db.nom := "Dupont"; Db.prenom := "Ana";
     Db.telephone := "0102030405"; Db.email := "ana@exemple.fr" |}.

Definition maison (i owner : Z) (city : string) (price : Q)
           (publication date : string) : Db.bien :=
  {| Db.id := i; Db.proprietaire_id := owner;
     Db.titre := "Maison de ville"; Db.description := "Maison avec jardin et garage";
     Db.type_bien := "maison"; Db.statut := "vente"; Db.prix := price;
     Db.modalite_paiement := "unique"; Db.surface := 80; Db.nombre_pieces := 4;
     Db.adresse_complete := "12 rue de la Paix"; Db.ville := city;
     Db.code_postal := "75002"; Db.latitude := 48; Db.longitude := 2;
     Db.statut_publication := publication; Db.date_publication := date |}.

(** Two published properties and a draft, all owned by the one user. *)
Definition agence : Db.database :=
  {| Db.biens := [maison 1 1 "Paris" 100 "publie" "2024-01-01";
                  maison 2 1 "Lyon" 200 "publie" "2024-02-01";
                  maison 3 1 "Paris" 300 "brouillon" "2024-03-01"];
     Db.utilisateurs := [ana];
     Db.photos_biens := [];
     Db.default_statut_publication := "brouillon";
     Db.horloge := "2024-05-01" |}.

(** The same, with one more published property whose owner has no row
    in [utilisateurs]. *)
Definition orpheline : Db.database :=
  Sql.with_biens agence
  (Db.biens agence ++ [maison 4 9 "Paris" 50 "publie" "2024-04-01"])%list.

Definition on (db : Db.database) : conn := {| tables := db; sent := [] |}.

Definition no_filter : Query :=
  {| ville := None; type_bien := None; statut := None; prix_min := None;
     prix_max := None; surface_min := None; nombre_pieces_min := None;
     page := None; limit := None |}.

Definition in_city (v : string) : Query :=
  {| ville := Some v; type_bien := None; statut := None; prix_min := None;
     prix_max := None; surface_min := None; nombre_pieces_min := None;
     page := None; limit := None |}.

Definition paged (p l : string) : Query :=
  {| ville := None; type_bien := None; statut := None; prix_min := None;
     prix_max := None; surface_min := None; nombre_pieces_min := None;
     page := Some p; limit := Some l |}.

(** A body that passes [bienValidation], with the smallest price and
    surface that do. *)
Definition annonce : body :=
  fun f =>
  match f with
  | Titre => Some "  Belle maison  "
  | Description => Some "Une belle maison avec jardin"
  | TypeBien => Some "maison"
  | Statut => Some "vente"
  | Prix => Some "0.01"
  | ModalitePaiement => Some "unique"
  | Surface => Some "0.01"
  | NombrePieces => Some "4"
  | AdresseComplete => Some "12 rue de la Paix"
  | Ville => Some "Paris"
  | CodePostal => Some "75002"
  | Latitude => Some "48.86"
  | Longitude => Some "2.33"
  end.

End Sample.

(* ================================================================== *)
(** ** The seller's routes *)

Module Vendeur.

Import Biens.

(** A row of [conversations] (the column that the router reads). *)
Record conversation : Type := {
  conv_bien_id : Z
}.

(** The database with the table [conversations], which only the
    seller's list reads. *)
Record store : Type := {
  base : Db.database;
  conversations : list conversation
}.

(** A row of the seller's list. *)
Record mes_bien_row : Type := {
  m_bien : Db.bien;
  nb_conversations : JS.number;
  m_photo_principale : option string
}.

Inductive result : Type :=
| MesBiens (rows : list mes_bien_row)
| Autre (r : Sql.result).

Definition mes_biens_sql : string := "
      SELECT
        b.*,
        (SELECT COUNT(*) FROM conversations c WHERE c.bien_id = b.id) as nb_conversations,
        (SELECT url_image FROM photos_biens WHERE bien_id = b.id AND est_principale = 1 LIMIT 1) as photo_principale
      FROM biens b
      WHERE b.proprietaire_id = ?
      ORDER BY b.date_publication DESC
    ".

Definition delete_sql : string := "DELETE FROM biens WHERE id = ?".

(** [(SELECT COUNT( * ) FROM conversations c WHERE c.bien_id = b.id)]. *)
Definition count_conversations (s : store) (b : Db.bien) : JS.number :=
  JS.of_Z
    (Z.of_nat
       (List.length
          (filter (fun c => conv_bien_id c =? Db.id b) (conversations s)))).

Definition mes_bien_of (s : store) (b : Db.bien) : mes_bien_row :=
  {| m_bien := b;
     nb_conversations := count_conversations s b;
     m_photo_principale := Sql.main_photo (base s) b |}.

(** [ORDER BY b.date_publication DESC]. *)
Definition plus_recent (x y : mes_bien_row) : bool :=
  String.ltb (Db.date_publication (m_bien y)) (Db.date_publication (m_bien x)).

Definition with_base (s : store) (db : Db.database) : store :=
  {| base := db; conversations := conversations s |}.

(** The two statements of the seller's routes, and the statements of
    the other routes as [Sql.exec] runs them.  DELETE removes the rows
    of [biens] with the key; what the schema does to the rows of other
    tables that refer to them is not modelled. *)
Definition exec (s : store) (sql : string) (ps : list Sql.param)
  : option (result * store) :=
  if String.eqb sql mes_biens_sql then
    match ps with
    | [powner] =>
        Some (MesBiens
                (Sql.order_by plus_recent
                   (map (mes_bien_of s)
                      (filter (fun b => Sql.id_eq (Db.proprietaire_id b) powner)
                              (Db.biens (base s))))),
              s)
    | _ => None
    end
  else if String.eqb sql delete_sql then
    match ps with
    | [pid] =>
        Some (Autre (Sql.Done 0),
              with_base s
                (Sql.with_biens (base s)
                   (filter (fun b => negb (Sql.id_eq (Db.id b) pid))
                           (Db.biens (base s)))))
    | _ => None
    end
  else
    match Sql.exec (base s) sql ps with
    | Some (r, db') => Some (Autre r, with_base s db')
    | None => None
    end.

(** The connection of the seller's routes. *)
Record connexion : Type := {
  tables : store;
  sent : list (string * list Sql.param)
}.

Definition query (c : connexion) (sql : string) (ps : list Sql.param)
  : option result * connexion :=
  match exec (tables c) sql ps with
  | Some (r, s') =>
      (Some r, {| tables := s'; sent := (sent c ++ [(sql, ps)])%list |})
  | None =>
      (None, {| tables := tables c; sent := (sent c ++ [(sql, ps)])%list |})
  end.

(** The connection as the public routes see it. *)
Definition public (c : connexion) : conn :=
  {| Biens.tables := base (tables c); Biens.sent := sent c |}.

(** The object given to [res.json]. *)
Inductive payload : Type :=
| Biens (biens : result)
| Message (message : string)
| Erreur (error message : string).

Record response : Type := {
  status : Z;
  json : payload
}.

(** GET /mes-biens, for the caller that [authenticateToken] put on the
    request and [requireVendeur] let through. *)
Definition get_mes_biens (c : connexion) (user_id : Z) : response * connexion :=
  match query c mes_biens_sql [Sql.PNum (JS.of_Z user_id)] with
  | (Some biens, c1) => ({| status := 200; json := Biens biens |}, c1)
  | (None, c1) =>
      ({| status := 500;
          json := Erreur "Erreur serveur"
                         "Erreur lors de la récupération de vos biens" |},
       c1)
  end.

(** DELETE /:id, once [requireOwnership] has let the request through. *)
Definition delete_bien (c : connexion) (bienId : string) : response * connexion :=
  match query c delete_sql [Sql.PText bienId] with
  | (Some _, c1) =>
      ({| status := 200; json := Message "Bien supprimé avec succès" |}, c1)
  | (None, c1) =>
      ({| status := 500;
          json := Erreur "Erreur serveur"
                         "Erreur lors de la suppression du bien" |},
       c1)
  end.

End Vendeur.

(* ================================================================== *)
(** ** Orders and invariants of the rows *)

Module Invariants.

Import Biens Spec.

(** The rows of [l] follow the order [before]: no row comes strictly
    before the row that precedes it. *)
Definition in_order {A : Type} (before : A -> A -> bool) (l : list A) : Prop :=
  Sorted (fun x y => before y x = false) l.

(** The rows of a list answer. *)
Definition listings (r : response) : list Sql.listing_row :=
  match json r with
  | Liste (Sql.Listings rows) _ _ _ => rows
  | _ => []
  end.

(** The key [n] selects the row [b]. *)
Definition has_key (n : Z) (b : Db.bien) : bool := Db.id b =? n.

(** The rows of [photos_biens] that the detail route reads for the key
    [n], in the order of its ORDER BY. *)
Definition photos_of (db : Db.database) (n : Z) : list Db.photo :=
  Sql.order_by Sql.photo_before
    (filter (fun p => Db.bien_id p =? n) (Db.photos_biens db)).

(** The published rows with the key [n], joined with their owners. *)
Definition fiches (db : Db.database) (n : Z) : list Sql.detail_row :=
  Sql.join_owners db Sql.detail_of
    (filter (fun b => has_key n b && published b) (Db.biens db)).

End Invariants.

(* ================================================================== *)
(** ** Decimal literals, by their parts *)

Module Literal.

(** The integer digits, the fraction digits and the rest of a decimal
    literal without its sign. *)
Definition parts (body : string) : string * string * string :=
  let (ip, r1) := JS.span_digits body in
  let (fp, r2) :=
    match r1 with
    | String "." r => JS.span_digits r
    | _ => (EmptyString, r1)
    end in
  (ip, fp, r2).

(** The sign, the digits and the rest of an exponent part, if the text
    starts with [e] or [E]. *)
Definition exponent (r2 : string) : option (bool * string * string) :=
  match r2 with
  | String "e" r | String "E" r =>
      let (eneg, r') := JS.split_sign r in
      let (d, rest) := JS.span_digits r' in
      Some (eneg, d, rest)
  | _ => None
  end.

(** No character of [s] is white space or a comma. *)
Fixpoint clean (s : string) : bool :=
  match s with
  | EmptyString => true
  | String c s' => negb (JS.is_space c) && negb (Ascii.eqb c ",") && clean s'
  end.

Fixpoint all_digits (s : string) : bool :=
  match s with
  | EmptyString => true
  | String c s' => JS.is_digit c && all_digits s'
  end.

End Literal.

(* ================================================================== *)
(** ** The rules of [bienValidation], on the columns *)

Module Regles.

Import Biens Validator.

(** The chain of [bienValidation] for a field trims it. *)
Definition trimmed_field (f : champ) : bool :=
  existsb (fun ch => champ_eqb (field ch) f && trimmed ch) bienValidation.

(** The body after the sanitizers: a trimmed field holds the trimmed
    text, the other fields are as they were. *)
Definition sanitized_body (b : body) : body :=
  fun f => if trimmed_field f then Some (JS.trim (toString (b f))) else b f.

Definition length_between (lo hi : nat) (s : string) : Prop :=
  (lo <= String.length s <= hi)%nat.

(** The thirteen values satisfy the rules of [bienValidation]. *)
Definition valid_champs (ch : Sql.champs) : Prop :=
  length_between 5 150 (Sql.c_titre ch)
  /\ length_between 20 2000 (Sql.c_description ch)
  /\ In (Sql.c_type_bien ch)
        ["maison"; "immeuble"; "villa"; "appartement"; "terrain"]
  /\ In (Sql.c_statut ch) ["location"; "vente"]
  /\ (1 # 100 <= Sql.c_prix ch)%Q
  /\ In (Sql.c_modalite_paiement ch) ["mensuel"; "trimestriel"; "annuel"; "unique"]
  /\ (1 # 100 <= Sql.c_surface ch)%Q
  /\ 0 <= Sql.c_nombre_pieces ch
  /\ length_between 10 255 (Sql.c_adresse_complete ch)
  /\ length_between 2 100 (Sql.c_ville ch)
  /\ length_between 4 20 (Sql.c_code_postal ch)
  /\ (- (90) <= Sql.c_latitude ch <= 90)%Q
  /\ (- (180) <= Sql.c_longitude ch <= 180)%Q.

(** The thirteen columns of a row that INSERT and UPDATE list. *)
Definition champs_of (b : Db.bien) : Sql.champs :=
  {| Sql.c_titre := Db.titre b;
     Sql.c_description := Db.description b;
     Sql.c_type_bien := Db.type_bien b;
     Sql.c_statut := Db.statut b;
     Sql.c_prix := Db.prix b;
     Sql.c_modalite_paiement := Db.modalite_paiement b;
     Sql.c_surface := Db.surface b;
     Sql.c_nombre_pieces := Db.nombre_pieces b;
     Sql.c_adresse_complete := Db.adresse_complete b;
     Sql.c_ville := Db.ville b;
     Sql.c_code_postal := Db.code_postal b;
     Sql.c_latitude := Db.latitude b;
     Sql.c_longitude := Db.longitude b |}.

(** A row satisfies the rules of [bienValidation]. *)
Definition valid_bien (b : Db.bien) : Prop := valid_champs (champs_of b).

(** The five text columns of a row hold the trimmed texts of the
    body. *)
Definition trimmed_texts (b : body) (r : Db.bien) : Prop :=
  Db.titre r = JS.trim (toString (b Titre))
  /\ Db.description r = JS.trim (toString (b Description))
  /\ Db.adresse_complete r = JS.trim (toString (b AdresseComplete))
  /\ Db.ville r = JS.trim (toString (b Ville))
  /\ Db.code_postal r = JS.trim (toString (b CodePostal)).

End Regles.

(* ================================================================== *)
(** ** More sample data *)

Module Fixtures.

Import Biens.

Definition photo (i b : Z) (principale : Z) : Db.photo :=
  {| Db.p_id := i; Db.bien_id := b; Db.url_image := "/uploads/photo.jpg";
     Db.est_principale := principale |}.

(** The sample agency with three photos of the property 1 (the second
    is the main one) and one of the property 2. *)
Definition galerie : Db.database :=
  {| Db.biens := Db.biens Sample.agence;
     Db.utilisateurs := Db.utilisateurs Sample.agence;
     Db.photos_biens := [photo 10 1 0; photo 11 1 1; photo 12 2 1; photo 13 1 0];
     Db.default_statut_publication := "brouillon";
     Db.horloge := "2024-05-01" |}.

(** The sample agency as the seller's routes see it, with two
    conversations about the property 1. *)
Definition boutique : Vendeur.connexion :=
  {| Vendeur.tables :=
       {| Vendeur.base := Sample.agence;
          Vendeur.conversations :=
            [ {| Vendeur.conv_bien_id := 1 |}; {| Vendeur.conv_bien_id := 1 |};
              {| Vendeur.conv_bien_id := 7 |} ] |};
     Vendeur.sent := [] |}.

Definition priced (lo hi : string) : Query :=
  {| ville := None; type_bien := None; statut := None; prix_min := Some lo;
     prix_max := Some hi; surface_min := None; nombre_pieces_min := None;
     page := None; limit := None |}.

End Fixtures.

(* ================================================================== *)
(** ** The collaborators on small inputs *)

Example parseInt_12abc : JS.parseInt "12abc" = JS.of_Z 12.
Proof. reflexivity. Qed.
Example parseInt_hex : JS.parseInt " -0x1F" = JS.of_Z (-31).
Proof. reflexivity. Qed.
Example parseInt_empty : JS.parseInt "" = JS.NaN.
Proof. reflexivity. Qed.
Example parseFloat_cents : JS.parseFloat "0.01" = JS.Num (1 # 100).
Proof. reflexivity. Qed.
Example parseFloat_exp : JS.parseFloat "-1.5e2x" = JS.Num (inject_Z (-150)).
Proof. reflexivity. Qed.
Example parseFloat_dot : JS.parseFloat "." = JS.NaN.
Proof. reflexivity. Qed.

Example like_par_Paris : Sql.like "%par%" "Paris" = true.
Proof. reflexivity. Qed.
Example like_lyon_Paris : Sql.like "%lyon%" "Paris" = false.
Proof. reflexivity. Qed.
Example conjuncts_two :
  Sql.conjuncts "b.statut_publication = ? AND b.ville LIKE ?"
  = ["b.statut_publication = ?"; "b.ville LIKE ?"].
Proof. reflexivity. Qed.
Example text_to_number_ex : Sql.text_to_number " 12.50 " = Some (1250 # 100).
Proof. reflexivity. Qed.
Example text_to_number_bad : Sql.text_to_number "12abc" = None.
Proof. reflexivity. Qed.

Example isFloat_zero : Validator.isFloat (Some (1 # 100)) None "0" = false.
Proof. reflexivity. Qed.
Example isFloat_cent : Validator.isFloat (Some (1 # 100)) None "0.01" = true.
Proof. reflexivity. Qed.
Example isInt_neg : Validator.isInt 0 "-1" = false.
Proof. reflexivity. Qed.
Example trim_both : JS.trim "  rue de la Paix " = "rue de la Paix".
Proof. reflexivity. Qed.

(* ================================================================== *)
(** ** Lemmas on the collaborators *)

(** The text [sql] is not the statement [other]: they differ at a
    character that does not depend on the WHERE clause. *)
Ltac not_statement sql other :=
  replace (String.eqb sql other) with false by reflexivity.

Ltac not_fixed_statement sql :=
  not_statement sql Sql.detail_sql;
  not_statement sql Sql.photos_sql;
  not_statement sql Sql.insert_sql;
  not_statement sql Sql.select_by_id_sql;
  not_statement sql Sql.update_sql.

Section Text.

Lemma strip_prefix_app (p s : string) :
  Sql.strip_prefix p (p ++ s) = Some s.
Proof.
  induction p as [|a p IH]; simpl.
  - reflexivity.
  - now rewrite Ascii.eqb_refl.
Qed.

End Text.

Section Numbers.

Lemma integer_value_of_Z (z : Z) :
  Sql.integer_value (Sql.PNum (JS.of_Z z)) = Some z.
Proof.
  unfold Sql.integer_value, JS.of_Z.
  rewrite Qfloor_Z.
  now rewrite (proj2 (Qeq_bool_iff _ _) (Qeq_refl _)).
Qed.

Lemma integer_param_of_Z (z : Z) :
  Sql.in_int64 z = true ->
  Sql.integer_param (Sql.PNum (JS.of_Z z)) = Some z.
Proof.
  intros H. unfold Sql.integer_param. now rewrite integer_value_of_Z, H.
Qed.

Lemma safe_in_int64 (z : Z) : Spec.safe_integer z -> Sql.in_int64 z = true.
Proof.
  unfold Spec.safe_integer, Sql.in_int64. intros H.
  apply andb_true_iff. split; apply Z.ltb_lt; lia.
Qed.

Lemma or_zero_of_Z (z : Z) : JS.or_zero (JS.of_Z z) = JS.of_Z z.
Proof.
  unfold JS.or_zero, JS.of_Z, JS.is_zero.
  destruct (Qeq_bool (inject_Z z) 0) eqn:E; [|reflexivity].
  apply Qeq_bool_iff in E. unfold Qeq in E. simpl in E.
  assert (z = 0) by lia. now subst.
Qed.

End Numbers.

(* ================================================================== *)
(** ** The statements of the list route *)

Section ListStatements.

Import Biens Spec.

Ltac split_truthy :=
  repeat match goal with
         | |- context [if JS.truthy ?v then _ else _] =>
             let E := fresh "E" in destruct (JS.truthy v) eqn:E
         end.

Lemma bound_to_string (v : option string) :
  JS.truthy v = true -> bound v = Sql.PText (JS.to_string v).
Proof. destruct v as [s|]; [reflexivity | discriminate]. Qed.

(** The WHERE clause is the base predicate followed by the conjunct of
    each filter that is present, in the order of the tests. *)
Lemma whereConditions_shape (q : Query) :
  whereConditions q
  = "b.statut_publication = ?" :: map conjunct (presents q tous).
Proof.
  unfold whereConditions, presents, tous, present; simpl.
  split_truthy; reflexivity.
Qed.

Lemma queryParams_shape (q : Query) :
  queryParams q
  = Sql.PText "publie"
    :: map (fun k => parameter k (JS.to_string (valeur q k))) (presents q tous).
Proof.
  unfold queryParams, presents, tous, present; simpl.
  split_truthy; simpl;
    rewrite ?(bound_to_string (type_bien q)), ?(bound_to_string (statut q))
      by assumption;
    reflexivity.
Qed.

Lemma params_length (q : Query) :
  List.length (queryParams q) = List.length (whereConditions q).
Proof.
  rewrite whereConditions_shape, queryParams_shape; simpl.
  now rewrite !length_map.
Qed.

(** The engine reads back from the text the conjuncts that the
    handler joined. *)
Lemma where_text (q : Query) (t : string) :
  Sql.until_newline (whereClause q ++ String "010" t)
  = (whereClause q, String "010" t)
  /\ Sql.conjuncts (whereClause q) = whereConditions q.
Proof.
  unfold whereClause, whereConditions.
  split_truthy; split; reflexivity.
Qed.

Lemma eval_conjunct_holds (k : filtre) (v : string) (b : Db.bien) :
  Sql.eval_conjunct (conjunct k) (parameter k v) b = Some (holds k v b).
Proof. destruct k; reflexivity. Qed.

Lemma eval_where_filters (v : filtre -> string) (b : Db.bien) (l : list filtre) :
  Sql.eval_where (map conjunct l) (map (fun k => parameter k (v k)) l) b
  = Some (forallb (fun k => holds k (v k) b) l).
Proof.
  induction l as [|k l IH]; simpl.
  - reflexivity.
  - now rewrite eval_conjunct_holds, IH.
Qed.

Lemma eval_where_route (q : Query) (b : Db.bien) :
  Sql.eval_where (whereConditions q) (queryParams q) b
  = Some (row_matches q b).
Proof.
  rewrite whereConditions_shape, queryParams_shape.
  cbn [Sql.eval_where].
  rewrite (eval_where_filters (fun k => JS.to_string (valeur q k))).
  reflexivity.
Qed.

Lemma select_where_filter (cs : list string) (ps : list Sql.param)
      (f : Db.bien -> bool) (l : list Db.bien) :
  (forall b, Sql.eval_where cs ps b = Some (f b)) ->
  Sql.select_where cs ps l = Some (filter f l).
Proof.
  intros H. induction l as [|b l IH]; simpl.
  - reflexivity.
  - now rewrite H, IH.
Qed.

Lemma firstn_exact {A : Type} (l r : list A) :
  firstn (List.length l) (l ++ r)%list = l.
Proof.
  induction l as [|x l IH]; simpl; [reflexivity | now rewrite IH].
Qed.

Lemma skipn_exact {A : Type} (l r : list A) :
  skipn (List.length l) (l ++ r)%list = r.
Proof. induction l as [|x l IH]; simpl; [reflexivity | exact IH]. Qed.

Lemma exec_countQuery (db : Db.database) (q : Query) :
  Sql.exec db (countQuery q) (queryParams q)
  = Some (Sql.Totals [JS.of_Z (Z.of_nat (List.length (selected db q)))], db).
Proof.
  unfold Sql.exec.
  change (countQuery q)
    with (Sql.count_head ++ (whereClause q ++ Sql.count_tail)).
  not_fixed_statement (Sql.count_head ++ (whereClause q ++ Sql.count_tail)).
  rewrite strip_prefix_app.
  unfold Sql.count_tail at 1.
  rewrite (proj1 (where_text q _)), (proj2 (where_text q EmptyString)).
  rewrite params_length, Nat.eqb_refl, String.eqb_refl.
  cbn [andb].
  rewrite (select_where_filter _ _ _ _ (eval_where_route q)).
  reflexivity.
Qed.

Lemma exec_mainQuery (db : Db.database) (q : Query) (plimit poffset : Sql.param) :
  Sql.exec db (mainQuery q) (queryParams q ++ [plimit; poffset])%list
  = match Sql.integer_param plimit, Sql.integer_param poffset with
    | Some n, Some m =>
        Some (Sql.Listings (Sql.limit_offset n m (ordered db q)), db)
    | _, _ => None
    end.
Proof.
  unfold Sql.exec.
  change (mainQuery q)
    with (Sql.main_head ++ (whereClause q ++ Sql.main_tail)).
  not_fixed_statement (Sql.main_head ++ (whereClause q ++ Sql.main_tail)).
  replace (Sql.strip_prefix Sql.count_head
             (Sql.main_head ++ (whereClause q ++ Sql.main_tail)))
    with (@None string) by reflexivity.
  rewrite strip_prefix_app.
  unfold Sql.main_tail at 1.
  rewrite (proj1 (where_text q _)), (proj2 (where_text q EmptyString)).
  rewrite String.eqb_refl, <- params_length, skipn_exact, firstn_exact.
  destruct (Sql.integer_param plimit) as [n|]; [|reflexivity].
  destruct (Sql.integer_param poffset) as [m|]; [|reflexivity].
  rewrite (select_where_filter _ _ _ _ (eval_where_route q)).
  reflexivity.
Qed.

End ListStatements.

(* ================================================================== *)
(** ** The list route as a whole *)

Section ListRoute.

Import Biens Spec.

Lemma query_count (c : conn) (q : Query) :
  query c (countQuery q) (queryParams q)
  = (Some (Sql.Totals [JS.of_Z (Z.of_nat (List.length (selected (tables c) q)))]),
     {| tables := tables c;
        sent := (sent c ++ [(countQuery q, queryParams q)])%list |}).
Proof. unfold query. now rewrite exec_countQuery. Qed.

(** What [get_biens] answers, by whether the engine accepts the LIMIT
    and OFFSET parameters. *)
Lemma get_biens_run (c : conn) (q : Query) :
  get_biens c q
  = (match Sql.integer_param (Sql.PNum (parsed_limit q)),
           Sql.integer_param (Sql.PNum (offset q)) with
     | Some n, Some m =>
         let total := JS.of_Z (Z.of_nat (List.length (selected (tables c) q))) in
         respond 200
           (Liste (Sql.Listings (Sql.limit_offset n m (ordered (tables c) q)))
                  total
                  {| p_page := parsed_page q;
                     p_limit := parsed_limit q;
                     p_total := total;
                     p_pages := JS.ceil (JS.div total (parsed_limit q)) |}
                  q)
     | _, _ => server_error "Erreur lors de la récupération des biens"
     end,
     {| tables := tables c;
        sent := (sent c ++ [(countQuery q, queryParams q);
                            (mainQuery q, mainParams q)])%list |}).
Proof.
  unfold get_biens. rewrite query_count.
  unfold query, mainParams; cbn [tables sent].
  rewrite exec_mainQuery.
  rewrite <- app_assoc; cbn [app].
  destruct (Sql.integer_param (Sql.PNum (parsed_limit q))) as [n|];
    [|reflexivity].
  destruct (Sql.integer_param (Sql.PNum (offset q))) as [m|]; [|reflexivity].
  cbn [total_of]. rewrite or_zero_of_Z. reflexivity.
Qed.

Lemma presents_ext (q1 q2 : Query) (ks : list filtre) :
  (forall k, present q1 k = present q2 k) -> presents q1 ks = presents q2 ks.
Proof. intros H. apply filter_ext. exact H. Qed.

Lemma In_skipn_list {A : Type} (n : nat) (l : list A) (x : A) :
  In x (skipn n l) -> In x l.
Proof.
  intros H. rewrite <- (firstn_skipn n l). apply in_or_app. now right.
Qed.

Lemma In_firstn_list {A : Type} (n : nat) (l : list A) (x : A) :
  In x (firstn n l) -> In x l.
Proof.
  intros H. rewrite <- (firstn_skipn n l). apply in_or_app. now left.
Qed.

Lemma In_limit_offset {A : Type} (n m : Z) (l : list A) (x : A) :
  In x (Sql.limit_offset n m l) -> In x l.
Proof.
  unfold Sql.limit_offset. intros H.
  destruct (n <? 0).
  - eapply In_skipn_list; eauto.
  - eapply In_skipn_list. eapply In_firstn_list; eauto.
Qed.

Lemma In_insert_by {A : Type} (f : A -> A -> bool) (x y : A) (l : list A) :
  In y (Sql.insert_by f x l) -> y = x \/ In y l.
Proof.
  induction l as [|z l IH]; simpl.
  - intros [H|[]]; auto.
  - destruct (f z x); simpl.
    + intros [H|H]; auto. destruct (IH H); auto.
    + intros [H|[H|H]]; auto.
Qed.

Lemma In_order_by {A : Type} (f : A -> A -> bool) (y : A) (l : list A) :
  In y (Sql.order_by f l) -> In y l.
Proof.
  induction l as [|x l IH]; simpl.
  - auto.
  - intros H. apply In_insert_by in H. destruct H; auto.
Qed.

Lemma length_insert_by {A : Type} (f : A -> A -> bool) (x : A) (l : list A) :
  List.length (Sql.insert_by f x l) = S (List.length l).
Proof.
  induction l as [|z l IH]; simpl; [reflexivity|].
  destruct (f z x); simpl; [now rewrite IH | reflexivity].
Qed.

Lemma length_order_by {A : Type} (f : A -> A -> bool) (l : list A) :
  List.length (Sql.order_by f l) = List.length l.
Proof.
  induction l as [|x l IH]; simpl; [reflexivity|].
  now rewrite length_insert_by, IH.
Qed.

Lemma In_join_owners {R : Type} (db : Db.database)
      (row : Db.bien -> Db.utilisateur -> R) (l : list Db.bien) (r : R) :
  In r (Sql.join_owners db row l) ->
  exists b u, In b l /\ In u (Sql.owners db b) /\ r = row b u.
Proof.
  unfold Sql.join_owners. rewrite in_flat_map.
  intros [b [Hb Hr]]. apply in_map_iff in Hr. destruct Hr as [u [Hu Hin]].
  exists b, u. auto.
Qed.

Lemma length_join_owners {R : Type} (db : Db.database)
      (row : Db.bien -> Db.utilisateur -> R) (l : list Db.bien) :
  (forall b, In b l -> List.length (Sql.owners db b) = 1%nat) ->
  List.length (Sql.join_owners db row l) = List.length l.
Proof.
  unfold Sql.join_owners.
  induction l as [|b l IH]; simpl; intros H.
  - reflexivity.
  - rewrite length_app, length_map, (H b (or_introl eq_refl)), IH; auto.
Qed.

Lemma selected_published (db : Db.database) (q : Query) (b : Db.bien) :
  In b (selected db q) -> Db.statut_publication b = "publie".
Proof.
  unfold selected. rewrite filter_In. intros [_ H].
  unfold row_matches in H. apply andb_true_iff in H. destruct H as [H _].
  now apply String.eqb_eq in H.
Qed.

Lemma limit_offset_none {A : Type} (l : list A) :
  Sql.limit_offset (-1) 0 l = l.
Proof. reflexivity. Qed.

End ListRoute.

Example list_Paris_case_insensitive :
  Spec.records (fst (Biens.get_biens (Sample.on Sample.agence) (Sample.in_city "par")))
  = [Sample.maison 1 1 "Paris" 100 "publie" "2024-01-01"].
Proof. vm_compute. reflexivity. Qed.

Example list_newest_first :
  map Db.id
      (Spec.records (fst (Biens.get_biens (Sample.on Sample.agence) Sample.no_filter)))
  = [2; 1].
Proof. vm_compute. reflexivity. Qed.

(* ================================================================== *)
(** ** Claims on the statements of the list route *)

Section ListClaims.

Import Biens Spec.

(** C1. The SQL text of the count query and of the main query depends
    only on which filters are present: two requests with the same filters
    present send the same texts, whatever the values.  The values are in
    the bound parameters only, after the constant of the base predicate
    and in the order of the placeholders, the city between two [%]. *)
Theorem C1_sql_text_independent_of_values (c : conn) (q1 q2 : Query) :
  (forall k, present q1 k = present q2 k) ->
  countQuery q1 = countQuery q2
  /\ mainQuery q1 = mainQuery q2
  /\ map fst (sent (snd (get_biens c q1))) = map fst (sent (snd (get_biens c q2)))
  /\ sent (snd (get_biens c q1))
     = (sent c ++ [(countQuery q1, queryParams q1);
                   (mainQuery q1, (queryParams q1
                                   ++ [Sql.PNum (parsed_limit q1);
                                       Sql.PNum (offset q1)])%list)])%list
  /\ queryParams q1
     = Sql.PText "publie"
       :: map (fun k => parameter k (JS.to_string (valeur q1 k))) (presents q1 tous).
Proof.
  intros H.
  assert (Hw : whereClause q1 = whereClause q2).
  { unfold whereClause.
    now rewrite !whereConditions_shape, (presents_ext q1 q2 tous H). }
  assert (Hc : countQuery q1 = countQuery q2)
    by (unfold countQuery; now rewrite Hw).
  assert (Hm : mainQuery q1 = mainQuery q2)
    by (unfold mainQuery; now rewrite Hw).
  repeat split; auto.
  - rewrite !get_biens_run; cbn [snd sent].
    rewrite !map_app; cbn [map fst]. now rewrite Hc, Hm.
  - rewrite get_biens_run. reflexivity.
  - apply queryParams_shape.
Qed.

Lemma C1_witness :
  countQuery (Sample.in_city "Paris") = countQuery (Sample.in_city "x' OR '1'='1")
  /\ mainQuery (Sample.in_city "Paris") = mainQuery (Sample.in_city "x' OR '1'='1").
Proof.
  destruct (C1_sql_text_independent_of_values
              (Sample.on Sample.agence)
              (Sample.in_city "Paris") (Sample.in_city "x' OR '1'='1"))
    as [H1 [H2 _]].
  - intros k; destruct k; reflexivity.
  - split; assumption.
Defined.

(** C5. The WHERE clause is the base predicate followed by one conjunct
    for each filter that is present and none for a filter that is absent,
    joined by AND; a row passes it exactly when it is published and
    passes the test of every filter that is present. *)
Theorem C5_one_conjunct_per_present_filter (q : Query) :
  whereConditions q
  = "b.statut_publication = ?" :: map conjunct (presents q tous)
  /\ whereClause q
     = String.concat " AND "
         ("b.statut_publication = ?" :: map conjunct (presents q tous))
  /\ (forall k,
        count_occ string_dec (whereConditions q) (conjunct k)
        = if present q k then 1%nat else 0%nat)
  /\ List.length (whereConditions q)
     = S (List.length (filter (present q) tous))
  /\ (forall b,
        Sql.eval_where (whereConditions q) (queryParams q) b
        = Some (published b
                && forallb (fun k => holds k (JS.to_string (valeur q k)) b)
                           (filter (present q) tous))).
Proof.
  split; [apply whereConditions_shape|].
  split; [unfold whereClause; now rewrite whereConditions_shape|].
  split.
  - intros k. unfold whereConditions, present.
    destruct (JS.truthy (ville q)) eqn:E1,
             (JS.truthy (type_bien q)) eqn:E2,
             (JS.truthy (statut q)) eqn:E3,
             (JS.truthy (prix_min q)) eqn:E4,
             (JS.truthy (prix_max q)) eqn:E5,
             (JS.truthy (surface_min q)) eqn:E6,
             (JS.truthy (nombre_pieces_min q)) eqn:E7;
      destruct k; cbn [valeur];
      rewrite ?E1, ?E2, ?E3, ?E4, ?E5, ?E6, ?E7; reflexivity.
  - split.
    + rewrite whereConditions_shape. cbn [List.length].
      now rewrite length_map.
    + intros b. apply eval_where_route.
Qed.

(** C10. A filter supplied with the empty string is treated as absent:
    the WHERE clause, the texts and the parameters are those of the
    request without it, and so is the answer, the echo of the filters
    apart. *)
Theorem C10_empty_filter_is_absent (c : conn) (q : Query) (k : filtre) :
  valeur q k = Some EmptyString ->
  whereConditions q = whereConditions (without k q)
  /\ queryParams q = queryParams (without k q)
  /\ countQuery q = countQuery (without k q)
  /\ mainQuery q = mainQuery (without k q)
  /\ status (fst (get_biens c q)) = status (fst (get_biens c (without k q)))
  /\ forget_filters (json (fst (get_biens c q)))
     = forget_filters (json (fst (get_biens c (without k q))))
  /\ sent (snd (get_biens c q)) = sent (snd (get_biens c (without k q))).
Proof.
  intros H.
  assert (Hw : whereConditions q = whereConditions (without k q)).
  { unfold whereConditions; destruct k; cbn [valeur] in H; cbn; rewrite H;
      reflexivity. }
  assert (Hp : queryParams q = queryParams (without k q)).
  { unfold queryParams; destruct k; cbn [valeur] in H; cbn; rewrite H;
      reflexivity. }
  assert (Hc : countQuery q = countQuery (without k q))
    by (unfold countQuery, whereClause; now rewrite Hw).
  assert (Hm : mainQuery q = mainQuery (without k q))
    by (unfold mainQuery, whereClause; now rewrite Hw).
  assert (Hs : selected (tables c) q = selected (tables c) (without k q)).
  { unfold selected. apply filter_ext. intros b.
    apply (f_equal (fun o => match o with Some x => x | None => false end)
             (eq_trans (eq_sym (eval_where_route q b))
                (eq_trans (f_equal2 (fun cs ps => Sql.eval_where cs ps b) Hw Hp)
                          (eval_where_route (without k q) b)))). }
  assert (Ho : ordered (tables c) q = ordered (tables c) (without k q))
    by (unfold ordered; now rewrite Hs).
  repeat split; auto; rewrite !get_biens_run; cbn [fst snd sent];
    unfold mainParams, offset, parsed_limit, parsed_page;
    rewrite <- ?Hp, <- ?Hc, <- ?Hm, <- ?Hs, <- ?Ho; cbn [page limit without];
    try reflexivity;
    destruct (Sql.integer_param (Sql.PNum (JS.parseInt (JS.or_default "20" (limit q)))));
    try reflexivity;
    destruct (Sql.integer_param
                (Sql.PNum
                   (JS.mul (JS.sub (JS.parseInt (JS.or_default "1" (page q))) (JS.of_Z 1))
                           (JS.parseInt (JS.or_default "20" (limit q))))));
    reflexivity.
Qed.

Lemma C10_witness :
  whereConditions (Sample.in_city EmptyString) = ["b.statut_publication = ?"]
  /\ queryParams (Sample.in_city EmptyString) = [Sql.PText "publie"].
Proof.
  destruct (C10_empty_filter_is_absent
              (Sample.on Sample.agence) (Sample.in_city EmptyString) FVille
              eq_refl) as [H1 [H2 _]].
  split; [exact H1 | exact H2].
Defined.

End ListClaims.

(* ================================================================== *)
(** ** Claims on the rows of the list and detail routes *)

Section RowClaims.

Import Biens Spec.

Lemma referential_integrity_owners (db : Db.database) (b : Db.bien) :
  referential_integrity db = true ->
  In b (Db.biens db) -> List.length (Sql.owners db b) = 1%nat.
Proof.
  unfold referential_integrity. rewrite forallb_forall.
  intros H Hb. apply Nat.eqb_eq. now apply H.
Qed.

(** C2, at a database where it fails: three published rows are counted,
    and the main query, which joins each row with its owner, returns two
    of them when it is run without LIMIT and OFFSET. *)
Lemma C2_counterexample :
  exists rows,
    Sql.exec Sample.orpheline (countQuery Sample.no_filter)
             (queryParams Sample.no_filter)
    = Some (Sql.Totals [JS.of_Z 3], Sample.orpheline)
    /\ Sql.exec Sample.orpheline (mainQuery Sample.no_filter)
                (queryParams Sample.no_filter ++ no_limit)%list
       = Some (Sql.Listings rows, Sample.orpheline)
    /\ List.length rows = 2%nat.
Proof.
  eexists. split; [|split].
  - vm_compute. reflexivity.
  - vm_compute. reflexivity.
  - reflexivity.
Qed.

(** C2, amended.  The count query and the main query have the same WHERE
    clause and the same parameters bound to it.  In a database where
    every property has exactly one owner row, the total that the count
    query reports is the number of rows that the main query returns
    without LIMIT and OFFSET. *)
Theorem C2_count_agrees_with_main (db : Db.database) (q : Query) :
  referential_integrity db = true ->
  countQuery q = (Sql.count_head ++ whereClause q ++ Sql.count_tail)
  /\ mainQuery q = (Sql.main_head ++ whereClause q ++ Sql.main_tail)
  /\ firstn (List.length (queryParams q)) (mainParams q) = queryParams q
  /\ exists rows,
       Sql.exec db (mainQuery q) (queryParams q ++ no_limit)%list
       = Some (Sql.Listings rows, db)
       /\ Sql.exec db (countQuery q) (queryParams q)
          = Some (Sql.Totals [JS.of_Z (Z.of_nat (List.length rows))], db).
Proof.
  intros Hri.
  split; [reflexivity|]. split; [reflexivity|].
  split; [apply firstn_exact|].
  exists (ordered db q). split.
  - unfold no_limit.
    rewrite exec_mainQuery, !integer_param_of_Z by reflexivity.
    now rewrite limit_offset_none.
  - rewrite exec_countQuery. unfold ordered.
    rewrite length_order_by, length_join_owners; [reflexivity|].
    intros b Hb. apply referential_integrity_owners; [exact Hri|].
    unfold selected in Hb. now apply filter_In in Hb.
Qed.

Lemma C2_witness :
  exists rows,
    Sql.exec Sample.agence (mainQuery (Sample.in_city "par"))
             (queryParams (Sample.in_city "par") ++ no_limit)%list
    = Some (Sql.Listings rows, Sample.agence)
    /\ Sql.exec Sample.agence (countQuery (Sample.in_city "par"))
                (queryParams (Sample.in_city "par"))
       = Some (Sql.Totals [JS.of_Z (Z.of_nat (List.length rows))], Sample.agence).
Proof.
  exact (proj2 (proj2 (proj2
           (C2_count_agrees_with_main Sample.agence (Sample.in_city "par")
                                      eq_refl)))).
Defined.

Lemma exec_detail (db : Db.database) (pid : Sql.param) (pub : string) :
  Sql.exec db Sql.detail_sql [pid; Sql.PText pub]
  = Some (Sql.Details
            (Sql.join_owners db Sql.detail_of
               (filter (fun b => Sql.id_eq (Db.id b) pid
                                 && (Db.statut_publication b =? pub)%string)
                       (Db.biens db))),
          db).
Proof. unfold Sql.exec. now rewrite String.eqb_refl. Qed.

Lemma exec_photos (db : Db.database) (pid : Sql.param) :
  Sql.exec db Sql.photos_sql [pid]
  = Some (Sql.Photos
            (map Sql.photo_row_of
               (Sql.order_by Sql.photo_before
                  (filter (fun p => Sql.id_eq (Db.bien_id p) pid)
                          (Db.photos_biens db)))),
          db).
Proof.
  unfold Sql.exec.
  not_statement Sql.photos_sql Sql.detail_sql.
  now rewrite String.eqb_refl.
Qed.

Lemma records_get_biens (c : conn) (q : Query) (b : Db.bien) :
  In b (records (fst (get_biens c q))) -> In b (selected (tables c) q).
Proof.
  rewrite get_biens_run; cbn [fst].
  destruct (Sql.integer_param (Sql.PNum (parsed_limit q))) as [n|];
    [|intros []].
  destruct (Sql.integer_param (Sql.PNum (offset q))) as [m|]; [|intros []].
  unfold records; cbn [json respond].
  rewrite in_map_iff. intros [r [Hr Hin]].
  apply In_limit_offset, In_order_by, In_join_owners in Hin.
  destruct Hin as [b' [u [Hb' [_ Hrow]]]]. subst r b. exact Hb'.
Qed.

Lemma records_get_bien (c : conn) (bienId : string) (b : Db.bien) :
  In b (records (fst (get_bien c bienId))) ->
  Db.statut_publication b = "publie".
Proof.
  unfold get_bien.
  destruct (JS.isNaN (JS.parseInt bienId)
            || negb (JS.isInteger (JS.parseInt bienId))
            || JS.le (JS.parseInt bienId) (JS.of_Z 0)); [intros []|].
  unfold query. rewrite exec_detail; cbn [tables sent].
  destruct (Sql.join_owners _ _ _) as [|row rows] eqn:E; [intros []|].
  rewrite exec_photos. unfold records; cbn [fst json respond].
  intros [<-|[]].
  assert (Hin : In row (row :: rows)) by (left; reflexivity).
  rewrite <- E in Hin. apply In_join_owners in Hin.
  destruct Hin as [b' [u [Hb' [_ Hrow]]]]. subst row. cbn [Sql.d_bien Sql.detail_of].
  apply filter_In in Hb'. destruct Hb' as [_ Hb'].
  apply andb_true_iff in Hb'. destruct Hb' as [_ Hb'].
  now apply String.eqb_eq in Hb'.
Qed.

(** C3. Every property record that the list route and the detail route
    return has [statut_publication = 'publie'], whatever the request:
    the WHERE clause of the list route always starts with the base
    predicate, bound to the constant [publie]. *)
Theorem C3_only_published_records (c : conn) (q : Query) (bienId : string) :
  Forall (fun b => Db.statut_publication b = "publie")
         (records (fst (get_biens c q)))
  /\ Forall (fun b => Db.statut_publication b = "publie")
            (records (fst (get_bien c bienId)))
  /\ hd_error (whereConditions q) = Some "b.statut_publication = ?"
  /\ hd_error (queryParams q) = Some (Sql.PText "publie")
  /\ Sql.conjuncts (whereClause q) = whereConditions q.
Proof.
  split; [|split; [|split; [|split]]].
  - apply Forall_forall. intros b Hb.
    eapply selected_published, records_get_biens; eauto.
  - apply Forall_forall. intros b Hb.
    eapply records_get_bien; eauto.
  - now rewrite whereConditions_shape.
  - now rewrite queryParams_shape.
  - apply (where_text q EmptyString).
Qed.

Example detail_of_a_published_record :
  map Db.id (records (fst (get_bien (Sample.on Sample.agence) "2"))) = [2].
Proof. vm_compute. reflexivity. Qed.

Example detail_of_a_draft :
  status (fst (get_bien (Sample.on Sample.agence) "3")) = 404.
Proof. vm_compute. reflexivity. Qed.

End RowClaims.

(* ================================================================== *)
(** ** LIKE between two wildcards *)

Section LikeTheory.

Import Spec.







Lemma fold_case_app (a b : string) :
  fold_case (a ++ b) = fold_case a ++ fold_case b.
Proof.
  induction a as [|c a IH]; cbn; [reflexivity | now rewrite IH].
Qed.

Lemma prefix_ci_spec (v s : string) :
  prefix_ci v s = true <->
  exists mid post, s = mid ++ post /\ fold_case mid = fold_case v.
Proof.
  revert s. induction v as [|c v IH]; intros s; cbn [prefix_ci].
  - split; [|reflexivity].
    intros _. exists EmptyString, s. split; reflexivity.
  - destruct s as [|d s].
    + split; [discriminate|].
      intros [mid [post [H1 H2]]].
      destruct mid; [discriminate H2 | discriminate H1].
    + rewrite andb_true_iff, Ascii.eqb_eq, IH. split.
      * intros [Hc [mid [post [H1 H2]]]].
        exists (String d mid), post. cbn. now rewrite H1, H2, Hc.
      * intros [mid [post [H1 H2]]].
        destruct mid as [|e mid]; [discriminate H2|].
        cbn in H1, H2. injection H1 as -> ->. injection H2 as Hc H2.
        split; [now symmetry | exists mid, post; auto].
Qed.

(** [contains_ci] is containment up to ASCII case. *)
Lemma contains_ci_spec (v s : string) :
  contains_ci v s = true <->
  exists pre mid post, s = pre ++ mid ++ post /\ fold_case mid = fold_case v.
Proof.
  split.
  - induction s as [|d s IH]; cbn [contains_ci]; rewrite orb_true_iff.
    + intros [H|H]; [|discriminate].
      apply prefix_ci_spec in H. destruct H as [mid [post [H1 H2]]].
      exists EmptyString, mid, post. auto.
    + intros [H|H].
      * apply prefix_ci_spec in H. destruct H as [mid [post [H1 H2]]].
        exists EmptyString, mid, post. auto.
      * destruct (IH H) as [pre [mid [post [H1 H2]]]].
        exists (String d pre), mid, post. cbn. now rewrite H1.
  - intros [pre [mid [post [H1 H2]]]]. subst s.
    induction pre as [|d pre IH].
    + cbn [append].
      assert (Hp : prefix_ci v (mid ++ post) = true)
        by (apply prefix_ci_spec; exists mid, post; auto).
      destruct (mid ++ post); cbn [contains_ci]; now rewrite Hp.
    + cbn [append contains_ci]. rewrite IH. apply orb_true_r.
Qed.

End LikeTheory.

Example contains_par_Paris : Spec.contains_ci "par" "Paris" = true.
Proof. reflexivity. Qed.
Example contains_ris_Paris : Spec.contains_ci "RIS" "Paris" = true.
Proof. reflexivity. Qed.
Example contains_pr_Paris : Spec.contains_ci "p_r" "Paris" = false.
Proof. reflexivity. Qed.

(* ================================================================== *)
(** ** Claims on the filters and on pagination *)

Section FilterClaims.

Import Biens Spec.





Lemma offset_of_Z (p l : Z) :
  JS.mul (JS.sub (JS.of_Z p) (JS.of_Z 1)) (JS.of_Z l) = JS.of_Z ((p - 1) * l).
Proof.
  unfold JS.mul, JS.sub, JS.of_Z, inject_Z, Qminus, Qplus, Qopp, Qmult.
  cbn [Qnum Qden Pos.mul]. f_equal. f_equal. ring.
Qed.

Lemma Qceiling_div (t l : Z) :
  l <> 0 -> Qceiling (inject_Z t / inject_Z l) = ceil_div t l.
Proof.
  intros Hl. unfold ceil_div, Qceiling, Qfloor, Qdiv, Qmult, Qinv, Qopp, inject_Z.
  destruct l as [|p|p]; [contradiction| |]; cbn [Qnum Qden Pos.mul].
  - now rewrite Z.mul_1_r.
  - f_equal.
    replace (- (t * Z.neg 1)) with t by ring.
    rewrite <- (Z.div_opp_opp t (Z.pos p)) by discriminate.
    reflexivity.
Qed.

Lemma pages_of_Z (t l : Z) :
  l <> 0 ->
  JS.ceil (JS.div (JS.of_Z t) (JS.of_Z l)) = JS.of_Z (ceil_div t l).
Proof.
  intros Hl. unfold JS.div, JS.of_Z, JS.is_zero.
  destruct (Qeq_bool (inject_Z l) 0) eqn:E.
  - apply Qeq_bool_iff in E. unfold Qeq in E. cbn in E. lia.
  - cbn [JS.ceil]. unfold JS.of_Z. now rewrite Qceiling_div.
Qed.

(** [ceil_div t l] is the ceiling of [t / l] for a positive [l]. *)
Lemma ceil_div_spec (t l : Z) :
  0 < l -> (ceil_div t l - 1) * l < t <= ceil_div t l * l.
Proof.
  intros Hl. unfold ceil_div.
  pose proof (Z.div_mod (- t) l ltac:(lia)) as Hd.
  pose proof (Z.mod_pos_bound (- t) l Hl) as Hm.
  nia.
Qed.

(** C4, at two requests where it fails: with [limit=0] the pagination
    reports [Math.ceil(total / 0)], an infinite number of pages, which
    is the ceiling of no quotient; with [page=abc] the offset is NaN,
    the engine refuses it and the route answers 500. *)
Lemma C4_counterexample :
  fst (get_biens (Sample.on Sample.agence) (Sample.paged "1" "0"))
  = respond 200
      (Liste (Sql.Listings []) (JS.of_Z 2)
             {| p_page := JS.of_Z 1; p_limit := JS.of_Z 0;
                p_total := JS.of_Z 2; p_pages := JS.Infinity false |}
             (Sample.paged "1" "0"))
  /\ offset (Sample.paged "abc" "10") = JS.NaN
  /\ fst (get_biens (Sample.on Sample.agence) (Sample.paged "abc" "10"))
     = server_error "Erreur lors de la récupération des biens".
Proof. repeat split; vm_compute; reflexivity. Qed.

(** C4, amended.  When [page] and [limit] (1 and 20 when absent) are
    read by [parseInt] as the integers [p] and [l], with [l] not zero,
    and [p], [l] and the offset [(p - 1) * l] are safe integers, which a
    Number holds exactly and the engine accepts, the main query is bound
    LIMIT [l] and OFFSET [(p - 1) * l], the rows of the answer are that
    window of the filtered, ordered rows, and the pagination reports the
    ceiling of [total / l] pages. *)
Theorem C4_pagination (c : conn) (q : Query) (p l : Z) :
  parsed_page q = JS.of_Z p ->
  parsed_limit q = JS.of_Z l ->
  l <> 0 ->
  safe_integer p ->
  safe_integer l ->
  safe_integer ((p - 1) * l) ->
  (page q = None -> p = 1)
  /\ (limit q = None -> l = 20)
  /\ mainParams q
     = (queryParams q
        ++ [Sql.PNum (JS.of_Z l); Sql.PNum (JS.of_Z ((p - 1) * l))])%list
  /\ fst (get_biens c q)
     = (let total := Z.of_nat (List.length (selected (tables c) q)) in
        respond 200
          (Liste
             (Sql.Listings
                (Sql.limit_offset l ((p - 1) * l) (ordered (tables c) q)))
             (JS.of_Z total)
             {| p_page := JS.of_Z p; p_limit := JS.of_Z l;
                p_total := JS.of_Z total;
                p_pages := JS.of_Z (ceil_div total l) |}
             q))
  /\ (0 <= l -> 1 <= p ->
      Sql.limit_offset l ((p - 1) * l) (ordered (tables c) q)
      = firstn (Z.to_nat l)
               (skipn (Z.to_nat (p - 1) * Z.to_nat l) (ordered (tables c) q))).
Proof.
  intros Hp Hl Hnz _ Hsl Hso.
  assert (Ho : offset q = JS.of_Z ((p - 1) * l))
    by (unfold offset; rewrite Hp, Hl; apply offset_of_Z).
  split; [|split; [|split; [|split]]].
  - intros Hnone. unfold parsed_page in Hp. rewrite Hnone in Hp.
    vm_compute in Hp. injection Hp as Hp. lia.
  - intros Hnone. unfold parsed_limit in Hl. rewrite Hnone in Hl.
    vm_compute in Hl. injection Hl as Hl. lia.
  - unfold mainParams. now rewrite Hl, Ho.
  - rewrite get_biens_run; cbn [fst].
    rewrite Hl, Ho, Hp, !integer_param_of_Z by (now apply safe_in_int64).
    cbv zeta. now rewrite pages_of_Z.
  - intros H0 H1. unfold Sql.limit_offset.
    replace (l <? 0) with false by (symmetry; apply Z.ltb_ge; exact H0).
    rewrite Z2Nat.inj_mul by lia. reflexivity.
Qed.

Lemma C4_witness :
  mainParams (Sample.paged "2" "10")
  = (queryParams (Sample.paged "2" "10")
     ++ [Sql.PNum (JS.of_Z 10); Sql.PNum (JS.of_Z 10)])%list
  /\ json (fst (get_biens (Sample.on Sample.agence) (Sample.paged "2" "10")))
     = Liste (Sql.Listings []) (JS.of_Z 2)
             {| p_page := JS.of_Z 2; p_limit := JS.of_Z 10;
                p_total := JS.of_Z 2; p_pages := JS.of_Z 1 |}
             (Sample.paged "2" "10").
Proof.
  destruct (C4_pagination (Sample.on Sample.agence) (Sample.paged "2" "10")
                          2 10 eq_refl eq_refl ltac:(lia)
                          ltac:(unfold safe_integer; lia)
                          ltac:(unfold safe_integer; lia)
                          ltac:(unfold safe_integer; lia))
    as [_ [_ [H3 [H4 _]]]].
  split; [exact H3 | rewrite H4; reflexivity].
Defined.

(** For [page=2] and [limit=10] the window is the rows 11 to 20. *)
Example second_page_of_ten {A : Type} (l : list A) (i : nat) (d : A) :
  (i < 10)%nat -> (20 <= List.length l)%nat ->
  List.length (Sql.limit_offset 10 ((2 - 1) * 10) l) = 10%nat
  /\ nth i (Sql.limit_offset 10 ((2 - 1) * 10) l) d = nth (10 + i) l d.
Proof.
  intros Hi Hlen. unfold Sql.limit_offset.
  change (10 <? 0) with false. change (Z.to_nat ((2 - 1) * 10)) with 10%nat.
  change (Z.to_nat 10) with 10%nat. cbv iota.
  split.
  - rewrite length_firstn, length_skipn. lia.
  - rewrite nth_firstn.
    replace (i <? 10)%nat with true by (symmetry; apply Nat.ltb_lt; exact Hi).
    apply nth_skipn.
Qed.

End FilterClaims.

(* ================================================================== *)
(** ** The detail route and its identifier *)

Section DetailClaims.

Import Biens Spec.

(** The four answers of GET /:id: the handler always responds. *)
Lemma get_bien_status (c : conn) (bienId : string) :
  In (status (fst (get_bien c bienId))) [200; 400; 404; 500].
Proof.
  unfold get_bien.
  destruct (JS.isNaN (JS.parseInt bienId)
            || negb (JS.isInteger (JS.parseInt bienId))
            || JS.le (JS.parseInt bienId) (JS.of_Z 0)).
  - cbn. auto.
  - unfold query. rewrite exec_detail; cbn [tables sent].
    destruct (Sql.join_owners _ _ _) as [|row rows].
    + cbn. auto.
    + rewrite exec_photos. cbn. auto.
Qed.

(** An identifier that [parseInt] does not read as a positive number is
    answered 400, and nothing is sent to the database. *)
Lemma get_bien_invalid (c : conn) (bienId : string) :
  JS.isNaN (JS.parseInt bienId) || JS.le (JS.parseInt bienId) (JS.of_Z 0) = true ->
  get_bien c bienId
  = (respond 400
       (Erreur "ID invalide" "L'ID du bien doit être un nombre entier positif"),
     c).
Proof.
  intros H. unfold get_bien.
  destruct (JS.isNaN (JS.parseInt bienId)); [reflexivity|].
  cbn [orb] in H |- *. rewrite H. now rewrite orb_true_r.
Qed.

(** An identifier that is read as a positive integer and matches no
    published row is answered 404. *)
Lemma get_bien_not_found (c : conn) (bienId : string) (n : Z) :
  JS.parseInt bienId = JS.of_Z n -> 0 < n ->
  (forall b, In b (Db.biens (tables c)) ->
             Db.id b = n -> Db.statut_publication b <> "publie") ->
  fst (get_bien c bienId)
  = respond 404
      (Erreur "Bien non trouvé"
              "Le bien demandé n'existe pas ou n'est pas publié").
Proof.
  intros Hn Hpos Hnone. unfold get_bien. rewrite Hn.
  assert (Hv : JS.isNaN (JS.of_Z n) || negb (JS.isInteger (JS.of_Z n))
               || JS.le (JS.of_Z n) (JS.of_Z 0) = false).
  { unfold JS.isNaN, JS.isInteger, JS.le, JS.ge, JS.of_Z. cbn [orb].
    rewrite Qfloor_Z, (proj2 (Qeq_bool_iff _ _) (Qeq_refl _)). cbn [negb orb].
    destruct (Qle_bool (inject_Z n) (inject_Z 0)) eqn:E; [|reflexivity].
    apply Qle_bool_iff in E. unfold Qle in E. cbn in E. lia. }
  rewrite Hv. unfold query. rewrite exec_detail; cbn [tables sent].
  replace (filter _ (Db.biens (tables c))) with (@nil Db.bien); [reflexivity|].
  symmetry. induction (Db.biens (tables c)) as [|b l IH]; [reflexivity|].
  cbn [filter].
  assert (Hb : Sql.id_eq (Db.id b) (Sql.PNum (JS.of_Z n))
               && (Db.statut_publication b =? "publie")%string = false).
  { destruct (Sql.id_eq (Db.id b) (Sql.PNum (JS.of_Z n))) eqn:E; [|reflexivity].
    cbn [andb]. apply String.eqb_neq. apply (Hnone b (or_introl eq_refl)).
    unfold Sql.id_eq, Sql.num_eq, JS.of_Z in E.
    apply Qeq_bool_iff in E. unfold Qeq in E. cbn in E. lia. }
  rewrite Hb. apply IH. intros b' Hb'. apply Hnone. now right.
Qed.

(** C7, where the code departs from it: the identifier [1.5] is not a
    positive integer, and the route answers with the property 1. *)
Theorem C7_fractional_id_is_accepted :
  positive_integer_text "1.5" = false
  /\ JS.parseInt "1.5" = JS.of_Z 1
  /\ status (fst (get_bien (Sample.on Sample.agence) "1.5")) = 200
  /\ map Db.id (records (fst (get_bien (Sample.on Sample.agence) "1.5"))) = [1]
  /\ status (fst (get_bien (Sample.on Sample.agence) "2abc")) = 200
  /\ status (fst (get_bien (Sample.on Sample.agence) "7.5")) = 404.
Proof. repeat split; vm_compute; reflexivity. Qed.

End DetailClaims.

(* ================================================================== *)
(** ** Validation of a new property *)

Section CreateClaims.

Import Biens Spec Validator.

(** The errors that [bienValidation] collects are those of its chains,
    each on the field of the body it names. *)
Lemma run_bienValidation (b : body) :
  snd (Validator.run bienValidation b) = flat_map (fun ch => chain_errors ch b) bienValidation.
Proof. reflexivity. Qed.

Lemma flat_map_nil {A B : Type} (f : A -> list B) (l : list A) :
  flat_map f l = [] -> Forall (fun x => f x = []) l.
Proof.
  induction l as [|x l IH]; cbn; intros H.
  - constructor.
  - apply app_eq_nil in H. destruct H. constructor; auto.
Qed.

Lemma chain_errors_nil (ch : chain) (b : body) :
  chain_errors ch b = [] -> passes (validator ch) (sanitized ch b) = true.
Proof.
  unfold chain_errors.
  destruct (passes (validator ch) (sanitized ch b)); [reflexivity | discriminate].
Qed.

Lemma exec_insert (db : Db.database) (powner : Sql.param) (rest : list Sql.param) :
  Sql.exec db Sql.insert_sql (powner :: rest)
  = match Sql.to_integer powner, Sql.bind_champs rest with
    | Some owner, Some c =>
        Some (Sql.Done (Db.id (Sql.new_bien db owner c)),
              Sql.with_biens db (Db.biens db ++ [Sql.new_bien db owner c])%list)
    | _, _ => None
    end.
Proof.
  unfold Sql.exec.
  not_statement Sql.insert_sql Sql.detail_sql.
  not_statement Sql.insert_sql Sql.photos_sql.
  now rewrite String.eqb_refl.
Qed.

(** An error names the chain whose check failed. *)
Lemma error_names_chain (b : body) (e : validation_error) :
  In e (flat_map (fun ch => chain_errors ch b) bienValidation) ->
  exists ch,
    In ch bienValidation
    /\ param e = name (field ch)
    /\ passes (validator ch) (sanitized ch b) = false.
Proof.
  intros He. apply in_flat_map in He. destruct He as [ch [Hch He]].
  exists ch. unfold chain_errors in He.
  destruct (passes (validator ch) (sanitized ch b)); [destruct He|].
  destruct He as [<-|[]]. auto.
Qed.

(** POST / sends nothing when a check failed, and starts with the INSERT
    when none did. *)
Lemma post_handler_sent (c : conn) (user_id : Z)
      (errors : list validation_error) (b : body) :
  match errors with
  | [] =>
      exists rest,
        sent (snd (post_handler c user_id errors b))
        = (sent c
           ++ (Sql.insert_sql, Sql.PNum (JS.of_Z user_id) :: body_params b)
              :: rest)%list
  | _ :: _ =>
      post_handler c user_id errors b
      = (respond 400 (Invalide "Données invalides" errors), c)
  end.
Proof.
  destruct errors as [|e errors]; [|reflexivity].
  unfold post_handler, query.
  destruct (Sql.exec (tables c) Sql.insert_sql _) as [[r db']|]; cbn [tables sent].
  - destruct (Sql.exec db' Sql.select_by_id_sql _) as [[r' db'']|];
      cbn [snd sent]; rewrite <- app_assoc; eexists; reflexivity.
  - exists []. reflexivity.
Qed.

(** C8. A body whose [prix] or [surface] is 0 is answered 400 with the
    itemized errors, the error of that field among them, and nothing is
    sent to the database; 0.01 passes the check of both fields; and the
    INSERT is sent only when every chain of [bienValidation] passed. *)
Theorem C8_zero_rejected_and_insert_guarded (c : conn) (user_id : Z) (b : body) :
  (b Prix = Some "0" ->
   exists details,
     post_biens c user_id b = (respond 400 (Invalide "Données invalides" details), c)
     /\ In {| param := "prix";
              msg := "Le prix doit être un nombre positif supérieur à 0";
              value := "0" |} details)
  /\ (b Surface = Some "0" ->
      exists details,
        post_biens c user_id b = (respond 400 (Invalide "Données invalides" details), c)
        /\ In {| param := "surface";
                 msg := "La surface doit être un nombre positif supérieur à 0";
                 value := "0" |} details)
  /\ (b Prix = Some "0.01" ->
      forall e, In e (snd (Validator.run bienValidation b)) -> param e <> "prix")
  /\ (b Surface = Some "0.01" ->
      forall e, In e (snd (Validator.run bienValidation b)) -> param e <> "surface")
  /\ (sent (snd (post_biens c user_id b)) <> sent c ->
      Forall (fun ch => passes (validator ch) (sanitized ch b) = true) bienValidation
      /\ exists rest,
           sent (snd (post_biens c user_id b))
           = (sent c
              ++ (Sql.insert_sql,
                  Sql.PNum (JS.of_Z user_id)
                  :: body_params (fst (Validator.run bienValidation b)))
                 :: rest)%list).
Proof.
  assert (Hpost : post_biens c user_id b
                  = post_handler c user_id (snd (Validator.run bienValidation b))
                                 (fst (Validator.run bienValidation b))).
  { unfold post_biens. now destruct (Validator.run bienValidation b). }
  assert (Hrej : forall e, In e (snd (Validator.run bienValidation b)) ->
            exists details,
              post_biens c user_id b
              = (respond 400 (Invalide "Données invalides" details), c)
              /\ In e details).
  { intros e He. rewrite Hpost.
    pose proof (post_handler_sent c user_id (snd (Validator.run bienValidation b))
                  (fst (Validator.run bienValidation b))) as H.
    destruct (snd (Validator.run bienValidation b)) as [|e0 l]; [destruct He|].
    eexists. split; [exact H | exact He]. }
  split; [|split; [|split; [|split]]].
  - intros H. apply Hrej. rewrite run_bienValidation.
    apply in_flat_map.
    exists {| field := Prix; trimmed := false;
              validator := IsFloat (Some (1 # 100)%Q) None;
              message := "Le prix doit être un nombre positif supérieur à 0" |}.
    split; [cbn; tauto|].
    unfold chain_errors, sanitized; cbn [field trimmed validator message name].
    rewrite H. left. reflexivity.
  - intros H. apply Hrej. rewrite run_bienValidation.
    apply in_flat_map.
    exists {| field := Surface; trimmed := false;
              validator := IsFloat (Some (1 # 100)%Q) None;
              message := "La surface doit être un nombre positif supérieur à 0" |}.
    split; [cbn; tauto|].
    unfold chain_errors, sanitized; cbn [field trimmed validator message name].
    rewrite H. left. reflexivity.
  - intros H e He Hname. rewrite run_bienValidation in He.
    destruct (error_names_chain b e He) as [ch [Hch [Hn E]]].
    rewrite Hn in Hname. clear Hpost Hrej He Hn.
    cbn in Hch.
    repeat (destruct Hch as [<-|Hch]; [try discriminate Hname|]);
      [|destruct Hch].
    unfold sanitized in E; cbn [field trimmed validator] in E.
    rewrite H in E. discriminate E.
  - intros H e He Hname. rewrite run_bienValidation in He.
    destruct (error_names_chain b e He) as [ch [Hch [Hn E]]].
    rewrite Hn in Hname. clear Hpost Hrej He Hn.
    cbn in Hch.
    repeat (destruct Hch as [<-|Hch]; [try discriminate Hname|]);
      [|destruct Hch].
    unfold sanitized in E; cbn [field trimmed validator] in E.
    rewrite H in E. discriminate E.
  - intros Hsent. rewrite Hpost in Hsent |- *.
    pose proof (post_handler_sent c user_id (snd (Validator.run bienValidation b))
                  (fst (Validator.run bienValidation b))) as H.
    destruct (snd (Validator.run bienValidation b)) as [|e0 l] eqn:E.
    + split; [|exact H].
      rewrite run_bienValidation in E. apply flat_map_nil in E.
      eapply Forall_impl; [|exact E]. intros ch. apply chain_errors_nil.
    + rewrite H in Hsent. now contradiction Hsent.
Qed.

Lemma C8_witness :
  exists details,
    post_biens (Sample.on Sample.agence) 1 (set Prix "0" Sample.annonce)
    = (respond 400 (Invalide "Données invalides" details), Sample.on Sample.agence)
    /\ In {| param := "prix";
             msg := "Le prix doit être un nombre positif supérieur à 0";
             value := "0" |} details.
Proof.
  exact (proj1 (C8_zero_rejected_and_insert_guarded
                  (Sample.on Sample.agence) 1 (set Prix "0" Sample.annonce))
               eq_refl).
Defined.

(** The smallest price and surface are accepted: the property is
    created, with the title trimmed by its chain. *)
Example create_with_one_cent :
  status (fst (post_biens (Sample.on Sample.agence) 1 Sample.annonce)) = 201
  /\ map fst (sent (snd (post_biens (Sample.on Sample.agence) 1 Sample.annonce)))
     = [Sql.insert_sql; Sql.select_by_id_sql]
  /\ map Db.titre
         (Db.biens (tables (snd (post_biens (Sample.on Sample.agence) 1 Sample.annonce))))
     = ["Maison de ville"; "Maison de ville"; "Maison de ville"; "Belle maison"].
Proof. repeat split; vm_compute; reflexivity. Qed.

Example create_with_zero_surface :
  status (fst (post_biens (Sample.on Sample.agence) 1
                          (set Surface "0" Sample.annonce))) = 400.
Proof. vm_compute. reflexivity. Qed.

End CreateClaims.

(* ================================================================== *)
(** ** The update of a property *)

Section UpdateClaims.

Import Biens Spec Validator.

Lemma exec_update (db : Db.database) (ps : list Sql.param) :
  Sql.exec db Sql.update_sql ps
  = match Sql.bind_champs (firstn 13 ps), skipn 13 ps with
    | Some c, [pid] =>
        Some (Sql.Done 0,
              Sql.with_biens db
                (map (fun b => if Sql.id_eq (Db.id b) pid
                               then Sql.set_champs c b else b)
                     (Db.biens db)))
    | _, _ => None
    end.
Proof.
  unfold Sql.exec.
  not_statement Sql.update_sql Sql.detail_sql.
  not_statement Sql.update_sql Sql.photos_sql.
  not_statement Sql.update_sql Sql.insert_sql.
  not_statement Sql.update_sql Sql.select_by_id_sql.
  now rewrite String.eqb_refl.
Qed.

Lemma exec_select_by_id (db : Db.database) (pid : Sql.param) :
  Sql.exec db Sql.select_by_id_sql [pid]
  = Some (Sql.Biens (filter (fun b => Sql.id_eq (Db.id b) pid) (Db.biens db)), db).
Proof.
  unfold Sql.exec.
  not_statement Sql.select_by_id_sql Sql.detail_sql.
  not_statement Sql.select_by_id_sql Sql.photos_sql.
  not_statement Sql.select_by_id_sql Sql.insert_sql.
  now rewrite String.eqb_refl.
Qed.

Lemma to_text_bound (v : option string) (s : string) :
  Sql.to_text (bound v) = Some s -> v = Some s.
Proof. destruct v as [t|]; cbn; [intros H; exact H | discriminate]. Qed.

(** The values that the engine reads from the thirteen parameters are
    those of the body. *)
Lemma bind_body_params (b : body) (ch : Sql.champs) :
  Sql.bind_champs (body_params b) = Some ch -> champs_of_body b ch.
Proof.
  unfold body_params, Sql.bind_champs. cbn [map].
  destruct (Sql.to_text (bound (b Titre))) as [v1|] eqn:E1; [|discriminate].
  destruct (Sql.to_text (bound (b Description))) as [v2|] eqn:E2; [|discriminate].
  destruct (Sql.to_text (bound (b TypeBien))) as [v3|] eqn:E3; [|discriminate].
  destruct (Sql.to_text (bound (b Statut))) as [v4|] eqn:E4; [|discriminate].
  destruct (Sql.to_real (bound (b Prix))) as [v5|] eqn:E5; [|discriminate].
  destruct (Sql.to_text (bound (b ModalitePaiement))) as [v6|] eqn:E6;
    [|discriminate].
  destruct (Sql.to_real (bound (b Surface))) as [v7|] eqn:E7; [|discriminate].
  destruct (Sql.to_integer (bound (b NombrePieces))) as [v8|] eqn:E8;
    [|discriminate].
  destruct (Sql.to_text (bound (b AdresseComplete))) as [v9|] eqn:E9;
    [|discriminate].
  destruct (Sql.to_text (bound (b Ville))) as [v10|] eqn:E10; [|discriminate].
  destruct (Sql.to_text (bound (b CodePostal))) as [v11|] eqn:E11;
    [|discriminate].
  destruct (Sql.to_real (bound (b Latitude))) as [v12|] eqn:E12; [|discriminate].
  destruct (Sql.to_real (bound (b Longitude))) as [v13|] eqn:E13; [|discriminate].
  intros H. injection H as <-.
  unfold champs_of_body; cbn.
  repeat split; auto using to_text_bound.
Qed.

(** UPDATE on one row: the listed columns are replaced, the others
    kept. *)
Lemma set_champs_frame (ch : Sql.champs) (old : Db.bien) :
  has_champs ch (Sql.set_champs ch old)
  /\ same_fixed_columns old (Sql.set_champs ch old).
Proof. unfold has_champs, same_fixed_columns; cbn. repeat split. Qed.

(** UPDATE on the table: the rows with the key are replaced in place,
    the others kept. *)
Lemma update_rows_frame (ch : Sql.champs) (pid : Sql.param) (l : list Db.bien) :
  Forall2
    (fun old new =>
       if Sql.id_eq (Db.id old) pid
       then has_champs ch new /\ same_fixed_columns old new
       else new = old)
    l
    (map (fun b => if Sql.id_eq (Db.id b) pid then Sql.set_champs ch b else b) l).
Proof.
  induction l as [|old l IH]; cbn [map]; constructor; [|exact IH].
  destruct (Sql.id_eq (Db.id old) pid).
  - apply set_champs_frame.
  - reflexivity.
Qed.

(** C9. When PUT /:id answers 200, the table [biens] after it is the
    table before it, row for row: in each row whose key is the
    identifier of the request the thirteen columns listed by the UPDATE
    hold the values of the request body and the columns [id],
    [proprietaire_id], [statut_publication] and [date_publication] are
    unchanged; every other row is unchanged, and so are the other
    tables. *)
Theorem C9_update_replaces_the_mutable_fields
        (c c' : conn) (bienId : string) (errors : list validation_error)
        (b : body) (r : response) :
  put_handler c bienId errors b = (r, c') ->
  status r = 200 ->
  exists ch,
    champs_of_body b ch
    /\ Forall2
         (fun old new =>
            if Sql.id_eq (Db.id old) (Sql.PText bienId)
            then has_champs ch new /\ same_fixed_columns old new
            else new = old)
         (Db.biens (tables c)) (Db.biens (tables c'))
    /\ Db.utilisateurs (tables c') = Db.utilisateurs (tables c)
    /\ Db.photos_biens (tables c') = Db.photos_biens (tables c).
Proof.
  unfold put_handler. intros Hrun Hst.
  destruct errors as [|e errors];
    [|injection Hrun as <- <-; discriminate Hst].
  unfold query in Hrun. rewrite exec_update in Hrun.
  replace (firstn 13 (body_params b ++ [Sql.PText bienId])%list)
    with (body_params b) in Hrun by reflexivity.
  replace (skipn 13 (body_params b ++ [Sql.PText bienId])%list)
    with [Sql.PText bienId] in Hrun by reflexivity.
  destruct (Sql.bind_champs (body_params b)) as [ch|] eqn:Ech;
    [|injection Hrun as <- <-; discriminate Hst].
  cbn [tables sent] in Hrun. rewrite exec_select_by_id in Hrun.
  injection Hrun as <- <-. cbn [tables Sql.with_biens Db.biens Db.utilisateurs
                                  Db.photos_biens].
  exists ch. split; [now apply bind_body_params|].
  split; [|split; reflexivity].
  apply update_rows_frame.
Qed.

(** PUT /:id is its handler run on the body as the validation chains
    left it (the five text fields trimmed). *)
Lemma put_bien_handler (c : conn) (bienId : string) (b : body) :
  put_bien c bienId b
  = put_handler c bienId (snd (Validator.run bienValidation b))
                (fst (Validator.run bienValidation b)).
Proof. unfold put_bien. now destruct (Validator.run bienValidation b). Qed.

Lemma C9_witness :
  map (fun x => (Db.id x, Db.titre x, Db.statut_publication x))
      (Db.biens (tables (snd (put_bien (Sample.on Sample.agence) "2" Sample.annonce))))
  = [(1, "Maison de ville", "publie"); (2, "Belle maison", "publie");
     (3, "Maison de ville", "brouillon")]
  /\ exists ch,
       champs_of_body (fst (Validator.run bienValidation Sample.annonce)) ch
       /\ Forall2
            (fun old new =>
               if Sql.id_eq (Db.id old) (Sql.PText "2")
               then has_champs ch new /\ same_fixed_columns old new
               else new = old)
            (Db.biens Sample.agence)
            (Db.biens (tables (snd (put_bien (Sample.on Sample.agence) "2"
                                             Sample.annonce)))).
Proof.
  split; [vm_compute; reflexivity|].
  destruct (C9_update_replaces_the_mutable_fields
              (Sample.on Sample.agence)
              (snd (put_bien (Sample.on Sample.agence) "2" Sample.annonce))
              "2" [] (fst (Validator.run bienValidation Sample.annonce))
              (fst (put_bien (Sample.on Sample.agence) "2" Sample.annonce)))
    as [ch [H1 [H2 _]]].
  - vm_compute. reflexivity.
  - vm_compute. reflexivity.
  - exists ch. split; [exact H1 | exact H2].
Defined.

End UpdateClaims.

(* ================================================================== *)
(** ** More on the detail route *)

Section DetailRoute.

Import Biens Spec Invariants.

Lemma parseInt_shape (s : string) :
  JS.parseInt s = JS.NaN \/ exists z, JS.parseInt s = JS.of_Z z.
Proof.
  unfold JS.parseInt.
  destruct (JS.split_sign (JS.trim_start s)) as [neg body].
  assert (Hd : match JS.span_digits body with
               | (EmptyString, _) => JS.NaN
               | (d, _) => JS.of_Z (JS.signed neg (JS.digits_value d))
               end = JS.NaN
               \/ exists z, match JS.span_digits body with
                            | (EmptyString, _) => JS.NaN
                            | (d, _) => JS.of_Z (JS.signed neg (JS.digits_value d))
                            end = JS.of_Z z).
  { destruct (JS.span_digits body) as [[|c d] r];
      [left|right; eexists]; reflexivity. }
  assert (Hh : forall h,
             match JS.hex_value_from None h with
             | Some v => JS.of_Z (JS.signed neg v)
             | None => JS.NaN
             end = JS.NaN
             \/ exists z, match JS.hex_value_from None h with
                          | Some v => JS.of_Z (JS.signed neg v)
                          | None => JS.NaN
                          end = JS.of_Z z).
  { intros h. destruct (JS.hex_value_from None h);
      [right; eexists|left]; reflexivity. }
  destruct body as [|a body']; [exact Hd|].
  destruct a as [[] [] [] [] [] [] [] []]; try exact Hd;
    destruct body' as [|b h]; try exact Hd;
    destruct b as [[] [] [] [] [] [] [] []]; try exact Hd; apply Hh.
Qed.

Lemma Qeq_bool_inject (a b : Z) :
  Qeq_bool (inject_Z a) (inject_Z b) = (a =? b).
Proof.
  destruct (a =? b) eqn:E.
  - apply Z.eqb_eq in E. subst. apply Qeq_bool_iff. reflexivity.
  - apply Z.eqb_neq in E.
    destruct (Qeq_bool (inject_Z a) (inject_Z b)) eqn:F; [|reflexivity].
    apply Qeq_bool_iff in F. unfold Qeq in F. cbn in F. lia.
Qed.

Lemma id_eq_of_Z (col n : Z) :
  Sql.id_eq col (Sql.PNum (JS.of_Z n)) = (col =? n).
Proof. unfold Sql.id_eq, Sql.num_eq, JS.of_Z. apply Qeq_bool_inject. Qed.

(** The test of the identifier on a number that [parseInt] gave. *)
Lemma id_test_of_Z (n : Z) :
  JS.isNaN (JS.of_Z n) || negb (JS.isInteger (JS.of_Z n))
  || JS.le (JS.of_Z n) (JS.of_Z 0)
  = (n <=? 0).
Proof.
  unfold JS.isNaN, JS.isInteger, JS.le, JS.ge, JS.of_Z. cbn [orb].
  rewrite Qfloor_Z, (proj2 (Qeq_bool_iff _ _) (Qeq_refl _)). cbn [negb orb].
  unfold Qle_bool, inject_Z; cbn [Qnum Qden Z.mul Pos.mul].
  now rewrite !Z.mul_1_r.
Qed.

(** What GET /:id does with an identifier that [parseInt] reads as [n]. *)
Lemma get_bien_run (c : conn) (bienId : string) (n : Z) :
  JS.parseInt bienId = JS.of_Z n ->
  get_bien c bienId
  = if n <=? 0 then
      (respond 400
         (Erreur "ID invalide" "L'ID du bien doit être un nombre entier positif"),
       c)
    else
      match fiches (tables c) n with
      | [] =>
          (respond 404
             (Erreur "Bien non trouvé"
                     "Le bien demandé n'existe pas ou n'est pas publié"),
           {| tables := tables c;
              sent := (sent c ++ [(Sql.detail_sql,
                                   [Sql.PNum (JS.of_Z n); Sql.PText "publie"])])%list |})
      | bien :: _ =>
          (respond 200
             (Fiche bien (Sql.Photos (map Sql.photo_row_of (photos_of (tables c) n)))),
           {| tables := tables c;
              sent := (sent c ++ [(Sql.detail_sql,
                                   [Sql.PNum (JS.of_Z n); Sql.PText "publie"]);
                                  (Sql.photos_sql, [Sql.PNum (JS.of_Z n)])])%list |})
      end.
Proof.
  intros Hn. unfold get_bien. rewrite Hn, id_test_of_Z.
  destruct (n <=? 0); [reflexivity|].
  unfold query. rewrite exec_detail; cbn [tables sent].
  replace (filter _ (Db.biens (tables c)))
    with (filter (fun b => has_key n b && published b) (Db.biens (tables c)))
    by (apply filter_ext; intros b; unfold has_key, published;
        now rewrite id_eq_of_Z).
  fold (fiches (tables c) n).
  destruct (fiches (tables c) n) as [|bien rows]; [reflexivity|].
  rewrite exec_photos; cbn [tables sent].
  replace (filter _ (Db.photos_biens (tables c)))
    with (filter (fun p => Db.bien_id p =? n) (Db.photos_biens (tables c)))
    by (apply filter_ext; intros p; now rewrite id_eq_of_Z).
  rewrite <- app_assoc. reflexivity.
Qed.

End DetailRoute.

(* ================================================================== *)
(** ** ORDER BY *)

Section OrderBy.

Context {A : Type} (before : A -> A -> bool).

Lemma insert_by_perm (x : A) (l : list A) :
  Permutation (Sql.insert_by before x l) (x :: l).
Proof.
  induction l as [|y l IH]; cbn [Sql.insert_by].
  - apply Permutation_refl.
  - destruct (before y x).
    + eapply perm_trans; [apply perm_skip, IH | apply perm_swap].
    + apply Permutation_refl.
Qed.

(** ORDER BY returns the rows it was given, each once. *)
Lemma order_by_perm (l : list A) : Permutation (Sql.order_by before l) l.
Proof.
  induction l as [|x l IH]; cbn.
  - constructor.
  - eapply perm_trans; [apply insert_by_perm | now apply perm_skip].
Qed.

Hypothesis before_asym : forall x y, before x y = true -> before y x = false.

Lemma insert_by_hd (x y : A) (l : list A) :
  before x y = false ->
  HdRel (fun a b => before b a = false) y l ->
  HdRel (fun a b => before b a = false) y (Sql.insert_by before x l).
Proof.
  intros Hxy Hl. destruct l as [|z l]; cbn [Sql.insert_by].
  - constructor. exact Hxy.
  - destruct (before z x); constructor.
    + now inversion Hl.
    + exact Hxy.
Qed.

Lemma insert_by_sorted (x : A) (l : list A) :
  Sorted (fun a b => before b a = false) l ->
  Sorted (fun a b => before b a = false) (Sql.insert_by before x l).
Proof.
  induction l as [|y l IH]; cbn [Sql.insert_by]; intros Hs.
  - repeat constructor.
  - destruct (before y x) eqn:E.
    + inversion Hs as [|? ? Hs' Hhd]; subst.
      constructor; [now apply IH|].
      apply insert_by_hd; [now apply before_asym | exact Hhd].
    + constructor; [exact Hs | constructor; exact E].
Qed.

(** ORDER BY returns its rows in order. *)
Lemma order_by_sorted (l : list A) :
  Sorted (fun a b => before b a = false) (Sql.order_by before l).
Proof.
  induction l as [|x l IH]; cbn.
  - constructor.
  - now apply insert_by_sorted.
Qed.

End OrderBy.

Section Windows.

Context {A : Type} (R : A -> A -> Prop).

Lemma Sorted_skipn (n : nat) (l : list A) : Sorted R l -> Sorted R (skipn n l).
Proof.
  revert l. induction n as [|n IH]; intros l Hs; [exact Hs|].
  destruct l as [|x l]; [constructor|].
  cbn. apply IH. now inversion Hs.
Qed.

Lemma Sorted_firstn (n : nat) (l : list A) : Sorted R l -> Sorted R (firstn n l).
Proof.
  revert l. induction n as [|n IH]; intros l Hs; [constructor|].
  destruct l as [|x l]; [constructor|].
  cbn. inversion Hs as [|? ? Hs' Hhd]; subst.
  constructor; [now apply IH|].
  destruct l as [|y l]; destruct n; cbn; constructor.
  now inversion Hhd.
Qed.

(** LIMIT and OFFSET keep the order of the rows. *)
Lemma Sorted_limit_offset (n m : Z) (l : list A) :
  Sorted R l -> Sorted R (Sql.limit_offset n m l).
Proof.
  intros Hs. unfold Sql.limit_offset.
  destruct (n <? 0); [|apply Sorted_firstn]; now apply Sorted_skipn.
Qed.

End Windows.

Section Orders.

Lemma ltb_asym (s t : string) : String.ltb s t = true -> String.ltb t s = false.
Proof.
  unfold String.ltb. rewrite (String.compare_antisym s t).
  destruct (String.compare t s); cbn; congruence.
Qed.

Lemma newer_asym (x y : Sql.listing_row) :
  Sql.newer x y = true -> Sql.newer y x = false.
Proof. unfold Sql.newer. apply ltb_asym. Qed.

Lemma plus_recent_asym (x y : Vendeur.mes_bien_row) :
  Vendeur.plus_recent x y = true -> Vendeur.plus_recent y x = false.
Proof. unfold Vendeur.plus_recent. apply ltb_asym. Qed.

Lemma photo_before_asym (x y : Db.photo) :
  Sql.photo_before x y = true -> Sql.photo_before y x = false.
Proof.
  unfold Sql.photo_before.
  rewrite orb_true_iff, orb_false_iff, !andb_true_iff, !andb_false_iff.
  rewrite !Z.ltb_lt, !Z.ltb_ge, !Z.eqb_eq, !Z.eqb_neq. lia.
Qed.

End Orders.

(* ================================================================== *)
(** ** The answers of the detail route *)

Section DetailAnswers.

Import Biens Spec Invariants.

(** X1. An identifier that [parseInt] does not read, or reads as zero
    or as a negative number, is answered 400, and no statement is sent
    to the database. *)
Theorem detail_rejects_unreadable_id (c : conn) (bienId : string) :
  JS.parseInt bienId = JS.NaN
  \/ (exists n, JS.parseInt bienId = JS.of_Z n /\ n <= 0) ->
  get_bien c bienId
  = (respond 400
       (Erreur "ID invalide" "L'ID du bien doit être un nombre entier positif"),
     c).
Proof.
  intros [H|[n [H Hn]]].
  - apply get_bien_invalid. now rewrite H.
  - rewrite (get_bien_run c bienId n H).
    now replace (n <=? 0) with true by (symmetry; apply Z.leb_le; exact Hn).
Qed.

Lemma detail_rejects_unreadable_id_witness :
  status (fst (get_bien (Sample.on Sample.agence) "abc")) = 400
  /\ status (fst (get_bien (Sample.on Sample.agence) "-3")) = 400.
Proof.
  split.
  - rewrite (detail_rejects_unreadable_id (Sample.on Sample.agence) "abc");
      [reflexivity | left; reflexivity].
  - rewrite (detail_rejects_unreadable_id (Sample.on Sample.agence) "-3");
      [reflexivity | right; exists (-3); split; [reflexivity | lia]].
Defined.

Lemma fiches_nil (db : Db.database) (n : Z) :
  fiches db n = [] <->
  (forall b, In b (Db.biens db) -> Db.id b = n ->
             Db.statut_publication b = "publie" -> Sql.owners db b = []).
Proof.
  unfold fiches, Sql.join_owners. split.
  - intros H b Hb Hid Hpub.
    destruct (Sql.owners db b) as [|u us] eqn:E; [reflexivity|].
    assert (Hin : In (Sql.detail_of b u)
                     (flat_map (fun b => map (Sql.detail_of b) (Sql.owners db b))
                        (filter (fun b => has_key n b && published b) (Db.biens db)))).
    { apply in_flat_map. exists b. split.
      - apply filter_In. split; [exact Hb|].
        unfold has_key, published. rewrite Hid, Z.eqb_refl, Hpub. reflexivity.
      - rewrite E. left. reflexivity. }
    rewrite H in Hin. destruct Hin.
  - intros H.
    induction (Db.biens db) as [|b l IH]; [reflexivity|].
    cbn [filter].
    destruct (has_key n b && published b) eqn:E.
    + apply andb_true_iff in E. destruct E as [E1 E2].
      cbn [flat_map]. rewrite (H b (or_introl eq_refl)).
      * cbn. apply IH. intros b' Hb'. apply H. now right.
      * now apply Z.eqb_eq in E1.
      * now apply String.eqb_eq in E2.
    + apply IH. intros b' Hb'. apply H. now right.
Qed.

(** X2. For an identifier read as a positive number the route answers
    404 exactly when no published row with that key has an owner row;
    it has then sent the one statement that looks the property up, and
    not the one that reads the photos. *)
Theorem detail_answers_404 (c : conn) (bienId : string) (n : Z) :
  JS.parseInt bienId = JS.of_Z n ->
  0 < n ->
  (status (fst (get_bien c bienId)) = 404 <->
   (forall b, In b (Db.biens (tables c)) -> Db.id b = n ->
              Db.statut_publication b = "publie" ->
              Sql.owners (tables c) b = []))
  /\ (status (fst (get_bien c bienId)) = 404 ->
      map fst (sent (snd (get_bien c bienId)))
      = (map fst (sent c) ++ [Sql.detail_sql])%list).
Proof.
  intros Hn Hpos. rewrite (get_bien_run c bienId n Hn).
  replace (n <=? 0) with false by (symmetry; apply Z.leb_gt; exact Hpos).
  rewrite <- fiches_nil.
  destruct (fiches (tables c) n) as [|bien rows]; cbn [fst snd status respond sent].
  - split; [tauto|]. intros _. now rewrite map_app.
  - split; [split; discriminate | discriminate].
Qed.

Lemma detail_answers_404_witness :
  status (fst (get_bien (Sample.on Sample.agence) "3")) = 404
  /\ status (fst (get_bien (Sample.on Sample.orpheline) "4")) = 404.
Proof.
  split.
  - apply (proj1 (detail_answers_404 (Sample.on Sample.agence) "3" 3
                    eq_refl eq_refl)).
    intros b [<-|[<-|[<-|[]]]]; cbn; intros; try discriminate; reflexivity.
  - apply (proj1 (detail_answers_404 (Sample.on Sample.orpheline) "4" 4
                    eq_refl eq_refl)).
    intros b [<-|[<-|[<-|[<-|[]]]]]; cbn; intros; try discriminate; reflexivity.
Defined.

(** The success of GET /:id, read back. *)
Lemma get_bien_fiche (c c' : conn) (bienId : string)
      (bien : Sql.detail_row) (photos : Sql.result) :
  get_bien c bienId = (respond 200 (Fiche bien photos), c') ->
  exists n rows,
    JS.parseInt bienId = JS.of_Z n /\ 0 < n
    /\ fiches (tables c) n = bien :: rows
    /\ photos = Sql.Photos (map Sql.photo_row_of (photos_of (tables c) n))
    /\ tables c' = tables c.
Proof.
  intros H. destruct (parseInt_shape bienId) as [Hs|[n Hs]].
  - rewrite get_bien_invalid in H by (now rewrite Hs). discriminate H.
  - rewrite (get_bien_run c bienId n Hs) in H.
    destruct (n <=? 0) eqn:E; [discriminate H|].
    apply Z.leb_gt in E.
    destruct (fiches (tables c) n) as [|row rows] eqn:F; [discriminate H|].
    injection H as <- <- <-. exists n, rows. auto.
Qed.

(** A row of the detail query is a published row with the key, joined
    with a row of its owner. *)
Lemma fiches_In (db : Db.database) (n : Z) (bien : Sql.detail_row) :
  In bien (fiches db n) ->
  exists u,
    In (Sql.d_bien bien) (Db.biens db)
    /\ Db.id (Sql.d_bien bien) = n
    /\ Db.statut_publication (Sql.d_bien bien) = "publie"
    /\ In u (Db.utilisateurs db)
    /\ Db.u_id u = Db.proprietaire_id (Sql.d_bien bien)
    /\ bien = Sql.detail_of (Sql.d_bien bien) u.
Proof.
  intros Hin.
  apply In_join_owners in Hin. destruct Hin as [b [u [Hb [Hu Hrow]]]].
  apply filter_In in Hb. destruct Hb as [Hb Hk].
  apply andb_true_iff in Hk. destruct Hk as [Hk Hp].
  apply filter_In in Hu. destruct Hu as [Hu Hid].
  exists u. subst bien. cbn [Sql.d_bien Sql.detail_of].
  repeat split; auto.
  - now apply Z.eqb_eq in Hk.
  - now apply String.eqb_eq in Hp.
  - apply Z.eqb_eq in Hid. now symmetry.
Qed.

(** X3. When GET /:id answers with a property, it is a published row
    of [biens] whose key is the number read from the identifier, and
    the owner fields of the answer are those of a row of
    [utilisateurs] with the key [proprietaire_id]. *)
Theorem detail_returns_the_requested_record
        (c c' : conn) (bienId : string) (bien : Sql.detail_row)
        (photos : Sql.result) :
  get_bien c bienId = (respond 200 (Fiche bien photos), c') ->
  exists n u,
    JS.parseInt bienId = JS.of_Z n /\ 0 < n
    /\ In (Sql.d_bien bien) (Db.biens (tables c))
    /\ Db.id (Sql.d_bien bien) = n
    /\ Db.statut_publication (Sql.d_bien bien) = "publie"
    /\ In u (Db.utilisateurs (tables c))
    /\ Db.u_id u = Db.proprietaire_id (Sql.d_bien bien)
    /\ bien = Sql.detail_of (Sql.d_bien bien) u.
Proof.
  intros H. destruct (get_bien_fiche _ _ _ _ _ H) as [n [rows [Hn [Hpos [Hf _]]]]].
  assert (Hin : In bien (fiches (tables c) n)) by (rewrite Hf; now left).
  destruct (fiches_In _ _ _ Hin) as [u Hu].
  exists n, u. tauto.
Qed.

Lemma detail_returns_the_requested_record_witness :
  exists n u,
    JS.parseInt "2" = JS.of_Z n /\ 0 < n
    /\ Db.id (Sample.maison 2 1 "Lyon" 200 "publie" "2024-02-01") = n
    /\ Db.u_id u = 1.
Proof.
  destruct (detail_returns_the_requested_record
              (Sample.on Sample.agence)
              (snd (get_bien (Sample.on Sample.agence) "2")) "2"
              (Sql.detail_of (Sample.maison 2 1 "Lyon" 200 "publie" "2024-02-01")
                             Sample.ana)
              (Sql.Photos []) eq_refl)
    as [n [u [H1 [H2 [_ [H4 [_ [_ [H7 _]]]]]]]]].
  exists n, u. auto.
Defined.

(** X4. The photos that GET /:id answers with are the rows of
    [photos_biens] of the property, each once, the main photos first
    and then by increasing key. *)
Theorem detail_photos_are_those_of_the_property
        (c c' : conn) (bienId : string) (bien : Sql.detail_row)
        (photos : Sql.result) :
  get_bien c bienId = (respond 200 (Fiche bien photos), c') ->
  exists ps,
    photos = Sql.Photos (map Sql.photo_row_of ps)
    /\ Permutation ps
         (filter (fun p => Db.bien_id p =? Db.id (Sql.d_bien bien))
                 (Db.photos_biens (tables c)))
    /\ in_order Sql.photo_before ps.
Proof.
  intros H.
  destruct (get_bien_fiche _ _ _ _ _ H) as [n [rows [_ [_ [Hf [Hph _]]]]]].
  assert (Hin : In bien (fiches (tables c) n)) by (rewrite Hf; now left).
  destruct (fiches_In _ _ _ Hin) as [u [_ [Hid _]]]. rewrite Hid.
  exists (photos_of (tables c) n). split; [exact Hph|]. split.
  - apply order_by_perm.
  - apply order_by_sorted. apply photo_before_asym.
Qed.

Lemma detail_photos_are_those_of_the_property_witness :
  map Sql.r_id (map Sql.photo_row_of (photos_of Fixtures.galerie 1))
  = [11; 10; 13]
  /\ exists ps,
       Permutation ps
         (filter (fun p => Db.bien_id p =? 1) (Db.photos_biens Fixtures.galerie))
       /\ in_order Sql.photo_before ps.
Proof.
  split; [reflexivity|].
  destruct (detail_photos_are_those_of_the_property
              (Sample.on Fixtures.galerie)
              (snd (get_bien (Sample.on Fixtures.galerie) "1")) "1"
              (Sql.detail_of (Sample.maison 1 1 "Paris" 100 "publie" "2024-01-01")
                             Sample.ana)
              (Sql.Photos (map Sql.photo_row_of (photos_of Fixtures.galerie 1)))
              eq_refl)
    as [ps [_ [H2 H3]]].
  exists ps. auto.
Defined.

End DetailAnswers.

(* ================================================================== *)
(** ** More on the list route *)

Section ListAnswers.

Import Biens Spec Invariants.

Lemma listings_get_biens (c : conn) (q : Query) :
  listings (fst (get_biens c q))
  = match Sql.integer_param (Sql.PNum (parsed_limit q)),
          Sql.integer_param (Sql.PNum (offset q)) with
    | Some n, Some m => Sql.limit_offset n m (ordered (tables c) q)
    | _, _ => []
    end.
Proof.
  rewrite get_biens_run; cbn [fst].
  destruct (Sql.integer_param (Sql.PNum (parsed_limit q))) as [n|];
    [|reflexivity].
  destruct (Sql.integer_param (Sql.PNum (offset q))) as [m|]; reflexivity.
Qed.

(** X5. The public routes only read: whatever the request, the tables
    after GET / and after GET /:id are the tables before. *)
Theorem public_routes_leave_the_tables_unchanged
        (c : conn) (q : Query) (bienId : string) :
  tables (snd (get_biens c q)) = tables c
  /\ tables (snd (get_bien c bienId)) = tables c.
Proof.
  split.
  - now rewrite get_biens_run.
  - destruct (parseInt_shape bienId) as [Hs|[n Hs]].
    + rewrite get_bien_invalid by (now rewrite Hs). reflexivity.
    + rewrite (get_bien_run c bienId n Hs).
      destruct (n <=? 0); [reflexivity|].
      destruct (fiches (tables c) n); reflexivity.
Qed.

(** X6. The rows of a list answer are ordered by publication date,
    the most recent first: no row is followed by a row with a later
    date. *)
Theorem list_is_newest_first (c : conn) (q : Query) :
  in_order Sql.newer (listings (fst (get_biens c q)))
  /\ Sorted (fun x y =>
               String.ltb (Db.date_publication (Sql.l_bien x))
                          (Db.date_publication (Sql.l_bien y)) = false)
            (listings (fst (get_biens c q))).
Proof.
  assert (H : in_order Sql.newer (listings (fst (get_biens c q)))).
  { rewrite listings_get_biens. unfold in_order.
    destruct (Sql.integer_param (Sql.PNum (parsed_limit q))) as [n|];
      [|constructor].
    destruct (Sql.integer_param (Sql.PNum (offset q))) as [m|]; [|constructor].
    apply Sorted_limit_offset. unfold ordered.
    apply order_by_sorted. apply newer_asym. }
  split; exact H.
Qed.

Lemma length_limit_offset {A : Type} (n m : Z) (l : list A) :
  0 <= n -> (List.length (Sql.limit_offset n m l) <= Z.to_nat n)%nat.
Proof.
  intros Hn. unfold Sql.limit_offset.
  replace (n <? 0) with false by (symmetry; apply Z.ltb_ge; exact Hn).
  rewrite length_firstn. apply Nat.le_min_l.
Qed.

(** X7. When [page] and [limit] are read as the integers [p] and [l]
    with [l] not negative, and [p], [l] and the offset [(p - 1) * l]
    are safe integers, the answer is 200, it holds at most [l] rows,
    and none when the offset is at or past the end of the filtered
    rows; the total it reports does not depend on the page. *)
Theorem list_page_is_bounded (c : conn) (q : Query) (p l : Z) :
  parsed_page q = JS.of_Z p ->
  parsed_limit q = JS.of_Z l ->
  0 <= l ->
  safe_integer p ->
  safe_integer l ->
  safe_integer ((p - 1) * l) ->
  status (fst (get_biens c q)) = 200
  /\ (List.length (listings (fst (get_biens c q))) <= Z.to_nat l)%nat
  /\ (Z.of_nat (List.length (ordered (tables c) q)) <= (p - 1) * l ->
      listings (fst (get_biens c q)) = [])
  /\ exists pg,
       json (fst (get_biens c q))
       = Liste (Sql.Listings (listings (fst (get_biens c q))))
               (JS.of_Z (Z.of_nat (List.length (selected (tables c) q)))) pg q.
Proof.
  intros Hp Hl Hpos _ Hsl Hso.
  assert (Ho : offset q = JS.of_Z ((p - 1) * l))
    by (unfold offset; rewrite Hp, Hl; apply offset_of_Z).
  rewrite listings_get_biens, get_biens_run; cbn [fst].
  rewrite Hl, Ho, !integer_param_of_Z by (now apply safe_in_int64).
  cbn [status respond json].
  split; [reflexivity|]. split; [now apply length_limit_offset|]. split.
  - intros Hend. unfold Sql.limit_offset.
    rewrite skipn_all2 by lia.
    destruct (l <? 0); [reflexivity | apply firstn_nil].
  - eexists. reflexivity.
Qed.

Lemma list_page_is_bounded_witness :
  status (fst (get_biens (Sample.on Sample.agence) (Sample.paged "3" "1"))) = 200
  /\ listings (fst (get_biens (Sample.on Sample.agence) (Sample.paged "3" "1"))) = [].
Proof.
  destruct (list_page_is_bounded (Sample.on Sample.agence) (Sample.paged "3" "1")
                                 3 1 eq_refl eq_refl ltac:(lia)
                                 ltac:(unfold safe_integer; lia)
                                 ltac:(unfold safe_integer; lia)
                                 ltac:(unfold safe_integer; lia))
    as [H1 [_ [H3 _]]].
  split; [exact H1 | apply H3; vm_compute; discriminate].
Defined.

Lemma forallb_incl {A : Type} (f : A -> bool) (l l' : list A) :
  incl l' l -> forallb f l = true -> forallb f l' = true.
Proof.
  intros Hi H. apply forallb_forall. intros x Hx.
  rewrite forallb_forall in H. apply H, Hi, Hx.
Qed.

Lemma row_matches_without (q : Query) (k : filtre) (b : Db.bien) :
  row_matches q b = true -> row_matches (without k q) b = true.
Proof.
  unfold row_matches. rewrite !andb_true_iff. intros [Hp Hf].
  split; [exact Hp|].
  apply forallb_forall. intros k' Hk'.
  apply filter_In in Hk'. destruct Hk' as [Hin Hk'].
  assert (Hv : valeur (without k q) k' = valeur q k').
  { destruct k, k'; try reflexivity; discriminate Hk'. }
  rewrite Hv. rewrite forallb_forall in Hf. apply Hf.
  apply filter_In. split; [exact Hin|].
  unfold present in *. now rewrite <- Hv.
Qed.

(** X8. A filter can only narrow the result: the rows that a request
    selects are among those that the same request without one of its
    filters selects, and the total that the count query reports is not
    larger. *)
Theorem a_filter_only_narrows (db : Db.database) (q : Query) (k : filtre) :
  incl (selected db q) (selected db (without k q))
  /\ exists n m,
       Sql.exec db (countQuery q) (queryParams q)
       = Some (Sql.Totals [JS.of_Z (Z.of_nat n)], db)
       /\ Sql.exec db (countQuery (without k q)) (queryParams (without k q))
          = Some (Sql.Totals [JS.of_Z (Z.of_nat m)], db)
       /\ (n <= m)%nat.
Proof.
  split.
  - intros b Hb. unfold selected in *. apply filter_In in Hb.
    apply filter_In. split; [tauto|]. now apply row_matches_without.
  - exists (List.length (selected db q)),
           (List.length (selected db (without k q))).
    rewrite !exec_countQuery. split; [reflexivity|]. split; [reflexivity|].
    unfold selected.
    induction (Db.biens db) as [|b l IH]; cbn [filter]; [lia|].
    destruct (row_matches q b) eqn:E.
    + rewrite (row_matches_without q k b E). cbn [List.length]. lia.
    + destruct (row_matches (without k q) b); cbn [List.length]; lia.
Qed.

(** X9. When [prix_min] is read as a number larger than the number
    read from [prix_max], no row passes the WHERE clause: the total is
    0 and the answer has no row. *)
Theorem crossed_price_bounds_select_nothing
        (c : conn) (q : Query) (lo hi : string) (a b : Q) :
  prix_min q = Some lo -> prix_max q = Some hi ->
  JS.parseFloat lo = JS.Num a -> JS.parseFloat hi = JS.Num b ->
  (b < a)%Q ->
  selected (tables c) q = []
  /\ Sql.exec (tables c) (countQuery q) (queryParams q)
     = Some (Sql.Totals [JS.of_Z 0], tables c)
  /\ listings (fst (get_biens c q)) = [].
Proof.
  intros Hlo Hhi Ha Hb Hlt.
  assert (Hlo' : lo <> EmptyString) by (intros ->; discriminate Ha).
  assert (Hhi' : hi <> EmptyString) by (intros ->; discriminate Hb).
  assert (Hs : selected (tables c) q = []).
  { unfold selected.
    induction (Db.biens (tables c)) as [|r l IH]; [reflexivity|].
    cbn [filter].
    destruct (row_matches q r) eqn:E; [|exact IH].
    exfalso. unfold row_matches in E. apply andb_true_iff in E.
    destruct E as [_ E]. rewrite forallb_forall in E.
    assert (H1 := E FPrixMin). assert (H2 := E FPrixMax).
    unfold presents, present in H1, H2. rewrite filter_In in H1, H2.
    cbn [valeur holds] in H1, H2. rewrite Hlo in H1. rewrite Hhi in H2.
    cbn [JS.to_string] in H1, H2. rewrite Ha in H1. rewrite Hb in H2.
    assert (T1 : JS.truthy (Some lo) = true) by (destruct lo; [contradiction|reflexivity]).
    assert (T2 : JS.truthy (Some hi) = true) by (destruct hi; [contradiction|reflexivity]).
    assert (I1 : In FPrixMin tous) by (unfold tous; cbn; tauto).
    assert (I2 : In FPrixMax tous) by (unfold tous; cbn; tauto).
    specialize (H1 (conj I1 T1)). specialize (H2 (conj I2 T2)).
    unfold JS.le, JS.ge in H1, H2.
    apply Qle_bool_iff in H1. apply Qle_bool_iff in H2.
    apply (Qlt_irrefl a). eapply Qle_lt_trans; [exact H1|].
    eapply Qle_lt_trans; [exact H2 | exact Hlt]. }
  split; [exact Hs|]. split.
  - now rewrite exec_countQuery, Hs.
  - rewrite listings_get_biens. unfold ordered. rewrite Hs.
    destruct (Sql.integer_param (Sql.PNum (parsed_limit q))) as [n|];
      [|reflexivity].
    destruct (Sql.integer_param (Sql.PNum (offset q))) as [m|]; [|reflexivity].
    unfold Sql.limit_offset. cbn. rewrite skipn_nil.
    destruct (n <? 0); [reflexivity | apply firstn_nil].
Qed.

Lemma crossed_price_bounds_select_nothing_witness :
  listings (fst (get_biens (Sample.on Sample.agence) (Fixtures.priced "200" "100")))
  = [].
Proof.
  apply (crossed_price_bounds_select_nothing
           (Sample.on Sample.agence) (Fixtures.priced "200" "100")
           "200" "100" 200 100 eq_refl eq_refl eq_refl eq_refl eq_refl).
Defined.

End ListAnswers.

(* ================================================================== *)
(** ** What the validators guarantee *)

Section Literals.

Import Literal.

Lemma span_digits_spec (s : string) :
  s = fst (JS.span_digits s) ++ snd (JS.span_digits s)
  /\ all_digits (fst (JS.span_digits s)) = true.
Proof.
  induction s as [|c s [IH1 IH2]]; cbn [JS.span_digits].
  - split; reflexivity.
  - destruct (JS.is_digit c) eqn:E.
    + destruct (JS.span_digits s) as [d r]. cbn [fst snd] in *.
      cbn [append all_digits]. rewrite E, IH2. split; [now f_equal | reflexivity].
    + split; reflexivity.
Qed.

Lemma clean_app (a b : string) :
  clean (a ++ b) = clean a && clean b.
Proof.
  induction a as [|c a IH]; cbn; [reflexivity|].
  now rewrite IH, andb_assoc.
Qed.

Lemma digit_not_space (c : ascii) :
  JS.is_digit c = true -> JS.is_space c = false /\ Ascii.eqb c "," = false.
Proof.
  intros H. split.
  - revert H. unfold JS.is_digit, JS.is_space.
    rewrite andb_true_iff, orb_false_iff, andb_false_iff.
    rewrite !Nat.leb_le, !Nat.leb_gt, Nat.eqb_neq. lia.
  - apply Ascii.eqb_neq. intros ->. discriminate H.
Qed.

Lemma all_digits_clean (s : string) : all_digits s = true -> clean s = true.
Proof.
  induction s as [|c s IH]; cbn; [reflexivity|].
  rewrite andb_true_iff. intros [H1 H2].
  destruct (digit_not_space c H1) as [-> ->]. now rewrite IH.
Qed.

Lemma trim_start_clean (s : string) : clean s = true -> JS.trim_start s = s.
Proof.
  destruct s as [|c s]; cbn; [reflexivity|].
  rewrite !andb_true_iff, negb_true_iff. intros [[H _] _]. now rewrite H.
Qed.

Lemma trim_end_clean (s : string) : clean s = true -> JS.trim_end s = s.
Proof.
  induction s as [|c s IH]; cbn [clean JS.trim_end]; [reflexivity|].
  rewrite !andb_true_iff, negb_true_iff. intros [[H1 _] H2].
  rewrite (IH H2). destruct s; [now rewrite H1 | reflexivity].
Qed.

Lemma replace_comma_clean (s : string) :
  clean s = true -> Validator.replace_comma s = s.
Proof.
  induction s as [|c s IH]; cbn [clean]; [reflexivity|].
  rewrite !andb_true_iff, !negb_true_iff. intros [[_ H1] H2].
  destruct c as [[] [] [] [] [] [] [] []]; try discriminate H1;
    cbn [Validator.replace_comma]; now rewrite (IH H2).
Qed.

Lemma append_nil_r (a : string) : a ++ EmptyString = a.
Proof.
  induction a as [|x a IH]; cbn; [reflexivity | now rewrite IH].
Qed.

Lemma trim_clean (s : string) : clean s = true -> JS.trim s = s.
Proof.
  intros H. unfold JS.trim.
  now rewrite (trim_start_clean s H), (trim_end_clean s H).
Qed.

(** The text of a decimal literal, from its parts. *)
Lemma parts_text (body : string) :
  let '(ip, fp, r2) := parts body in
  all_digits ip = true /\ all_digits fp = true
  /\ (body = ip ++ r2 /\ fp = EmptyString \/ body = ip ++ String "." (fp ++ r2)).
Proof.
  unfold parts.
  destruct (span_digits_spec body) as [H1 H2].
  destruct (JS.span_digits body) as [ip r1]. cbn [fst snd] in H1, H2.
  assert (Hdef : all_digits ip = true /\ all_digits EmptyString = true
                 /\ (body = ip ++ r1 /\ EmptyString = EmptyString
                     \/ body = ip ++ String "." (EmptyString ++ r1)))
    by auto.
  destruct r1 as [|c r]; [exact Hdef|].
  destruct c as [[] [] [] [] [] [] [] []]; try exact Hdef.
  destruct (span_digits_spec r) as [H3 H4].
  destruct (JS.span_digits r) as [fp r2]. cbn [fst snd] in H3, H4.
  split; [exact H2|]. split; [exact H4|]. right. now rewrite <- H3.
Qed.

Lemma split_sign_text (s : string) :
  exists sg,
    s = sg ++ snd (JS.split_sign s) /\ clean sg = true
    /\ match s with
       | String "-" r | String "+" r => r
       | _ => s
       end = snd (JS.split_sign s).
Proof.
  unfold JS.split_sign.
  destruct s as [|c r]; [exists EmptyString; auto|].
  destruct c as [[] [] [] [] [] [] [] []];
    try (exists EmptyString; split; [reflexivity | split; reflexivity]).
  - exists "+". auto.
  - exists "-". auto.
Qed.

(** The text of an exponent part, from its parts. *)
Lemma exponent_text (r2 : string) (eneg : bool) (d rest : string) :
  exponent r2 = Some (eneg, d, rest) ->
  exists e, r2 = e ++ d ++ rest /\ clean e = true /\ all_digits d = true.
Proof.
  unfold exponent. destruct r2 as [|c r]; [discriminate|].
  assert (Hgo : (let (eneg0, r') := JS.split_sign r in
                 let (d0, rest0) := JS.span_digits r' in
                 Some (eneg0, d0, rest0)) = Some (eneg, d, rest) ->
                forall x, clean (String x EmptyString) = true ->
                exists e, String x r = e ++ d ++ rest /\ clean e = true
                          /\ all_digits d = true).
  { intros H x Hx.
    destruct (split_sign_text r) as [sg [Hr [Hsg _]]].
    destruct (JS.split_sign r) as [eneg0 r']. cbn [snd] in Hr.
    destruct (span_digits_spec r') as [H1 H2].
    destruct (JS.span_digits r') as [d0 rest0]. cbn [fst snd] in H1, H2.
    injection H as <- <- <-.
    exists (String x sg). cbn [append clean] in *.
    rewrite andb_true_r in Hx. rewrite Hx, Hsg.
    split; [|split; [reflexivity | exact H2]].
    f_equal. now rewrite Hr, H1 at 1. }
  destruct c as [[] [] [] [] [] [] [] []]; try discriminate;
    intros H; apply Hgo; [exact H | reflexivity | exact H | reflexivity].
Qed.

End Literals.

Section ValidatedNumbers.

Import Literal Validator.

Lemma exponent_part_parts (r2 : string) :
  JS.exponent_part r2
  = match exponent r2 with
    | Some (eneg, String c d, _) => JS.signed eneg (JS.digits_value (String c d))
    | _ => 0
    end.
Proof.
  unfold JS.exponent_part, exponent.
  destruct r2 as [|c r]; [reflexivity|].
  destruct c as [[] [] [] [] [] [] [] []]; try reflexivity;
    destruct (JS.split_sign r) as [eneg r'];
    destruct (JS.span_digits r') as [[|x d] rest]; reflexivity.
Qed.

Lemma parseFloat_parts (s body ip fp r2 : string) (neg : bool) :
  JS.split_sign (JS.trim_start s) = (neg, body) ->
  prefix "Infinity" body = false ->
  parts body = (ip, fp, r2) ->
  JS.parseFloat s
  = match ip, fp with
    | EmptyString, EmptyString => JS.NaN
    | _, _ =>
        JS.Num (JS.scale10 (JS.signed neg (JS.digits_value (ip ++ fp)))
                           (JS.exponent_part r2 - Z.of_nat (String.length fp)))
    end.
Proof.
  unfold JS.parseFloat, parts. intros -> -> H.
  destruct (JS.span_digits body) as [ip' r1].
  destruct (match r1 with
            | String "." r => JS.span_digits r
            | _ => (EmptyString, r1)
            end) as [fp' r2'].
  injection H as -> -> ->. reflexivity.
Qed.

Lemma text_to_number_parts (s body ip fp r2 : string) (neg : bool) :
  JS.split_sign (JS.trim s) = (neg, body) ->
  parts body = (ip, fp, r2) ->
  Sql.text_to_number s
  = match ip, fp with
    | EmptyString, EmptyString => None
    | _, _ =>
        let m := JS.signed neg (JS.digits_value (ip ++ fp)) in
        let frac := Z.of_nat (String.length fp) in
        match r2 with
        | EmptyString => Some (JS.scale10 m (- frac))
        | _ =>
            match exponent r2 with
            | Some (eneg, String c d, EmptyString) =>
                Some (JS.scale10 m
                        (JS.signed eneg (JS.digits_value (String c d)) - frac))
            | _ => None
            end
        end
    end.
Proof.
  unfold Sql.text_to_number, parts. intros -> H.
  destruct (JS.span_digits body) as [ip' r1].
  destruct (match r1 with
            | String "." r => JS.span_digits r
            | _ => (EmptyString, r1)
            end) as [fp' r2'].
  injection H as -> -> ->.
  destruct ip as [|a ip]; destruct fp as [|b fp]; try reflexivity;
    unfold exponent;
    (destruct r2 as [|c r]; [reflexivity|]);
    destruct c as [[] [] [] [] [] [] [] []]; try reflexivity;
      destruct (JS.split_sign r) as [eneg r'];
      destruct (JS.span_digits r') as [[|x dd] [|y rest]]; reflexivity.
Qed.

Lemma float_format_parts (s ip fp r2 : string) :
  parts (snd (JS.split_sign s)) = (ip, fp, r2) ->
  float_format s
  = match r2 with
    | EmptyString => true
    | _ =>
        match exponent r2 with
        | Some (_, String _ _, EmptyString) => true
        | _ => false
        end
    end.
Proof.
  unfold float_format, parts.
  destruct (split_sign_text s) as [sg [_ [_ ->]]].
  destruct (JS.span_digits (snd (JS.split_sign s))) as [ip' r1].
  assert (Hdot : match r1 with
                 | String "." r => snd (JS.span_digits r)
                 | _ => r1
                 end
                 = snd (match r1 with
                        | String "." r => JS.span_digits r
                        | _ => (EmptyString, r1)
                        end)).
  { destruct r1 as [|c r]; [reflexivity|].
    destruct c as [[] [] [] [] [] [] [] []]; reflexivity. }
  rewrite Hdot.
  destruct (match r1 with
            | String "." r => JS.span_digits r
            | _ => (EmptyString, r1)
            end) as [fp' r2'].
  intros H. injection H as -> -> ->. cbn [snd].
  unfold exponent.
  destruct r2 as [|c r]; [reflexivity|].
  destruct c as [[] [] [] [] [] [] [] []]; try reflexivity;
    destruct (split_sign_text r) as [sg' [_ [_ ->]]];
    destruct (JS.split_sign r) as [eneg r']; cbn [snd];
    destruct (JS.span_digits r') as [[|x dd] [|y rest]]; reflexivity.
Qed.

End ValidatedNumbers.

Section ValidatedValues.

Import Literal Validator.

Lemma float_format_clean (s : string) : float_format s = true -> clean s = true.
Proof.
  intros F.
  destruct (split_sign_text s) as [sg [Hs [Hsg _]]].
  pose proof (parts_text (snd (JS.split_sign s))) as Hp.
  destruct (parts (snd (JS.split_sign s))) as [[ip fp] r2] eqn:P.
  destruct Hp as [Hip [Hfp Hbody]].
  rewrite (float_format_parts s ip fp r2 P) in F.
  assert (Hr2 : clean r2 = true).
  { destruct r2 as [|c r]; [reflexivity|].
    destruct (exponent (String c r)) as [[[eneg d] rest]|] eqn:E; [|discriminate F].
    destruct (exponent_text _ _ _ _ E) as [e [-> [He Hd]]].
    destruct d as [|x d]; [discriminate F|].
    destruct rest; [|discriminate F].
    rewrite !clean_app, He, (all_digits_clean _ Hd). reflexivity. }
  rewrite Hs, clean_app, Hsg.
  destruct Hbody as [[-> _]| ->].
  - now rewrite clean_app, (all_digits_clean _ Hip), Hr2.
  - rewrite clean_app, (all_digits_clean _ Hip). cbn [clean andb].
    now rewrite clean_app, (all_digits_clean _ Hfp), Hr2.
Qed.

Lemma not_Infinity (s : string) :
  float_format s = true -> prefix "Infinity" (snd (JS.split_sign s)) = false.
Proof.
  intros F.
  destruct (prefix "Infinity" (snd (JS.split_sign s))) eqn:P; [|reflexivity].
  exfalso.
  destruct (parts (snd (JS.split_sign s))) as [[ip fp] r2] eqn:E.
  rewrite (float_format_parts s ip fp r2 E) in F.
  destruct (snd (JS.split_sign s)) as [|c r]; [discriminate P|].
  destruct c as [[] [] [] [] [] [] [] []]; try discriminate P.
  injection E as <- <- <-. discriminate F.
Qed.

(** A text that [isFloat] accepts against a lower bound is read by the
    engine as the number that the validator compared. *)
Lemma isFloat_stored (lo : Q) (hi : option Q) (s : string) :
  isFloat (Some lo) hi s = true ->
  exists q,
    Sql.text_to_number s = Some q
    /\ JS.parseFloat s = JS.Num q
    /\ (lo <= q)%Q
    /\ match hi with Some h => (q <= h)%Q | None => True end.
Proof.
  unfold isFloat.
  destruct (existsb (String.eqb s) [EmptyString; "."; ","; "-"; "+"]);
    [discriminate|].
  rewrite !andb_true_iff. intros [[F B1] B2].
  pose proof (float_format_clean s F) as Hc.
  rewrite (replace_comma_clean s Hc) in B1, B2.
  pose proof (not_Infinity s F) as Hinf.
  destruct (JS.split_sign s) as [neg body] eqn:S. cbn [snd] in Hinf.
  destruct (parts body) as [[ip fp] r2] eqn:P.
  assert (P' : parts (snd (JS.split_sign s)) = (ip, fp, r2)) by now rewrite S.
  rewrite (float_format_parts s ip fp r2 P') in F.
  assert (S1 : JS.split_sign (JS.trim_start s) = (neg, body))
    by now rewrite (trim_start_clean s Hc).
  assert (S2 : JS.split_sign (JS.trim s) = (neg, body))
    by now rewrite (trim_clean s Hc).
  rewrite (parseFloat_parts s body ip fp r2 neg S1 Hinf P) in B1, B2 |- *.
  rewrite (text_to_number_parts s body ip fp r2 neg S2 P).
  rewrite exponent_part_parts in *.
  assert (Hgo : forall q : Q,
             bound_ok JS.ge (JS.Num q) (Some lo) = true ->
             bound_ok JS.le (JS.Num q) hi = true ->
             exists q', Some q = Some q' /\ JS.Num q = JS.Num q' /\ (lo <= q')%Q
                        /\ match hi with Some h => (q' <= h)%Q | None => True end).
  { intros q H1 H2. exists q. split; [reflexivity|]. split; [reflexivity|].
    cbn in H1. apply Qle_bool_iff in H1. split; [exact H1|].
    destruct hi as [h|]; [|exact I]. cbn in H2. now apply Qle_bool_iff in H2. }
  destruct ip as [|a ip]; destruct fp as [|b fp]; try discriminate B1;
    (destruct r2 as [|c r];
     [ apply Hgo; assumption
     | destruct (exponent (String c r)) as [[[eneg [|x d]] [|y rest]]|];
       try discriminate F; apply Hgo; assumption ]).
Qed.

(** A text that [isInt] accepts is read by the engine as an integer
    that is at least the bound. *)
Lemma isInt_stored (min : Z) (s : string) :
  isInt min s = true ->
  Sql.text_to_integer s = Some (int_value s) /\ min <= int_value s.
Proof.
  unfold isInt, int_format, int_value. rewrite andb_true_iff, Z.leb_le.
  intros [F B].
  destruct (split_sign_text s) as [sg [Hs [Hsg _]]].
  destruct (span_digits_spec (snd (JS.split_sign s))) as [H1 H2].
  destruct (JS.split_sign s) as [neg body] eqn:S. cbn [snd] in *.
  destruct (JS.span_digits body) as [[|c d] [|y rest]] eqn:D; try discriminate F.
  cbn [fst snd] in H1, H2. rewrite append_nil_r in H1.
  assert (Hc : clean s = true)
    by (rewrite Hs, clean_app, Hsg, H1; now apply all_digits_clean).
  assert (S2 : JS.split_sign (JS.trim s) = (neg, body))
    by now rewrite (trim_clean s Hc).
  assert (P : parts body = (String c d, EmptyString, EmptyString))
    by (unfold parts; now rewrite D).
  split; [|exact B].
  unfold Sql.text_to_integer.
  rewrite (text_to_number_parts s body _ _ _ neg S2 P).
  cbv zeta. rewrite append_nil_r. cbn [String.length Z.of_nat Z.opp].
  unfold JS.scale10. cbn [Z.leb Z.compare Z.pow Z.pow_pos Pos.iter Z.mul].
  rewrite Qfloor_Z, (proj2 (Qeq_bool_iff _ _) (Qeq_refl _)).
  rewrite Z.mul_1_r, <- H1. reflexivity.
Qed.

End ValidatedValues.

(* ================================================================== *)
(** ** Bodies that pass [bienValidation] *)

Section ValidatedBodies.

Import Biens Spec Validator Regles.

Lemma run_sanitized_body (b : body) (f : champ) :
  fst (Validator.run bienValidation b) f = sanitized_body b f.
Proof. destruct f; reflexivity. Qed.

Lemma isIn_In (l : list string) (s : string) : isIn l s = true -> In s l.
Proof.
  unfold isIn. rewrite existsb_exists. intros [x [Hx E]].
  apply String.eqb_eq in E. now subst.
Qed.

Lemma isLength_between (lo hi : nat) (s : string) :
  isLength lo hi s = true -> length_between lo hi s.
Proof.
  unfold isLength, length_between.
  rewrite andb_true_iff, !Nat.leb_le. tauto.
Qed.

(** When every chain passes, the engine reads the thirteen parameters
    of the sanitized body, and the values it reads satisfy the rules. *)
Lemma validated_body_binds (b : body) :
  snd (Validator.run bienValidation b) = [] ->
  exists ch,
    Sql.bind_champs (body_params (fst (Validator.run bienValidation b))) = Some ch
    /\ valid_champs ch
    /\ Sql.c_titre ch = JS.trim (toString (b Titre))
    /\ Sql.c_description ch = JS.trim (toString (b Description))
    /\ Sql.c_adresse_complete ch = JS.trim (toString (b AdresseComplete))
    /\ Sql.c_ville ch = JS.trim (toString (b Ville))
    /\ Sql.c_code_postal ch = JS.trim (toString (b CodePostal)).
Proof.
  intros H. rewrite run_bienValidation in H.
  apply flat_map_nil in H.
  assert (Hall : forall ch, In ch bienValidation ->
                            passes (validator ch) (sanitized ch b) = true).
  { intros ch Hch. rewrite Forall_forall in H.
    apply chain_errors_nil. now apply H. }
  clear H.
  unfold body_params. cbn [map]. rewrite !run_sanitized_body.
  unfold sanitized_body. cbn [trimmed_field existsb bienValidation].
  unfold bienValidation in Hall.
  pose proof (Hall _ (or_introl eq_refl)) as H1.
  pose proof (Hall _ (or_intror (or_introl eq_refl))) as H2.
  pose proof (Hall _ (or_intror (or_intror (or_introl eq_refl)))) as H3.
  pose proof (Hall _ (or_intror (or_intror (or_intror (or_introl eq_refl))))) as H4.
  pose proof (Hall _ (or_intror (or_intror (or_intror (or_intror
                (or_introl eq_refl)))))) as H5.
  pose proof (Hall _ (or_intror (or_intror (or_intror (or_intror (or_intror
                (or_introl eq_refl))))))) as H6.
  pose proof (Hall _ (or_intror (or_intror (or_intror (or_intror (or_intror
                (or_intror (or_introl eq_refl)))))))) as H7.
  pose proof (Hall _ (or_intror (or_intror (or_intror (or_intror (or_intror
                (or_intror (or_intror (or_introl eq_refl))))))))) as H8.
  pose proof (Hall _ (or_intror (or_intror (or_intror (or_intror (or_intror
                (or_intror (or_intror (or_intror (or_introl eq_refl)))))))))) as H9.
  pose proof (Hall _ (or_intror (or_intror (or_intror (or_intror (or_intror
                (or_intror (or_intror (or_intror (or_intror
                (or_introl eq_refl))))))))))) as H10.
  pose proof (Hall _ (or_intror (or_intror (or_intror (or_intror (or_intror
                (or_intror (or_intror (or_intror (or_intror (or_intror
                (or_introl eq_refl)))))))))))) as H11.
  pose proof (Hall _ (or_intror (or_intror (or_intror (or_intror (or_intror
                (or_intror (or_intror (or_intror (or_intror (or_intror
                (or_intror (or_introl eq_refl))))))))))))) as H12.
  pose proof (Hall _ (or_intror (or_intror (or_intror (or_intror (or_intror
                (or_intror (or_intror (or_intror (or_intror (or_intror
                (or_intror (or_intror (or_introl eq_refl)))))))))))))) as H13.
  clear Hall.
  unfold sanitized in *; cbn [field trimmed validator passes] in *.
  cbn [champ_eqb andb orb bound Sql.bind_champs Sql.to_text].
  destruct (b TypeBien) as [v3|]; [|discriminate H3].
  destruct (b Statut) as [v4|]; [|discriminate H4].
  destruct (b Prix) as [v5|]; [|discriminate H5].
  destruct (b ModalitePaiement) as [v6|]; [|discriminate H6].
  destruct (b Surface) as [v7|]; [|discriminate H7].
  destruct (b NombrePieces) as [v8|]; [|discriminate H8].
  destruct (b Latitude) as [v12|]; [|discriminate H12].
  destruct (b Longitude) as [v13|]; [|discriminate H13].
  cbn [toString bound Sql.to_text Sql.to_real Sql.to_integer Sql.integer_value] in *.
  destruct (isFloat_stored _ _ _ H5) as [q5 [E5 [_ [L5 _]]]].
  destruct (isFloat_stored _ _ _ H7) as [q7 [E7 [_ [L7 _]]]].
  destruct (isFloat_stored _ _ _ H12) as [q12 [E12 [_ [L12 U12]]]].
  destruct (isFloat_stored _ _ _ H13) as [q13 [E13 [_ [L13 U13]]]].
  destruct (isInt_stored _ _ H8) as [E8 L8].
  rewrite E5, E7, E8, E12, E13.
  apply isLength_between in H1, H2, H9, H10, H11.
  apply isIn_In in H3, H4, H6.
  eexists. split; [reflexivity|].
  unfold valid_champs; cbn [Sql.c_titre Sql.c_description Sql.c_type_bien
    Sql.c_statut Sql.c_prix Sql.c_modalite_paiement Sql.c_surface
    Sql.c_nombre_pieces Sql.c_adresse_complete Sql.c_ville Sql.c_code_postal
    Sql.c_latitude Sql.c_longitude].
  tauto.
Qed.

End ValidatedBodies.

(* ================================================================== *)
(** ** Creating and updating, end to end *)

Section WriteRoutes.

Import Biens Spec Validator Regles.

Lemma next_id_fresh (l : list Db.bien) (b : Db.bien) :
  In b l -> Db.id b < Sql.next_id l.
Proof.
  unfold Sql.next_id. induction l as [|x l IH]; cbn [fold_right]; intros H.
  - destruct H.
  - destruct H as [->|H]; [lia|]. specialize (IH H). lia.
Qed.

Lemma filter_none {A : Type} (f : A -> bool) (l : list A) :
  (forall x, In x l -> f x = false) -> filter f l = [].
Proof.
  induction l as [|x l IH]; cbn [filter]; intros H; [reflexivity|].
  rewrite (H x (or_introl eq_refl)). apply IH. intros y Hy. apply H. now right.
Qed.

(** The row that an INSERT created is the one row with its key. *)
Lemma select_created (db : Db.database) (owner : Z) (ch : Sql.champs) :
  filter (fun b => Sql.id_eq (Db.id b)
                     (Sql.PNum (JS.of_Z (Db.id (Sql.new_bien db owner ch)))))
         (Db.biens db ++ [Sql.new_bien db owner ch])%list
  = [Sql.new_bien db owner ch].
Proof.
  rewrite filter_app, filter_none.
  - cbn [filter app]. now rewrite id_eq_of_Z, Z.eqb_refl.
  - intros x Hx. rewrite id_eq_of_Z. apply Z.eqb_neq.
    pose proof (next_id_fresh _ _ Hx) as Hlt.
    change (Db.id (Sql.new_bien db owner ch)) with (Sql.next_id (Db.biens db)).
    lia.
Qed.

(** What the handler of POST / does with a body that passed the
    checks. *)
Lemma post_handler_run (c : conn) (user_id : Z) (b : body) :
  post_handler c user_id [] b
  = match Sql.bind_champs (body_params b) with
    | Some ch =>
        let new := Sql.new_bien (tables c) user_id ch in
        (respond 201 (Enregistre "Bien créé avec succès" (Some new)),
         {| tables := Sql.with_biens (tables c) (Db.biens (tables c) ++ [new])%list;
            sent := (sent c
                     ++ [(Sql.insert_sql,
                          Sql.PNum (JS.of_Z user_id) :: body_params b);
                         (Sql.select_by_id_sql,
                          [Sql.PNum (JS.of_Z (Db.id new))])])%list |})
    | None =>
        (server_error "Erreur lors de la création du bien",
         {| tables := tables c;
            sent := (sent c
                     ++ [(Sql.insert_sql,
                          Sql.PNum (JS.of_Z user_id) :: body_params b)])%list |})
    end.
Proof.
  unfold post_handler, query. rewrite exec_insert.
  unfold Sql.to_integer. rewrite integer_value_of_Z.
  destruct (Sql.bind_champs (body_params b)) as [ch|]; [|reflexivity].
  cbn [tables sent insert_id]. rewrite exec_select_by_id.
  cbn [Sql.with_biens Db.biens]. rewrite select_created.
  cbn [first_bien]. rewrite <- app_assoc. reflexivity.
Qed.

(** X10. When the handler of POST / answers 201, it has added one row
    at the end of [biens] and changed no other: the new row has a key
    larger than every key of the table, the caller as its owner and
    the values of the body in the thirteen listed columns, and it is
    the row that the answer carries. *)
Theorem create_adds_the_row_it_returns
        (c c' : conn) (user_id : Z) (errors : list validation_error)
        (b : body) (r : response) :
  post_handler c user_id errors b = (r, c') ->
  status r = 201 ->
  exists ch new,
    champs_of_body b ch
    /\ has_champs ch new
    /\ Db.proprietaire_id new = user_id
    /\ (forall old, In old (Db.biens (tables c)) -> Db.id old < Db.id new)
    /\ Db.biens (tables c') = (Db.biens (tables c) ++ [new])%list
    /\ Db.utilisateurs (tables c') = Db.utilisateurs (tables c)
    /\ Db.photos_biens (tables c') = Db.photos_biens (tables c)
    /\ json r = Enregistre "Bien créé avec succès" (Some new).
Proof.
  intros Hrun Hst.
  destruct errors as [|e errors];
    [|cbn in Hrun; injection Hrun as <- <-; discriminate Hst].
  rewrite post_handler_run in Hrun.
  destruct (Sql.bind_champs (body_params b)) as [ch|] eqn:E;
    [|injection Hrun as <- <-; discriminate Hst].
  cbv zeta in Hrun. injection Hrun as <- <-.
  exists ch, (Sql.new_bien (tables c) user_id ch).
  split; [now apply bind_body_params|].
  split; [apply set_champs_frame|].
  split; [reflexivity|].
  split; [intros old Hold; apply (next_id_fresh _ _ Hold)|].
  repeat split.
Qed.

Lemma create_adds_the_row_it_returns_witness :
  exists new,
    Db.id new = 4 /\ Db.proprietaire_id new = 1
    /\ Db.biens (tables (snd (post_biens (Sample.on Sample.agence) 1 Sample.annonce)))
       = (Db.biens Sample.agence ++ [new])%list.
Proof.
  destruct (create_adds_the_row_it_returns
              (Sample.on Sample.agence)
              (snd (post_biens (Sample.on Sample.agence) 1 Sample.annonce))
              1 [] (fst (Validator.run bienValidation Sample.annonce))
              (fst (post_biens (Sample.on Sample.agence) 1 Sample.annonce)))
    as [ch [new [_ [_ [H3 [_ [H5 _]]]]]]].
  - vm_compute. reflexivity.
  - vm_compute. reflexivity.
  - exists new. split; [|split; [exact H3 | exact H5]].
    assert (H : last (Db.biens (tables (Sample.on Sample.agence)) ++ [new])%list
                     new = new)
      by apply last_last.
    rewrite <- H5 in H. rewrite <- H. vm_compute. reflexivity.
Defined.

Lemma post_biens_handler (c : conn) (user_id : Z) (b : body) :
  post_biens c user_id b
  = post_handler c user_id (snd (Validator.run bienValidation b))
                 (fst (Validator.run bienValidation b)).
Proof. unfold post_biens. now destruct (Validator.run bienValidation b). Qed.

Lemma put_handler_run (c : conn) (bienId : string) (b : body) :
  put_handler c bienId [] b
  = match Sql.bind_champs (body_params b) with
    | Some ch =>
        let rows :=
          map (fun x => if Sql.id_eq (Db.id x) (Sql.PText bienId)
                        then Sql.set_champs ch x else x)
              (Db.biens (tables c)) in
        (respond 200
           (Enregistre "Bien mis à jour avec succès"
              (hd_error
                 (filter (fun x => Sql.id_eq (Db.id x) (Sql.PText bienId)) rows))),
         {| tables := Sql.with_biens (tables c) rows;
            sent := (sent c
                     ++ [(Sql.update_sql,
                          (body_params b ++ [Sql.PText bienId])%list);
                         (Sql.select_by_id_sql, [Sql.PText bienId])])%list |})
    | None =>
        (server_error "Erreur lors de la modification du bien",
         {| tables := tables c;
            sent := (sent c
                     ++ [(Sql.update_sql,
                          (body_params b ++ [Sql.PText bienId])%list)])%list |})
    end.
Proof.
  unfold put_handler, query. rewrite exec_update.
  replace (firstn 13 (body_params b ++ [Sql.PText bienId])%list)
    with (body_params b) by reflexivity.
  replace (skipn 13 (body_params b ++ [Sql.PText bienId])%list)
    with [Sql.PText bienId] by reflexivity.
  destruct (Sql.bind_champs (body_params b)) as [ch|]; [|reflexivity].
  cbn [tables sent]. rewrite exec_select_by_id.
  cbn [Sql.with_biens Db.biens]. rewrite <- app_assoc.
  cbv zeta. unfold first_bien.
  destruct (filter _ _); reflexivity.
Qed.

(** X11. For a body whose fields are texts (each field absent or one
    string, not an array or an object), validation decides the answer
    of both writing routes and is enough for the statement to run: when
    a chain of [bienValidation] fails the route answers 400, and when
    none fails every value is read by its column, POST / answers 201
    and PUT /:id answers 200. *)
Theorem validation_decides_the_answer
        (c : conn) (user_id : Z) (bienId : string)
        (b : champ -> option string) :
  (snd (Validator.run bienValidation b) = [] ->
   status (fst (post_biens c user_id b)) = 201
   /\ status (fst (put_bien c bienId b)) = 200)
  /\ (snd (Validator.run bienValidation b) <> [] ->
      status (fst (post_biens c user_id b)) = 400
      /\ status (fst (put_bien c bienId b)) = 400).
Proof.
  rewrite post_biens_handler, put_bien_handler. split.
  - intros H. destruct (validated_body_binds b H) as [ch [Hch _]].
    rewrite H, post_handler_run, put_handler_run, Hch. split; reflexivity.
  - intros H. destruct (snd (Validator.run bienValidation b));
      [contradiction | split; reflexivity].
Qed.

Lemma validation_decides_the_answer_witness :
  status (fst (post_biens (Sample.on Sample.agence) 1 Sample.annonce)) = 201
  /\ status (fst (put_bien (Sample.on Sample.agence) "2" Sample.annonce)) = 200.
Proof.
  exact (proj1 (validation_decides_the_answer
                  (Sample.on Sample.agence) 1 "2" Sample.annonce) eq_refl).
Defined.

Lemma set_champs_champs_of (ch : Sql.champs) (old : Db.bien) :
  champs_of (Sql.set_champs ch old) = ch.
Proof. destruct ch; reflexivity. Qed.

Lemma trimmed_texts_of (b : body) (ch : Sql.champs) (old : Db.bien) :
  Sql.c_titre ch = JS.trim (toString (b Titre)) ->
  Sql.c_description ch = JS.trim (toString (b Description)) ->
  Sql.c_adresse_complete ch = JS.trim (toString (b AdresseComplete)) ->
  Sql.c_ville ch = JS.trim (toString (b Ville)) ->
  Sql.c_code_postal ch = JS.trim (toString (b CodePostal)) ->
  trimmed_texts b (Sql.set_champs ch old).
Proof. unfold trimmed_texts; cbn. tauto. Qed.

(** X12. The row that POST / creates satisfies the rules of
    [bienValidation] (lengths of the texts, the three enumerations,
    price and surface at least 0.01, rooms not negative, latitude and
    longitude in range), its text columns hold the texts of the request
    without the white space around them, and its owner is the
    caller. *)
Theorem created_row_satisfies_the_rules
        (c c' : conn) (user_id : Z) (b : body) (r : response) :
  post_biens c user_id b = (r, c') ->
  status r = 201 ->
  exists new,
    Db.biens (tables c') = (Db.biens (tables c) ++ [new])%list
    /\ valid_bien new
    /\ trimmed_texts b new
    /\ Db.proprietaire_id new = user_id.
Proof.
  rewrite post_biens_handler. intros Hrun Hst.
  destruct (snd (Validator.run bienValidation b)) as [|e l] eqn:E;
    [|apply pair_equal_spec in Hrun; destruct Hrun as [<- <-];
      discriminate Hst].
  destruct (validated_body_binds b E) as [ch [Hch [Hv [T1 [T2 [T3 [T4 T5]]]]]]].
  rewrite post_handler_run, Hch in Hrun. cbv zeta in Hrun.
  apply pair_equal_spec in Hrun. destruct Hrun as [<- <-].
  exists (Sql.new_bien (tables c) user_id ch).
  split; [reflexivity|]. split; [|split; [|reflexivity]].
  - unfold valid_bien, Sql.new_bien. now rewrite set_champs_champs_of.
  - now apply trimmed_texts_of.
Qed.

Lemma created_row_satisfies_the_rules_witness :
  exists new,
    Db.biens (tables (snd (post_biens (Sample.on Sample.agence) 1 Sample.annonce)))
    = (Db.biens Sample.agence ++ [new])%list
    /\ valid_bien new
    /\ trimmed_texts Sample.annonce new.
Proof.
  destruct (created_row_satisfies_the_rules
              (Sample.on Sample.agence)
              (snd (post_biens (Sample.on Sample.agence) 1 Sample.annonce))
              1 Sample.annonce
              (fst (post_biens (Sample.on Sample.agence) 1 Sample.annonce)))
    as [new [H1 [H2 [H3 _]]]].
  - vm_compute. reflexivity.
  - vm_compute. reflexivity.
  - exists new. auto.
Defined.

(** X13. When PUT /:id answers 200, every row with the key of the
    request satisfies the rules of [bienValidation] and holds the
    texts of the request without the white space around them; the
    other rows are unchanged. *)
Theorem updated_rows_satisfy_the_rules
        (c c' : conn) (bienId : string) (b : body) (r : response) :
  put_bien c bienId b = (r, c') ->
  status r = 200 ->
  Forall2
    (fun old new =>
       if Sql.id_eq (Db.id old) (Sql.PText bienId)
       then valid_bien new /\ trimmed_texts b new
       else new = old)
    (Db.biens (tables c)) (Db.biens (tables c')).
Proof.
  rewrite put_bien_handler. intros Hrun Hst.
  destruct (snd (Validator.run bienValidation b)) as [|e l] eqn:E;
    [|apply pair_equal_spec in Hrun; destruct Hrun as [<- <-];
      discriminate Hst].
  destruct (validated_body_binds b E) as [ch [Hch [Hv [T1 [T2 [T3 [T4 T5]]]]]]].
  rewrite put_handler_run, Hch in Hrun. cbv zeta in Hrun.
  apply pair_equal_spec in Hrun. destruct Hrun as [<- <-].
  cbn [tables Sql.with_biens Db.biens].
  clear Hst.
  induction (Db.biens (tables c)) as [|old rows IH]; cbn [map];
    [constructor|]. constructor; [|exact IH].
  destruct (Sql.id_eq (Db.id old) (Sql.PText bienId)); [|reflexivity].
  split.
  - unfold valid_bien. now rewrite set_champs_champs_of.
  - now apply trimmed_texts_of.
Qed.

Lemma updated_rows_satisfy_the_rules_witness :
  Forall2
    (fun old new =>
       if Sql.id_eq (Db.id old) (Sql.PText "2")
       then valid_bien new /\ trimmed_texts Sample.annonce new
       else new = old)
    (Db.biens Sample.agence)
    (Db.biens (tables (snd (put_bien (Sample.on Sample.agence) "2" Sample.annonce)))).
Proof.
  apply (updated_rows_satisfy_the_rules
           (Sample.on Sample.agence)
           (snd (put_bien (Sample.on Sample.agence) "2" Sample.annonce))
           "2" Sample.annonce
           (fst (put_bien (Sample.on Sample.agence) "2" Sample.annonce))).
  - vm_compute. reflexivity.
  - vm_compute. reflexivity.
Defined.

(** An error of the validation names the field of a chain of the list,
    carries the message of that chain, and its value fails the check of
    the chain. *)
Lemma run_errors_of_chains (cs : list chain) (b : body) (e : validation_error) :
  In e (snd (Validator.run cs b)) ->
  exists ch,
    In ch cs
    /\ param e = name (field ch)
    /\ msg e = message ch
    /\ passes (validator ch) (value e) = false.
Proof.
  revert b. induction cs as [|ch cs IH]; intros b H.
  - destruct H.
  - cbn [Validator.run] in H.
    destruct (run_chain ch b) as [b1 e1] eqn:E1.
    destruct (Validator.run cs b1) as [b2 e2] eqn:E2.
    cbn [snd] in H. apply in_app_or in H. destruct H as [H|H].
    + exists ch. split; [now left|].
      unfold run_chain in E1. injection E1 as _ <-.
      destruct (passes (validator ch) _) eqn:P; [destruct H|].
      destruct H as [<-|[]]. cbn [param msg value]. auto.
    + specialize (IH b1). rewrite E2 in IH. destruct (IH H) as [ch' [Hin Hch]].
      exists ch'. split; [now right | exact Hch].
Qed.

(** X14. A request that fails a chain of [bienValidation] is answered
    400 by POST / and by PUT /:id with the errors of the validation,
    and the connection is left as it was: no statement is sent.  Each
    error names the field of a chain, carries the message of that
    chain, and its value fails the check of the chain. *)
Theorem invalid_body_is_rejected_untouched
        (c : conn) (user_id : Z) (bienId : string) (b : body) :
  snd (Validator.run bienValidation b) <> [] ->
  let errors := snd (Validator.run bienValidation b) in
  post_biens c user_id b = (respond 400 (Invalide "Données invalides" errors), c)
  /\ put_bien c bienId b = (respond 400 (Invalide "Données invalides" errors), c)
  /\ forall e, In e errors ->
       exists ch,
         In ch bienValidation
         /\ param e = name (field ch)
         /\ msg e = message ch
         /\ passes (validator ch) (value e) = false.
Proof.
  intros H. cbv zeta.
  rewrite post_biens_handler, put_bien_handler.
  split; [|split].
  - destruct (snd (Validator.run bienValidation b));
      [contradiction | reflexivity].
  - destruct (snd (Validator.run bienValidation b));
      [contradiction | reflexivity].
  - intros e He. exact (run_errors_of_chains bienValidation b e He).
Qed.

Lemma invalid_body_is_rejected_untouched_witness :
  put_bien (Sample.on Sample.agence) "2" (set Latitude "91" Sample.annonce)
  = (respond 400
       (Invalide "Données invalides"
          [{| param := "latitude"; msg := "Latitude invalide"; value := "91" |}]),
     Sample.on Sample.agence).
Proof.
  destruct (invalid_body_is_rejected_untouched
              (Sample.on Sample.agence) 1 "2" (set Latitude "91" Sample.annonce))
    as [_ [H _]].
  - vm_compute. discriminate.
  - rewrite H. vm_compute. reflexivity.
Defined.

End WriteRoutes.

(* ================================================================== *)
(** ** The answer of PUT /:id *)

Section UpdateAnswers.

Import Biens Spec Validator.

(** The row that the handler reads back after the UPDATE. *)
Lemma updated_row_read_back (ch : Sql.champs) (p : Sql.param) (l : list Db.bien) :
  let rows := map (fun x => if Sql.id_eq (Db.id x) p
                            then Sql.set_champs ch x else x) l in
  match hd_error (filter (fun x => Sql.id_eq (Db.id x) p) rows) with
  | Some x => In x rows /\ Sql.id_eq (Db.id x) p = true /\ has_champs ch x
  | None => rows = l /\ forall old, In old l -> Sql.id_eq (Db.id old) p = false
  end.
Proof.
  cbv zeta. induction l as [|old l IH]; cbn [map filter hd_error].
  - split; [reflexivity | intros old []].
  - destruct (Sql.id_eq (Db.id old) p) eqn:E.
    + change (Db.id (Sql.set_champs ch old)) with (Db.id old). rewrite E.
      cbn [hd_error]. split; [now left|]. split; [exact E|].
      apply set_champs_frame.
    + rewrite E.
      destruct (hd_error (filter _ _)) as [x|].
      * destruct IH as [H1 H2]. split; [now right | exact H2].
      * destruct IH as [H1 H2]. split; [now rewrite H1|].
        intros o [<-|Ho]; [exact E | now apply H2].
Qed.

(** X15. When PUT /:id answers 200, the property of the answer is the
    first row with the key of the request as the table holds it after
    the UPDATE, with the values of the body in the thirteen listed
    columns; when no row has the key, the route still answers 200,
    without a property, and the table is unchanged. *)
Theorem update_answers_with_the_stored_row
        (c c' : conn) (bienId : string) (errors : list validation_error)
        (b : body) (r : response) :
  put_handler c bienId errors b = (r, c') ->
  status r = 200 ->
  exists ch bien,
    champs_of_body b ch
    /\ json r = Enregistre "Bien mis à jour avec succès" bien
    /\ match bien with
       | Some x =>
           In x (Db.biens (tables c'))
           /\ Sql.id_eq (Db.id x) (Sql.PText bienId) = true
           /\ has_champs ch x
       | None =>
           Db.biens (tables c') = Db.biens (tables c)
           /\ forall old, In old (Db.biens (tables c)) ->
                          Sql.id_eq (Db.id old) (Sql.PText bienId) = false
       end.
Proof.
  intros Hrun Hst.
  destruct errors as [|e errors];
    [|apply pair_equal_spec in Hrun; destruct Hrun as [<- <-];
      discriminate Hst].
  rewrite put_handler_run in Hrun.
  destruct (Sql.bind_champs (body_params b)) as [ch|] eqn:E;
    [|apply pair_equal_spec in Hrun; destruct Hrun as [<- <-];
      discriminate Hst].
  cbv zeta in Hrun. apply pair_equal_spec in Hrun. destruct Hrun as [<- <-].
  exists ch. eexists. split; [now apply bind_body_params|].
  split; [reflexivity|].
  cbn [tables Sql.with_biens Db.biens].
  apply (updated_row_read_back ch (Sql.PText bienId) (Db.biens (tables c))).
Qed.

Lemma update_answers_with_the_stored_row_witness :
  exists ch,
    champs_of_body (fst (Validator.run bienValidation Sample.annonce)) ch
    /\ json (fst (put_bien (Sample.on Sample.agence) "9" Sample.annonce))
       = Enregistre "Bien mis à jour avec succès" None.
Proof.
  destruct (update_answers_with_the_stored_row
              (Sample.on Sample.agence)
              (snd (put_bien (Sample.on Sample.agence) "9" Sample.annonce))
              "9" [] (fst (Validator.run bienValidation Sample.annonce))
              (fst (put_bien (Sample.on Sample.agence) "9" Sample.annonce)))
    as [ch [bien [H1 [H2 _]]]].
  - vm_compute. reflexivity.
  - vm_compute. reflexivity.
  - exists ch. split; [exact H1|]. vm_compute. reflexivity.
Defined.

End UpdateAnswers.

(* ================================================================== *)
(** ** The seller's routes *)

Section SellerRoutes.

Import Biens Spec Literal Invariants.

Lemma exec_mes_biens (s : Vendeur.store) (ps : list Sql.param) :
  Vendeur.exec s Vendeur.mes_biens_sql ps
  = match ps with
    | [powner] =>
        Some (Vendeur.MesBiens
                (Sql.order_by Vendeur.plus_recent
                   (map (Vendeur.mes_bien_of s)
                      (filter (fun b => Sql.id_eq (Db.proprietaire_id b) powner)
                              (Db.biens (Vendeur.base s))))),
              s)
    | _ => None
    end.
Proof.
  unfold Vendeur.exec.
  replace (String.eqb Vendeur.mes_biens_sql Vendeur.mes_biens_sql) with true
    by (symmetry; apply String.eqb_refl).
  reflexivity.
Qed.

Lemma exec_delete (s : Vendeur.store) (ps : list Sql.param) :
  Vendeur.exec s Vendeur.delete_sql ps
  = match ps with
    | [pid] =>
        Some (Vendeur.Autre (Sql.Done 0),
              Vendeur.with_base s
                (Sql.with_biens (Vendeur.base s)
                   (filter (fun b => negb (Sql.id_eq (Db.id b) pid))
                           (Db.biens (Vendeur.base s)))))
    | _ => None
    end.
Proof.
  unfold Vendeur.exec.
  replace (String.eqb Vendeur.delete_sql Vendeur.mes_biens_sql) with false
    by (vm_compute; reflexivity).
  replace (String.eqb Vendeur.delete_sql Vendeur.delete_sql) with true
    by (symmetry; apply String.eqb_refl).
  reflexivity.
Qed.

Lemma get_mes_biens_run (c : Vendeur.connexion) (user_id : Z) :
  Vendeur.get_mes_biens c user_id
  = ({| Vendeur.status := 200;
        Vendeur.json :=
          Vendeur.Biens
            (Vendeur.MesBiens
               (Sql.order_by Vendeur.plus_recent
                  (map (Vendeur.mes_bien_of (Vendeur.tables c))
                     (filter (fun b => Db.proprietaire_id b =? user_id)
                             (Db.biens (Vendeur.base (Vendeur.tables c))))))) |},
     {| Vendeur.tables := Vendeur.tables c;
        Vendeur.sent :=
          (Vendeur.sent c
           ++ [(Vendeur.mes_biens_sql, [Sql.PNum (JS.of_Z user_id)])])%list |}).
Proof.
  unfold Vendeur.get_mes_biens, Vendeur.query. rewrite exec_mes_biens.
  replace (filter (fun b => Sql.id_eq (Db.proprietaire_id b)
                                      (Sql.PNum (JS.of_Z user_id)))
                  (Db.biens (Vendeur.base (Vendeur.tables c))))
    with (filter (fun b => Db.proprietaire_id b =? user_id)
                 (Db.biens (Vendeur.base (Vendeur.tables c))))
    by (apply filter_ext; intros b; now rewrite id_eq_of_Z).
  reflexivity.
Qed.

(** X16. GET /mes-biens answers 200 with the properties of the caller
    and no others, each once, published or not, the newest first, and
    changes no table. *)
Theorem seller_list_is_the_callers_properties
        (c : Vendeur.connexion) (user_id : Z) :
  exists rows,
    fst (Vendeur.get_mes_biens c user_id)
    = {| Vendeur.status := 200;
         Vendeur.json := Vendeur.Biens (Vendeur.MesBiens rows) |}
    /\ Permutation
         (map Vendeur.m_bien rows)
         (filter (fun b => Db.proprietaire_id b =? user_id)
                 (Db.biens (Vendeur.base (Vendeur.tables c))))
    /\ in_order Vendeur.plus_recent rows
    /\ Vendeur.tables (snd (Vendeur.get_mes_biens c user_id)) = Vendeur.tables c.
Proof.
  rewrite get_mes_biens_run. eexists. split; [reflexivity|].
  split; [|split; [|reflexivity]].
  - eapply perm_trans.
    + apply Permutation_map, order_by_perm.
    + rewrite map_map. cbn [Vendeur.mes_bien_of Vendeur.m_bien].
      rewrite map_id. apply Permutation_refl.
  - apply order_by_sorted. exact plus_recent_asym.
Qed.

Lemma delete_bien_run (c : Vendeur.connexion) (bienId : string) :
  Vendeur.delete_bien c bienId
  = ({| Vendeur.status := 200;
        Vendeur.json := Vendeur.Message "Bien supprimé avec succès" |},
     {| Vendeur.tables :=
          Vendeur.with_base (Vendeur.tables c)
            (Sql.with_biens (Vendeur.base (Vendeur.tables c))
               (filter (fun b => negb (Sql.id_eq (Db.id b) (Sql.PText bienId)))
                       (Db.biens (Vendeur.base (Vendeur.tables c)))));
        Vendeur.sent :=
          (Vendeur.sent c ++ [(Vendeur.delete_sql, [Sql.PText bienId])])%list |}).
Proof.
  unfold Vendeur.delete_bien, Vendeur.query. now rewrite exec_delete.
Qed.

Lemma filter_twice {A : Type} (f : A -> bool) (l : list A) :
  filter f (filter f l) = filter f l.
Proof.
  induction l as [|x l IH]; cbn [filter]; [reflexivity|].
  destruct (f x) eqn:E; cbn [filter]; [rewrite E; now f_equal | exact IH].
Qed.

Lemma filter_all {A : Type} (f : A -> bool) (l : list A) :
  (forall x, In x l -> f x = true) -> filter f l = l.
Proof.
  induction l as [|x l IH]; cbn [filter]; intros H; [reflexivity|].
  rewrite (H x (or_introl eq_refl)). f_equal. apply IH.
  intros y Hy. apply H. now right.
Qed.

(** X17. The handler of DELETE /:id removes from [biens] the rows whose
    key is the identifier of the request and no other row; a second
    request with the same identifier finds nothing to remove and is
    answered like the first, with 200 and the same message. *)
Theorem delete_removes_the_rows_with_the_key
        (c : Vendeur.connexion) (bienId : string) :
  let after := snd (Vendeur.delete_bien c bienId) in
  (forall b,
      In b (Db.biens (Vendeur.base (Vendeur.tables after)))
      <-> In b (Db.biens (Vendeur.base (Vendeur.tables c)))
          /\ Sql.id_eq (Db.id b) (Sql.PText bienId) = false)
  /\ Vendeur.tables (snd (Vendeur.delete_bien after bienId))
     = Vendeur.tables after
  /\ fst (Vendeur.delete_bien after bienId) = fst (Vendeur.delete_bien c bienId)
  /\ Vendeur.status (fst (Vendeur.delete_bien c bienId)) = 200.
Proof.
  cbv zeta. rewrite !delete_bien_run.
  cbn [fst snd Vendeur.tables Vendeur.with_base Vendeur.base Sql.with_biens
       Db.biens Vendeur.status].
  split; [|split; [|split; reflexivity]].
  - intros b. rewrite filter_In, negb_true_iff. reflexivity.
  - unfold Vendeur.with_base, Sql.with_biens.
    cbn [Vendeur.base Vendeur.conversations Db.biens Db.utilisateurs
         Db.photos_biens Db.default_statut_publication Db.horloge].
    now rewrite filter_twice.
Qed.

(** A request for a key that no row has changes no table. *)
Lemma delete_bien_no_match (c : Vendeur.connexion) (bienId : string) :
  (forall b, In b (Db.biens (Vendeur.base (Vendeur.tables c))) ->
             Sql.id_eq (Db.id b) (Sql.PText bienId) = false) ->
  Db.biens (Vendeur.base (Vendeur.tables (snd (Vendeur.delete_bien c bienId))))
  = Db.biens (Vendeur.base (Vendeur.tables c)).
Proof.
  intros H. rewrite delete_bien_run.
  cbn [snd Vendeur.tables Vendeur.with_base Vendeur.base Sql.with_biens Db.biens].
  apply filter_all. intros b Hb. now rewrite (H b Hb).
Qed.

(** *** Identifiers written as positive integers *)

Lemma positive_text_digits (s : string) :
  positive_integer_text s = true ->
  all_digits s = true /\ JS.span_digits s = (s, EmptyString)
  /\ s <> EmptyString /\ 0 < JS.digits_value s.
Proof.
  unfold positive_integer_text. intros H.
  destruct (span_digits_spec s) as [H1 H2].
  destruct (JS.span_digits s) as [d r] eqn:E. cbn [fst snd] in H1, H2.
  destruct d as [|x d]; [discriminate H|].
  destruct r; [|discriminate H].
  rewrite append_nil_r in H1. subst s.
  repeat split; [exact H2 | discriminate | now apply Z.ltb_lt].
Qed.

Lemma digit_cases (c : ascii) :
  JS.is_digit c = true ->
  In c ["0"; "1"; "2"; "3"; "4"; "5"; "6"; "7"; "8"; "9"]%char.
Proof.
  intros H.
  destruct c as [[] [] [] [] [] [] [] []]; try discriminate H; cbn; tauto.
Qed.

Ltac each_digit H :=
  apply digit_cases in H; cbn [In] in H;
  repeat (destruct H as [<-|H]); [..|contradiction].

Lemma split_sign_digits (s : string) :
  all_digits s = true -> JS.split_sign s = (false, s).
Proof.
  destruct s as [|x s]; [reflexivity|]. cbn [all_digits].
  rewrite andb_true_iff. intros [H _].
  each_digit H; reflexivity.
Qed.

Lemma parseInt_digits (s : string) :
  positive_integer_text s = true ->
  JS.parseInt s = JS.of_Z (JS.digits_value s).
Proof.
  intros H. destruct (positive_text_digits s H) as [Hd [Hs [Hne _]]].
  unfold JS.parseInt.
  rewrite (trim_start_clean s (all_digits_clean s Hd)), (split_sign_digits s Hd).
  destruct s as [|x s]; [contradiction|].
  cbn [all_digits] in Hd. apply andb_true_iff in Hd. destruct Hd as [Hx Hd].
  destruct s as [|y s].
  - rewrite Hs. each_digit Hx; reflexivity.
  - cbn [all_digits] in Hd. apply andb_true_iff in Hd. destruct Hd as [Hy _].
    rewrite Hs. each_digit Hx; each_digit Hy; reflexivity.
Qed.

Lemma text_to_number_digits (s : string) :
  positive_integer_text s = true ->
  Sql.text_to_number s = Some (inject_Z (JS.digits_value s)).
Proof.
  intros H. destruct (positive_text_digits s H) as [Hd [Hs [Hne _]]].
  unfold Sql.text_to_number.
  rewrite (trim_clean s (all_digits_clean s Hd)), (split_sign_digits s Hd), Hs.
  destruct s as [|x s]; [contradiction|].
  rewrite append_nil_r. unfold JS.signed, JS.scale10.
  cbn [String.length Z.of_nat Z.opp Z.leb Z.compare Z.pow Z.pow_pos].
  now rewrite Z.mul_1_r.
Qed.

(** The key test of DELETE, on an identifier written as a positive
    integer, is the key test of GET /:id. *)
Lemma id_eq_positive_text (s : string) (col : Z) :
  positive_integer_text s = true ->
  Sql.id_eq col (Sql.PText s) = (col =? JS.digits_value s).
Proof.
  intros H. unfold Sql.id_eq. rewrite (text_to_number_digits s H).
  apply Qeq_bool_inject.
Qed.

(** X18. When DELETE /:id answers 200 for an identifier written as a
    positive integer that is a safe integer, which [parseInt] reads
    exactly, GET /:id then answers 404 for that identifier. *)
Theorem deleted_property_is_not_found (c : Vendeur.connexion) (bienId : string) :
  positive_integer_text bienId = true ->
  safe_integer (JS.digits_value bienId) ->
  Vendeur.status (fst (Vendeur.delete_bien c bienId)) = 200 ->
  fst (get_bien (Vendeur.public (snd (Vendeur.delete_bien c bienId))) bienId)
  = respond 404
      (Erreur "Bien non trouvé"
              "Le bien demandé n'existe pas ou n'est pas publié").
Proof.
  intros H _ _. destruct (positive_text_digits bienId H) as [_ [_ [_ Hpos]]].
  rewrite (get_bien_run _ bienId _ (parseInt_digits bienId H)).
  replace (JS.digits_value bienId <=? 0) with false
    by (symmetry; apply Z.leb_gt; exact Hpos).
  rewrite delete_bien_run.
  cbn [snd Vendeur.public Vendeur.tables Vendeur.with_base Vendeur.base tables].
  match goal with
  | |- context [fiches ?db ?n] =>
      assert (Hnil : fiches db n = [])
  end.
  { apply fiches_nil. cbn [Sql.with_biens Db.biens]. intros b Hb Hid _.
    apply filter_In in Hb. destruct Hb as [_ Hb].
    rewrite (id_eq_positive_text bienId (Db.id b) H) in Hb.
    apply negb_true_iff, Z.eqb_neq in Hb. contradiction. }
  rewrite Hnil. reflexivity.
Qed.

Lemma deleted_property_is_not_found_witness :
  status (fst (get_bien (Vendeur.public Fixtures.boutique) "1")) = 200
  /\ status (fst (get_bien (Vendeur.public
                              (snd (Vendeur.delete_bien Fixtures.boutique "1")))
                           "1")) = 404.
Proof.
  split; [vm_compute; reflexivity|].
  rewrite (deleted_property_is_not_found Fixtures.boutique "1");
    [reflexivity | vm_compute; reflexivity
     | unfold safe_integer; vm_compute; split; discriminate
     | vm_compute; reflexivity].
Defined.

End SellerRoutes.
